(** * sleep_scheduler.py: a countdown that suspends or hibernates the machine

    A shallow embedding of [sleep_scheduler.py] and the properties of its
    countdown, its background worker, its settings file and its ring display.

    Layout:
    - [Py]: the Python builtins the program calls ([int], [str], [divmod],
      the format specification [02], true division and the floats);
    - [Json]: the documents [json.load] returns and [json.dump] writes;
    - [CircularTimerWidget]: the ring display and its [paintEvent];
    - [SleepScheduler]: the window, its handlers, the worker thread and the
      event loop that dispatches to them;
    - [Stages], [Readback], [Drag]: the stages of the worker and counts over
      the outputs, the arc and the label read back, the mouse handlers;
    - the theorems. *)

From Stdlib Require Import ZArith QArith Lia Bool Ascii String List.
From Stdlib Require Import DecimalString DecimalPos SpecFloat.
From stdpp Require Import base tactics option list.

Import ListNotations.
Local Open Scope string_scope.
Local Open Scope Z_scope.

(* ===================================================================== *)
(** * Python builtins *)
(* ===================================================================== *)

Module Py.

(** Text is a Python [str], held as its UTF-8 bytes (a lone surrogate as
    the three bytes it takes).  [isspace] is the white space [int] skips
    in ASCII text: the six characters of C's [isspace], which leaves out
    the separators 28 to 31 that [str.isspace] counts in. *)
Definition isspace (c : ascii) : bool :=
  let n := nat_of_ascii c in
  ((9 <=? n)%nat && (n <=? 13)%nat) || (n =? 32)%nat.

Definition isdigit (c : ascii) : bool :=
  let n := nat_of_ascii c in (48 <=? n)%nat && (n <=? 57)%nat.

Definition digit_value (c : ascii) : Z := Z.of_nat (nat_of_ascii c) - 48.

Fixpoint lstrip (s : string) : string :=
  match s with
  | String c s' => if isspace c then lstrip s' else s
  | EmptyString => EmptyString
  end.

Fixpoint rev_string (acc s : string) : string :=
  match s with
  | String c s' => rev_string (String c acc) s'
  | EmptyString => acc
  end.

Definition strip (s : string) : string :=
  rev_string "" (lstrip (rev_string "" (lstrip s))).

(** The digits after the first one: a single underscore may separate two
    digits, and the literal may not end in one. *)
Fixpoint int_digits (acc : Z) (after_underscore : bool) (s : string)
  : option Z :=
  match s with
  | EmptyString => if after_underscore then None else Some acc
  | String c s' =>
      if isdigit c then int_digits (10 * acc + digit_value c) false s'
      else if Ascii.eqb c "_"%char then
        if after_underscore then None else int_digits acc true s'
      else None
  end.

(** CPython (3.11 and later) refuses a literal of more than 4300 digits. *)
Definition max_str_digits : nat := 4300.

Fixpoint count_digits (s : string) : nat :=
  match s with
  | String c s' => if isdigit c then S (count_digits s') else count_digits s'
  | EmptyString => O
  end.

Definition int_unsigned (s : string) : option Z :=
  match s with
  | String c s' =>
      if isdigit c then
        if (count_digits s <=? max_str_digits)%nat
        then int_digits (digit_value c) false s'
        else None
      else None
  | EmptyString => None
  end.

(** [int] on ASCII text, in base 10; [None] stands for [ValueError]. *)
Definition int_ascii (text : string) : option Z :=
  match strip text with
  | String "+"%char s => int_unsigned s
  | String "-"%char s => Z.opp <$> int_unsigned s
  | s => int_unsigned s
  end.

(** Text that is not ASCII is first brought to ASCII, code point by code
    point: one under 127 is kept, Unicode white space becomes a blank, a
    decimal digit of any script becomes the ASCII digit of its value, and
    at anything else the text is cut and ends in a question mark. *)
Fixpoint is_ascii (s : string) : bool :=
  match s with
  | String c s' => (N_of_ascii c <? 128)%N && is_ascii s'
  | EmptyString => true
  end.

Definition continuation (c : ascii) : option N :=
  let b := N_of_ascii c in
  if ((128 <=? b) && (b <? 192))%N then Some (b - 128)%N else None.

(** The code points of a text; [None] for bytes that encode none. *)
Fixpoint decode (s : string) : option (list N) :=
  match s with
  | EmptyString => Some []
  | String c0 s1 =>
      let b0 := N_of_ascii c0 in
      if (b0 <? 128)%N then cons b0 <$> decode s1
      else if (b0 <? 194)%N then None
      else if (b0 <? 224)%N then
        match s1 with
        | String c1 s2 =>
            match continuation c1 with
            | Some x1 => cons ((b0 - 192) * 64 + x1)%N <$> decode s2
            | None => None
            end
        | EmptyString => None
        end
      else if (b0 <? 240)%N then
        match s1 with
        | String c1 (String c2 s3) =>
            match continuation c1, continuation c2 with
            | Some x1, Some x2 =>
                let cp := ((b0 - 224) * 4096 + x1 * 64 + x2)%N in
                if (2048 <=? cp)%N then cons cp <$> decode s3 else None
            | _, _ => None
            end
        | _ => None
        end
      else if (b0 <? 245)%N then
        match s1 with
        | String c1 (String c2 (String c3 s4)) =>
            match continuation c1, continuation c2, continuation c3 with
            | Some x1, Some x2, Some x3 =>
                let cp := ((b0 - 240) * 262144 + x1 * 4096 + x2 * 64 + x3)%N in
                if ((65536 <=? cp) && (cp <? 1114112))%N
                then cons cp <$> decode s4 else None
            | _, _, _ => None
            end
        | _ => None
        end
      else None
  end.

(** White space above 127 (the property [White_Space] of Unicode). *)
Definition unicode_isspace (cp : N) : bool :=
  existsb (N.eqb cp) [133; 160; 5760; 8232; 8233; 8239; 8287; 12288]%N
  || ((8192 <=? cp) && (cp <=? 8202))%N.

(** The decimal digits of Unicode 14.0, the database of CPython 3.11: each
    script has its ten digits in a row, from the zero listed here. *)
Definition decimal_zeros : list N :=
  [48; 1632; 1776; 1984; 2406; 2534; 2662; 2790; 2918; 3046; 3174; 3302;
   3430; 3558; 3664; 3792; 3872; 4160; 4240; 6112; 6160; 6470; 6608; 6784;
   6800; 6992; 7088; 7232; 7248; 42528; 43216; 43264; 43472; 43504; 43600;
   44016; 65296; 66720; 68912; 69734; 69872; 69942; 70096; 70384; 70736;
   70864; 71248; 71360; 71472; 71904; 72016; 72784; 73040; 73120; 92768;
   92864; 93008; 120782; 120792; 120802; 120812; 120822; 123200; 123632;
   125264; 130032]%N.

Definition unicode_decimal (cp : N) : option N :=
  (fun zero => (cp - zero)%N)
    <$> List.find (fun zero => ((zero <=? cp) && (cp <? zero + 10))%N)
                  decimal_zeros.

Fixpoint to_ascii (points : list N) : string :=
  match points with
  | [] => ""
  | cp :: rest =>
      if (cp <? 127)%N then String (ascii_of_N cp) (to_ascii rest)
      else if unicode_isspace cp then String " "%char (to_ascii rest)
      else match unicode_decimal cp with
           | Some d => String (ascii_of_N (48 + d)) (to_ascii rest)
           | None => "?"
           end
  end.

(** [int(text)] in base 10; [None] stands for [ValueError].  ASCII text is
    read as it is; bytes that encode no text are refused. *)
Definition int (text : string) : option Z :=
  if is_ascii text then int_ascii text
  else match decode text with
       | Some points => int_ascii (to_ascii points)
       | None => None
       end.

(** A text given by its bytes. *)
Definition of_bytes (bytes : list N) : string :=
  fold_right (fun b s => String (ascii_of_N b) s) "" bytes.

(** [str(n)] for an integer. *)
Definition str (n : Z) : string := NilZero.string_of_int (Z.to_int n).

(** [str(b)] for a boolean. *)
Definition str_bool (b : bool) : string := if b then "True" else "False".

Fixpoint zeros (n : nat) : string :=
  match n with
  | O => ""
  | S n' => String "0"%char (zeros n')
  end.

(** [format(n, "0w")]: the sign first, then zeros, then the digits, to a
    minimal width of [w] characters. *)
Definition format_zero (w : nat) (n : Z) : string :=
  let digits := str (Z.abs n) in
  let sign := if n <? 0 then "-" else "" in
  (sign ++ zeros (w - String.length sign - String.length digits) ++ digits)%string.

(** [divmod(a, b)] on integers: floor division and its remainder. *)
Definition divmod (a b : Z) : Z * Z := (a / b, a mod b).

(** A Python [float] is an IEEE 754 binary64 number, taken from the
    specification of the standard library: 53 bits of precision, and 1024
    the exponent of the infinities. *)
Definition float : Type := spec_float.
Definition prec : Z := 53.
Definition emax : Z := 1024.

(** An integer as an operand of a division, before any rounding. *)
Definition exact (n : Z) : float :=
  match n with
  | 0 => S754_zero false
  | Z.pos p => S754_finite false p 0
  | Z.neg p => S754_finite true p 0
  end.

(** [float(n)]: the integer rounded to the nearest float. *)
Definition float_of_int (n : Z) : float := binary_normalize prec emax n 0 false.

(** [a / b] on integers with [b] not zero: the quotient of the two
    integers, rounded once to the nearest float.  Where the quotient is too
    large for a float Python raises [OverflowError]; it is an infinity
    here, and [truediv_overflows] tells so. *)
Definition truediv (a b : Z) : float := SFdiv prec emax (exact a) (exact b).

Definition truediv_overflows (a b : Z) : bool :=
  match truediv a b with S754_infinity _ => true | _ => false end.

(** [x * y], [-x] and [x > 0] on floats. *)
Definition float_mul (x y : float) : float := SFmul prec emax x y.
Definition float_neg (x : float) : float := SFopp x.
Definition float_gt_zero (x : float) : bool := SFltb (S754_zero false) x.

(** [int(x)] on a float: truncation toward zero; [None] stands for the
    [OverflowError] of an infinity and the [ValueError] of a NaN. *)
Definition int_of_float (x : float) : option Z :=
  match x with
  | S754_zero _ => Some 0
  | S754_finite s m e =>
      let v := if 0 <=? e then Z.pos m * 2 ^ e else Z.pos m / 2 ^ (- e) in
      Some (if s then - v else v)
  | S754_infinity _ | S754_nan => None
  end.

(** The number a finite float denotes. *)
Definition float_value (x : float) : Q :=
  match x with
  | S754_finite s m e =>
      let v := if 0 <=? e then inject_Z (Z.pos m * 2 ^ e)
               else Qmake (Z.pos m) (Z.to_pos (2 ^ (- e))) in
      if s then Qopp v else v
  | _ => 0%Q
  end.

(** A float of sign [s], zero or finite, no larger in magnitude than
    [b * 2 ^ k]. *)
Definition at_most (b k : Z) (s : bool) (x : float) : Prop :=
  match x with
  | S754_zero s' => s' = s
  | S754_finite s' m e => s' = s /\ e <= k /\ Z.pos m <= b * 2 ^ (k - e)
  | S754_infinity _ | S754_nan => False
  end.

(** The floats [0.0] and [1.0]. *)
Definition zero : float := S754_zero false.
Definition one : float := S754_finite false 4503599627370496 (-52).

(** The number a decimal numeral of the standard library denotes, read
    digit by digit as [int_digits] reads a text. *)
Fixpoint uint_value (acc : Z) (u : Decimal.uint) : Z :=
  match u with
  | Decimal.Nil => acc
  | Decimal.D0 l => uint_value (10 * acc + 0) l
  | Decimal.D1 l => uint_value (10 * acc + 1) l
  | Decimal.D2 l => uint_value (10 * acc + 2) l
  | Decimal.D3 l => uint_value (10 * acc + 3) l
  | Decimal.D4 l => uint_value (10 * acc + 4) l
  | Decimal.D5 l => uint_value (10 * acc + 5) l
  | Decimal.D6 l => uint_value (10 * acc + 6) l
  | Decimal.D7 l => uint_value (10 * acc + 7) l
  | Decimal.D8 l => uint_value (10 * acc + 8) l
  | Decimal.D9 l => uint_value (10 * acc + 9) l
  end.

(** A text without white space. *)
Fixpoint nospace (s : string) : bool :=
  match s with
  | String c s' => negb (isspace c) && nospace s'
  | EmptyString => true
  end.

End Py.

(* ===================================================================== *)
(** * JSON documents *)
(* ===================================================================== *)

Module Json.

#[local] Set Warnings "-register-all".

(** What [json.load] returns: [None], [bool], [int], [float], [str],
    [list] or [dict].  A float keeps its literal; nothing here computes
    with it.  [json.load] and [json.dump] are the standard library's, and
    a file is taken at the level of the document it holds; an [Int] is an
    integer [json.load] has produced, so one [str] can print, and the
    members of an [Object] are the items of the [dict], each key once. *)
Inductive value :=
| Null
| Bool (b : bool)
| Int (n : Z)
| Float (literal : string)
| Str (s : string)
| Array (items : list value)
| Object (members : list (string * value)).

(** [d.get(key)]: the value stored under [key], [None] when there is none. *)
Fixpoint get (key : string) (members : list (string * value)) : value :=
  match members with
  | [] => Null
  | (k, v) :: rest => if String.eqb k key then v else get key rest
  end.

(** [isinstance(v, int)]; a Python [bool] is an [int]. *)
Definition isinstance_int (v : value) : bool :=
  match v with
  | Int _ | Bool _ => true
  | _ => false
  end.

(** [str(v)] for the values [isinstance_int] lets through. *)
Definition str_int (v : value) : string :=
  match v with
  | Int n => Py.str n
  | Bool b => Py.str_bool b
  | _ => ""
  end.

(** [v == s] for a string literal [s]. *)
Definition eq_str (v : value) (s : string) : bool :=
  match v with
  | Str s' => String.eqb s' s
  | _ => false
  end.

(** The file [settings.json] as the program meets it.  [json.load] reads
    the whole file and decodes it, so besides [JSONDecodeError] it raises
    [UnicodeDecodeError] on bytes that are not UTF-8, [RecursionError] on
    a document nested too deep and, since CPython 3.11, a plain
    [ValueError] on an integer of more than 4300 digits; [Raises] carries
    the name of such an exception. *)
Inductive file :=
| Absent                          (* os.path.exists is False *)
| Unreadable (err : string)       (* open or read raises IOError *)
| NotJson (err : string)          (* json.load raises JSONDecodeError *)
| Raises (exn : string)           (* json.load raises another exception *)
| Document (v : value).

End Json.

(* ===================================================================== *)
(** * The ring display *)
(* ===================================================================== *)

Module CircularTimerWidget.

Record t := mk {
  diameter : Z;
  total_seconds : Z;
  remaining_seconds : Z
}.

(** [__init__(self, diameter=200)] *)
Definition init (diameter : Z) : t :=
  {| diameter := diameter; total_seconds := 1; remaining_seconds := 1 |}.

Definition set_timer (self : t) (total remaining : Z) : t :=
  {| diameter := diameter self;
     total_seconds := total;
     remaining_seconds := remaining |}.

(** The calls [paintEvent] makes on its painter. *)
Inductive color := QColor (r g b a : Z).
Inductive rect := QRectF (x y w h : Z).
Inductive pen := NoPen | Pen (c : color).

Inductive draw :=
| setRenderHint_Antialiasing
| setBrush (c : color)
| setPen (p : pen)
| drawEllipse (r : rect)
| drawPie (r : rect) (start span : Z)
| setFont (family : string) (size : Z) (bold : bool)
| drawText_AlignCenter (r : rect) (text : string).

(** Lines 109-112; the [0] of line 112 is the float of that value here. *)
Definition angle (self : t) : Py.float :=
  if total_seconds self >? 0
  then Py.float_mul (Py.float_of_int 360)
                    (Py.truediv (remaining_seconds self) (total_seconds self))
  else Py.zero.

(** The quotient of line 110, which the specification calls the sweep
    fraction; 0 where the code does not divide. *)
Definition sweep_fraction (self : t) : Py.float :=
  if total_seconds self >? 0
  then Py.truediv (remaining_seconds self) (total_seconds self)
  else Py.zero.

(** The argument of [int] on line 119. *)
Definition span_sixteenths (self : t) : Py.float :=
  Py.float_mul (Py.float_neg (angle self)) (Py.float_of_int 16).

(** Where [paintEvent] raises instead of painting: on line 110 when the
    quotient is too large for a float, and on line 119 when [int] is given
    an infinity.  That takes a remaining time some 10^300 times the total;
    [paintEvent] below is the painting of a ring for which it does not
    happen. *)
Definition raises (self : t) : bool :=
  (total_seconds self >? 0)
  && (Py.truediv_overflows (remaining_seconds self) (total_seconds self)
      || (Py.float_gt_zero (angle self)
          && match Py.int_of_float (span_sixteenths self) with
             | Some _ => false
             | None => true
             end)).

(** Lines 135-136. *)
Definition time_str (self : t) : string :=
  let '(mins, secs) := Py.divmod (remaining_seconds self) 60 in
  (Py.format_zero 2 mins ++ ":" ++ Py.format_zero 2 secs)%string.

(** Lines 115-119: the pie, when there is one. *)
Definition progress_pie (self : t) : list draw :=
  let rect := QRectF 10 10 (diameter self - 20) (diameter self - 20) in
  if Py.float_gt_zero (angle self)
  then match Py.int_of_float (span_sixteenths self) with
       | Some span =>
           [ setBrush (QColor 0 234 255 255); setPen NoPen;
             drawPie rect (90 * 16) span ]
       | None => []
       end
  else [].

Definition paintEvent (self : t) : list draw :=
  let rect := QRectF 10 10 (diameter self - 20) (diameter self - 20) in
  let inner_circle_margin := 30 in
  let inner_rect :=
    QRectF inner_circle_margin inner_circle_margin
           (diameter self - 2 * inner_circle_margin)
           (diameter self - 2 * inner_circle_margin) in
  let text_rect := QRectF 0 0 (diameter self) (diameter self) in
  [ setRenderHint_Antialiasing;
    setBrush (QColor 60 60 60 255); setPen NoPen; drawEllipse rect ]
  ++ progress_pie self
  ++ [ setBrush (QColor 34 34 34 255); setPen NoPen; drawEllipse inner_rect;
       setPen (Pen (QColor 255 255 255 255));
       setFont "Segoe UI" 32 true;
       drawText_AlignCenter text_rect (time_str self) ].

(** The span of the pie [paintEvent] draws, in sixteenths of a degree;
    [None] when it draws no pie. *)
Definition drawn_span (self : t) : option Z :=
  head (omap (fun d => match d with drawPie _ _ span => Some span | _ => None end)
             (paintEvent self)).

(** The text [paintEvent] draws. *)
Definition drawn_text (self : t) : option string :=
  head (omap (fun d => match d with drawText_AlignCenter _ s => Some s | _ => None end)
             (paintEvent self)).

End CircularTimerWidget.

(* ===================================================================== *)
(** * The window, the worker and the event loop *)
(* ===================================================================== *)

Module SleepScheduler.

(** ** The worker thread

    [delayed_action] runs on a thread of its own.  A thread is the tree of
    the calls it still has to make; the calls that read the shared state or
    the platform take the value read as the argument of what follows. *)

Inductive callback :=
| show_msg.    (* QMessageBox.information(self, "Unsupported OS", ...) *)

Inductive thread :=
| time_sleep (secs : Z) (k : thread)
| read_is_cancelled (k : bool -> thread)
| platform_system (k : string -> thread)
| subprocess_call (args : list string) (k : thread)
| os_system (cmd : string) (k : thread)
| QTimer_singleShot (ms : Z) (cb : callback) (k : thread)
| finished.

(** Lines 342-355. *)
Definition delayed_action (delay : Z) (action : string) : thread :=
  time_sleep delay
    (read_is_cancelled (fun cancelled =>
       if cancelled then finished
       else platform_system (fun system =>
         if String.eqb system "Windows" then
           if String.eqb action "Sleep" then
             subprocess_call
               ["rundll32.exe"; "powrprof.dll,SetSuspendState"; "0,1,0"]
               finished
           else if String.eqb action "Hibernate" then
             os_system "shutdown /h" finished
           else finished
         else QTimer_singleShot 0 show_msg finished))).

(** ** What the program does to the outside, in the order it does it *)

Inductive icon := Critical | Information.

Inductive output :=
| MessageBox (i : icon) (title text : string)
| Print (text : string)
| SetStatus (text : string)            (* status_label.setText *)
| Slept (secs : Z)                     (* time.sleep returned *)
| SubprocessCall (args : list string)
| OsSystem (cmd : string)
| SingleShot (ms : Z) (cb : callback)  (* QTimer.singleShot was called *)
| Uncaught (exn : string).             (* a thread ended by an exception *)

(** ** The window *)

Record QTimer := mkTimer { active : bool; interval : Z }.

Record t := mk {
  entry_text : string;
  entry_enabled : bool;
  sleep_radio_checked : bool;
  sleep_radio_enabled : bool;
  hibernate_radio_checked : bool;
  hibernate_radio_enabled : bool;
  schedule_btn_visible : bool;
  cancel_btn_visible : bool;
  circular_timer : CircularTimerWidget.t;
  status_label : string;
  timer : QTimer;
  total_seconds : Z;
  remaining_seconds : Z;
  is_cancelled : bool
}.

(** How writing [settings.json] fails, on a machine where it does.  Either
    [open(.., 'w')] raises and the file is left as it was, or [open] has
    emptied the file and [json.dump] or the closing of the file raises:
    the file then holds the text written so far, which [json.load] refuses
    with the message [cut] when it is short of the whole document. *)
Inductive write_failure :=
| OpenFails (err : string)
| WriteFails (err : string) (cut : option string).

(** The window together with what it shares with the rest of the process:
    the settings file, the platform, the threads it started, the callbacks
    queued on its event loop, and the record of its outputs. *)
Record world := mkWorld {
  self : t;
  settings_json : Json.file;
  write_error : option write_failure;
  system : string;                (* platform.system() *)
  threads : list thread;
  posted : list callback;
  log : list output
}.

Definition with_self (w : world) (s : t) : world :=
  {| self := s; settings_json := settings_json w;
     write_error := write_error w; system := system w;
     threads := threads w; posted := posted w; log := log w |}.

Definition emit (w : world) (o : output) : world :=
  {| self := self w; settings_json := settings_json w;
     write_error := write_error w; system := system w;
     threads := threads w; posted := posted w; log := log w ++ [o] |}.

Definition with_threads (w : world) (ts : list thread) : world :=
  {| self := self w; settings_json := settings_json w;
     write_error := write_error w; system := system w;
     threads := ts; posted := posted w; log := log w |}.

Definition with_posted (w : world) (cs : list callback) : world :=
  {| self := self w; settings_json := settings_json w;
     write_error := write_error w; system := system w;
     threads := threads w; posted := cs; log := log w |}.

Definition with_settings_json (w : world) (f : Json.file) : world :=
  {| self := self w; settings_json := f;
     write_error := write_error w; system := system w;
     threads := threads w; posted := posted w; log := log w |}.

(** Lines 144-273 of [__init__], before [load_settings] is called. *)
Definition init_window : t :=
  {| entry_text := "";
     entry_enabled := true;
     sleep_radio_checked := true;
     sleep_radio_enabled := true;
     hibernate_radio_checked := false;
     hibernate_radio_enabled := true;
     schedule_btn_visible := true;
     cancel_btn_visible := false;
     circular_timer := CircularTimerWidget.init 200;
     status_label := "";
     timer := {| active := false; interval := 0 |};
     total_seconds := 0;
     remaining_seconds := 0;
     is_cancelled := false |}.

(** Lines 357-364. *)
Definition save_settings (w : world) (seconds : Z) (action : string) : world :=
  let settings :=
    Json.Object [("last_duration", Json.Int seconds);
                 ("last_action", Json.Str action)] in
  match write_error w with
  | None => with_settings_json w (Json.Document settings)
  | Some (OpenFails e) => emit w (Print ("Could not save settings: " ++ e))
  | Some (WriteFails e cut) =>
      emit (with_settings_json w
              match cut with
              | Some msg => Json.NotJson msg
              | None => Json.Document settings
              end)
           (Print ("Could not save settings: " ++ e))
  end.

(** An uncaught exception leaves the function with its name. *)
Inductive result (A : Type) :=
| Ok (a : A)
| Raise (exn : string).
Arguments Ok {A} a.
Arguments Raise {A} exn.

(** [self.entry.setText(text)] *)
Definition entry_setText (s : t) (text : string) : t :=
  {| entry_text := text;
     entry_enabled := entry_enabled s;
     sleep_radio_checked := sleep_radio_checked s;
     sleep_radio_enabled := sleep_radio_enabled s;
     hibernate_radio_checked := hibernate_radio_checked s;
     hibernate_radio_enabled := hibernate_radio_enabled s;
     schedule_btn_visible := schedule_btn_visible s;
     cancel_btn_visible := cancel_btn_visible s;
     circular_timer := circular_timer s;
     status_label := status_label s;
     timer := timer s;
     total_seconds := total_seconds s;
     remaining_seconds := remaining_seconds s;
     is_cancelled := is_cancelled s |}.

(** [setChecked(True)] on one of the two radio buttons; they share a
    parent, so Qt unchecks the other one. *)
Definition radio_setChecked (s : t) (hibernate : bool) : t :=
  {| entry_text := entry_text s;
     entry_enabled := entry_enabled s;
     sleep_radio_checked := negb hibernate;
     sleep_radio_enabled := sleep_radio_enabled s;
     hibernate_radio_checked := hibernate;
     hibernate_radio_enabled := hibernate_radio_enabled s;
     schedule_btn_visible := schedule_btn_visible s;
     cancel_btn_visible := cancel_btn_visible s;
     circular_timer := circular_timer s;
     status_label := status_label s;
     timer := timer s;
     total_seconds := total_seconds s;
     remaining_seconds := remaining_seconds s;
     is_cancelled := is_cancelled s |}.

(** Lines 366-382. *)
Definition load_settings (w : world) : result world :=
  match settings_json w with
  | Json.Absent => Ok w
  | Json.Unreadable e | Json.NotJson e =>
      Ok (emit w (Print ("Could not load settings: " ++ e)))
  | Json.Document (Json.Object settings) =>
      let last_duration := Json.get "last_duration" settings in
      let s1 :=
        if Json.isinstance_int last_duration
        then entry_setText (self w) (Json.str_int last_duration)
        else self w in
      let last_action := Json.get "last_action" settings in
      let s2 :=
        if Json.eq_str last_action "Hibernate"
        then radio_setChecked s1 true
        else s1 in
      Ok (with_self w s2)
  | Json.Document _ => Raise "AttributeError"
  | Json.Raises exn => Raise exn
  end.

(** Lines 281-308. *)
Definition schedule_action (w : world) : world :=
  let invalid :=
    emit w (MessageBox Critical "Invalid Input"
                       "Please enter a valid number of seconds.") in
  match Py.int (entry_text (self w)) with
  | None => invalid
  | Some delay =>
      if delay <=? 0 then invalid
      else
        let action :=
          if sleep_radio_checked (self w) then "Sleep" else "Hibernate" in
        let w1 := save_settings w delay action in
        let w2 :=
          emit w1 (SetStatus ("Scheduled " ++ action ++ " in "
                              ++ Py.str delay ++ " seconds...")) in
        let s := self w2 in
        let s' :=
          {| entry_text := entry_text s;
             entry_enabled := false;
             sleep_radio_checked := sleep_radio_checked s;
             sleep_radio_enabled := false;
             hibernate_radio_checked := hibernate_radio_checked s;
             hibernate_radio_enabled := false;
             schedule_btn_visible := false;
             cancel_btn_visible := true;
             circular_timer :=
               CircularTimerWidget.set_timer (circular_timer s) delay delay;
             status_label :=
               "Scheduled " ++ action ++ " in " ++ Py.str delay ++ " seconds...";
             timer := {| active := true; interval := 1000 |};
             total_seconds := delay;
             remaining_seconds := delay;
             is_cancelled := false |} in
        with_threads (with_self w2 s')
                     (threads w2 ++ [delayed_action delay action])
  end.

(** Lines 310-324. *)
Definition cancel_action (w : world) : world :=
  let s := self w in
  let s' :=
    {| entry_text := entry_text s;
       entry_enabled := true;
       sleep_radio_checked := sleep_radio_checked s;
       sleep_radio_enabled := true;
       hibernate_radio_checked := hibernate_radio_checked s;
       hibernate_radio_enabled := true;
       schedule_btn_visible := true;
       cancel_btn_visible := false;
       circular_timer := CircularTimerWidget.set_timer (circular_timer s) 0 0;
       status_label := "Action cancelled.";
       timer := {| active := false; interval := interval (timer s) |};
       total_seconds := 0;
       remaining_seconds := 0;
       is_cancelled := true |} in
  emit (with_self w s') (SetStatus "Action cancelled.").

(** Lines 326-340. *)
Definition update_timer (w : world) : world :=
  let s := self w in
  let remaining := remaining_seconds s - 1 in
  let ring :=
    if remaining >=? 0
    then CircularTimerWidget.set_timer (circular_timer s) (total_seconds s) remaining
    else circular_timer s in
  if remaining <? 0 then
    let s' :=
      {| entry_text := entry_text s;
         entry_enabled := true;
         sleep_radio_checked := sleep_radio_checked s;
         sleep_radio_enabled := true;
         hibernate_radio_checked := hibernate_radio_checked s;
         hibernate_radio_enabled := true;
         schedule_btn_visible := true;
         cancel_btn_visible := false;
         circular_timer := ring;
         status_label :=
           if is_cancelled s then status_label s else "Action executed.";
         timer := {| active := false; interval := interval (timer s) |};
         total_seconds := total_seconds s;
         remaining_seconds := remaining;
         is_cancelled := is_cancelled s |} in
    if is_cancelled s then with_self w s'
    else emit (with_self w s') (SetStatus "Action executed.")
  else
    with_self w
      {| entry_text := entry_text s;
         entry_enabled := entry_enabled s;
         sleep_radio_checked := sleep_radio_checked s;
         sleep_radio_enabled := sleep_radio_enabled s;
         hibernate_radio_checked := hibernate_radio_checked s;
         hibernate_radio_enabled := hibernate_radio_enabled s;
         schedule_btn_visible := schedule_btn_visible s;
         cancel_btn_visible := cancel_btn_visible s;
         circular_timer := ring;
         status_label := status_label s;
         timer := timer s;
         total_seconds := total_seconds s;
         remaining_seconds := remaining;
         is_cancelled := is_cancelled s |}.

(** The callback a worker hands to [QTimer.singleShot], were the event loop
    of the window to run it. *)
Definition run_callback (w : world) (cb : callback) : world :=
  match cb with
  | show_msg =>
      emit w (MessageBox Information "Unsupported OS"
                         "This script currently supports only Windows.")
  end.

(** [time.sleep(secs)] on an integer (CPython 3.11): a negative length is
    a [ValueError], and one that does not fit a 64-bit count of nanoseconds
    an [OverflowError]. *)
Definition sleep_error (secs : Z) : option string :=
  if secs <? 0 then Some "ValueError"
  else if 9223372037 <=? secs then Some "OverflowError"
  else None.

(** One call of thread [i].  An exception nothing catches ends the thread.
    [QTimer.singleShot] is called on the worker, a [threading.Thread] with
    no Qt event loop: the timer it starts belongs to that thread and never
    fires, so the call is made and nothing reaches [posted], the queue of
    the event loop of the window. *)
Definition thread_step (w : world) (i : nat) : world :=
  match threads w !! i with
  | None | Some finished => w
  | Some (time_sleep secs k) =>
      match sleep_error secs with
      | Some exn =>
          emit (with_threads w (<[i:=finished]> (threads w))) (Uncaught exn)
      | None => emit (with_threads w (<[i:=k]> (threads w))) (Slept secs)
      end
  | Some (read_is_cancelled k) =>
      with_threads w (<[i:=k (is_cancelled (self w))]> (threads w))
  | Some (platform_system k) =>
      with_threads w (<[i:=k (system w)]> (threads w))
  | Some (subprocess_call args k) =>
      emit (with_threads w (<[i:=k]> (threads w))) (SubprocessCall args)
  | Some (os_system cmd k) =>
      emit (with_threads w (<[i:=k]> (threads w))) (OsSystem cmd)
  | Some (QTimer_singleShot ms cb k) =>
      emit (with_threads w (<[i:=k]> (threads w))) (SingleShot ms cb)
  end.


(** ** The event loop

    What can happen to the process.  Qt delivers a click only to a visible
    button, an edit only to an enabled widget and a timeout only from a
    running timer; a thread advances whenever it is scheduled, and
    [RunPosted] is the event loop running the first callback queued on it. *)
Inductive event :=
| TypeText (text : string)
| ChooseSleep
| ChooseHibernate
| ClickSchedule
| ClickCancel
| Timeout
| RunPosted
| ThreadStep (i : nat).

Definition step (w : world) (e : event) : world :=
  match e with
  | TypeText text =>
      if entry_enabled (self w)
      then with_self w (entry_setText (self w) text) else w
  | ChooseSleep =>
      if sleep_radio_enabled (self w)
      then with_self w (radio_setChecked (self w) false) else w
  | ChooseHibernate =>
      if hibernate_radio_enabled (self w)
      then with_self w (radio_setChecked (self w) true) else w
  | ClickSchedule =>
      if schedule_btn_visible (self w) then schedule_action w else w
  | ClickCancel =>
      if cancel_btn_visible (self w) then cancel_action w else w
  | Timeout =>
      if active (timer (self w)) then update_timer w else w
  | RunPosted =>
      match posted w with
      | cb :: rest => run_callback (with_posted w rest) cb
      | [] => w
      end
  | ThreadStep i => thread_step w i
  end.

Definition run (w : world) (es : list event) : world := fold_left step es w.

(** [n] timeouts in a row. *)
Definition ticks (n : nat) (w : world) : world := run w (repeat Timeout n).

(** The process as [SleepScheduler()] leaves it. *)
Definition boot (file : Json.file) (werr : option write_failure) (sys : string)
  : result world :=
  load_settings
    {| self := init_window; settings_json := file; write_error := werr;
       system := sys; threads := []; posted := []; log := [] |}.

(** The worlds the process can be in: after construction, and after any
    sequence of events. *)
Inductive reachable : world -> Prop :=
| reachable_boot file werr sys w :
    boot file werr sys = Ok w -> reachable w
| reachable_step w e :
    reachable w -> reachable (step w e).

(** The threads that have not returned. *)
Definition is_alive (th : thread) : bool :=
  match th with finished => false | _ => true end.

Definition alive (w : world) : nat :=
  length (filter (fun th => is_alive th = true) (threads w)).

(** The threads inside [time.sleep]. *)
Definition is_sleeping (th : thread) : bool :=
  match th with time_sleep _ _ => true | _ => false end.

Definition sleeping (w : world) : nat :=
  length (filter (fun th => is_sleeping th = true) (threads w)).

(** The three fields the specification calls the countdown state. *)
Definition countdown_state (w : world) : Z * Z * bool :=
  (total_seconds (self w), remaining_seconds (self w), is_cancelled (self w)).

(** How often a status text was set. *)
Definition is_status (text : string) (o : output) : bool :=
  match o with
  | SetStatus t => String.eqb t text
  | _ => false
  end.

Definition status_count (text : string) (l : list output) : nat :=
  length (filter (fun o => is_status text o = true) l).

(** What the window offers while no countdown runs, and while one does. *)
Definition controls_idle (s : t) : Prop :=
  schedule_btn_visible s = true /\ cancel_btn_visible s = false
  /\ entry_enabled s = true
  /\ sleep_radio_enabled s = true /\ hibernate_radio_enabled s = true.

Definition controls_busy (s : t) : Prop :=
  schedule_btn_visible s = false /\ cancel_btn_visible s = true
  /\ entry_enabled s = false
  /\ sleep_radio_enabled s = false /\ hibernate_radio_enabled s = false.

Definition ring_is (w : world) (total remaining : Z) : Prop :=
  CircularTimerWidget.total_seconds (circular_timer (self w)) = total
  /\ CircularTimerWidget.remaining_seconds (circular_timer (self w)) = remaining.

(** The four situations of the countdown. *)
Inductive phase := Fresh | Counting | Expired | Cancelled.

Definition in_phase (w : world) (p : phase) : Prop :=
  let s := self w in
  match p with
  | Fresh =>
      active (timer s) = false /\ countdown_state w = (0, 0, false)
      /\ status_label s = "" /\ threads w = [] /\ ring_is w 1 1
  | Counting =>
      active (timer s) = true /\ is_cancelled s = false
      /\ 0 <= remaining_seconds s <= total_seconds s /\ 0 < total_seconds s
      /\ ring_is w (total_seconds s) (remaining_seconds s)
  | Expired =>
      active (timer s) = false /\ is_cancelled s = false
      /\ remaining_seconds s = -1 /\ 0 < total_seconds s
      /\ status_label s = "Action executed."
      /\ ring_is w (total_seconds s) 0
  | Cancelled =>
      active (timer s) = false /\ countdown_state w = (0, 0, true)
      /\ status_label s = "Action cancelled." /\ ring_is w 0 0
  end.

Definition inv (w : world) : Prop :=
  exists p, in_phase w p
            /\ match p with
               | Counting => controls_busy (self w)
               | _ => controls_idle (self w)
               end.

(** A running countdown that was not cancelled, with [r] seconds left. *)
Definition counts (w : world) (r : Z) : Prop :=
  active (timer (self w)) = true /\ is_cancelled (self w) = false
  /\ remaining_seconds (self w) = r.

(** The settings as the window shows them: the prefilled text and the
    action [schedule_action] would read from the radio buttons. *)
Definition shown_settings (s : t) : string * string :=
  (entry_text s, if sleep_radio_checked s then "Sleep" else "Hibernate").

(** A fresh process on a machine without a settings file. *)
Definition fresh (sys : string) : world :=
  {| self := init_window; settings_json := Json.Absent; write_error := None;
     system := sys; threads := []; posted := []; log := [] |}.

End SleepScheduler.

(* ===================================================================== *)
(** * The vocabulary of the specification *)
(* ===================================================================== *)

Module Spec.

(** The two actions of a schedule request, and the name the radio
    buttons give each (line 291). *)
Inductive action := Sleep | Hibernate.

Definition name (a : action) : string :=
  match a with Sleep => "Sleep" | Hibernate => "Hibernate" end.




(** An output that acts on the platform. *)
Definition is_platform_call (o : SleepScheduler.output) : bool :=
  match o with
  | SleepScheduler.SubprocessCall _ | SleepScheduler.OsSystem _ => true
  | _ => false
  end.

(** A number zero-padded to [w] digits. *)
Definition zero_pad (w : nat) (n : Z) : string :=
  (Py.zeros (w - String.length (Py.str n)) ++ Py.str n)%string.

(** The decimal digit [d] as a character, and a number under 100 as its
    two digits. *)
Definition digit_char (d : Z) : ascii := ascii_of_nat (48 + Z.to_nat d).

Definition two_digits (n : Z) : string :=
  String (digit_char (n / 10)) (String (digit_char (n mod 10)) "").

(** A text that is not a positive integer: whatever [int] makes of it, it
    is not a number above zero. *)
Definition not_positive_integer (text : string) : Prop :=
  forall n, Py.int text = Some n -> n <= 0.

(** The message of [InvalidDuration]. *)
Definition invalid_duration : SleepScheduler.output :=
  SleepScheduler.MessageBox SleepScheduler.Critical "Invalid Input"
    "Please enter a valid number of seconds.".

End Spec.

(* ===================================================================== *)
(** * The worker in stages, and counts over the outputs *)
(* ===================================================================== *)

Module Stages.

Import SleepScheduler.

(** Lines 346-355: what the worker does once it knows the platform. *)
Definition after_platform (action sys : string) : thread :=
  if String.eqb sys "Windows" then
    if String.eqb action "Sleep" then
      subprocess_call
        ["rundll32.exe"; "powrprof.dll,SetSuspendState"; "0,1,0"]
        finished
    else if String.eqb action "Hibernate" then
      os_system "shutdown /h" finished
    else finished
  else QTimer_singleShot 0 show_msg finished.

(** Line 346: the worker about to ask for the platform. *)
Definition after_check (action : string) : thread :=
  platform_system (fun sys => after_platform action sys).

(** Lines 344-345: the worker about to read the flag. *)
Definition after_sleep (action : string) : thread :=
  read_is_cancelled (fun cancelled =>
    if cancelled then finished else after_check action).

(** A thread that has not read the flag yet, or has returned. *)
Definition before_check (th : thread) : Prop :=
  th = finished
  \/ exists a, (exists d, th = delayed_action d a) \/ th = after_sleep a.

(** A thread [schedule_action] has started, somewhere on its way, on the
    platform [sys]. *)
Definition is_stage (sys : string) (th : thread) : Prop :=
  th = finished
  \/ exists a, (a = "Sleep" \/ a = "Hibernate")
       /\ ((exists d, th = delayed_action d a) \/ th = after_sleep a
           \/ th = after_check a \/ th = after_platform a sys).

(** How many outputs of a kind a log holds. *)
Definition count_out (f : output -> bool) (l : list output) : nat :=
  length (filter (fun o => f o = true) l).

Definition platform_calls (l : list output) : nat :=
  count_out Spec.is_platform_call l.

(** The calls of [QTimer.singleShot] workers have made, and the
    "Unsupported OS" notices shown. *)
Definition is_posted (o : output) : bool :=
  match o with SingleShot _ _ => true | _ => false end.

Definition is_notice (o : output) : bool :=
  match o with MessageBox Information _ _ => true | _ => false end.

(** The text [schedule_action] puts in the status label (line 294). *)
Definition scheduled_text (action : string) (delay : Z) : string :=
  "Scheduled " ++ action ++ " in " ++ Py.str delay ++ " seconds...".

(** The document [save_settings] writes (line 359). *)
Definition settings_document (seconds : Z) (action : string) : Json.file :=
  Json.Document (Json.Object [("last_duration", Json.Int seconds);
                              ("last_action", Json.Str action)]).

(** An output that is neither a platform call, nor a call of
    [QTimer.singleShot], nor a notice. *)
Definition quiet (o : output) : Prop :=
  Spec.is_platform_call o = false /\ is_posted o = false /\ is_notice o = false.

(** What holds of the workers and of the log in every reachable world. *)
Definition worker_inv (w : world) : Prop :=
  Forall (is_stage (system w)) (threads w)
  /\ (platform_calls (log w) + count_out is_posted (log w) + alive w
      <= length (threads w))%nat
  /\ (system w <> "Windows" -> platform_calls (log w) = 0%nat)
  /\ posted w = []
  /\ count_out is_notice (log w) = 0%nat
  /\ (system w = "Windows" -> count_out is_posted (log w) = 0%nat).

(** Every worker started stands for one status "Action executed." or
    "Action cancelled.", or for the countdown that runs. *)
Definition resolved (w : world) : Prop :=
  (status_count "Action executed." (log w)
   + status_count "Action cancelled." (log w)
   + (if active (timer (self w)) then 1 else 0)
   = length (threads w))%nat.

(** While the timer runs, the status and the settings file are those of the
    request that started it. *)
Definition running (w : world) : Prop :=
  active (timer (self w)) = true ->
  let a := snd (shown_settings (self w)) in
  status_label (self w) = scheduled_text a (total_seconds (self w))
  /\ (write_error w = None ->
      settings_json w = settings_document (total_seconds (self w)) a).

End Stages.

(* ===================================================================== *)
(** * The arc and the label, read back *)
(* ===================================================================== *)

Module Readback.

(** The size of the pie [paintEvent] draws, in sixteenths of a degree
    clockwise; 0 when it draws none. *)
Definition arc_sixteenths (ring : CircularTimerWidget.t) : Z :=
  match CircularTimerWidget.drawn_span ring with
  | Some span => - span
  | None => 0
  end.

(** A text of decimal digits read as a number. *)
Definition decode_number (s : string) : option Z :=
  (fun u => Z.of_N (Pos.of_uint u)) <$> NilEmpty.uint_of_string s.

(** A text cut at its first colon. *)
Fixpoint split_colon (s : string) : option (string * string) :=
  match s with
  | EmptyString => None
  | String c s' =>
      if Ascii.eqb c ":"%char then Some (EmptyString, s')
      else match split_colon s' with
           | Some (a, b) => Some (String c a, b)
           | None => None
           end
  end.

(** A label "minutes:seconds" read back as seconds. *)
Definition decode_label (s : string) : option Z :=
  match split_colon s with
  | Some (m, sec) =>
      match decode_number m, decode_number sec with
      | Some mins, Some secs => Some (60 * mins + secs)
      | _, _ => None
      end
  | None => None
  end.

Fixpoint no_colon (s : string) : bool :=
  match s with
  | EmptyString => true
  | String c s' => negb (Ascii.eqb c ":"%char) && no_colon s'
  end.

(** [n] zeros in front of a decimal numeral. *)
Fixpoint lead_zeros (n : nat) (u : Decimal.uint) : Decimal.uint :=
  match n with
  | O => u
  | S n' => Decimal.D0 (lead_zeros n' u)
  end.

End Readback.

(* ===================================================================== *)
(** * Dragging the window *)
(* ===================================================================== *)

Module Drag.

(** A [QPoint] with integer coordinates, and the difference of two. *)
Definition QPoint : Type := Z * Z.

Definition sub (a b : QPoint) : QPoint := (fst a - fst b, snd a - snd b).

Definition add (a b : QPoint) : QPoint := (fst a + fst b, snd a + snd b).

(** [Qt.MouseButton]. *)
Definition LeftButton : Z := 1.
Definition RightButton : Z := 2.
Definition MiddleButton : Z := 4.

(** The part of the window the two mouse handlers use: where its frame is,
    which is the point [move] sets and [frameGeometry().topLeft()] returns,
    and the attribute [_drag_pos], which [__init__] does not create. *)
Record t := mk {
  frame_top_left : QPoint;
  drag_pos : option QPoint
}.

(** The window as constructed and placed at [p]. *)
Definition init (p : QPoint) : t :=
  {| frame_top_left := p; drag_pos := None |}.

(** Lines 385-388. *)
Definition mousePressEvent (self : t) (button : Z) (globalPos : QPoint) : t :=
  if button =? LeftButton
  then {| frame_top_left := frame_top_left self;
          drag_pos := Some (sub globalPos (frame_top_left self)) |}
  else self.

(** Lines 390-393; reading [_drag_pos] before it exists raises. *)
Definition mouseMoveEvent (self : t) (buttons : Z) (globalPos : QPoint)
  : SleepScheduler.result t :=
  if buttons =? LeftButton then
    match drag_pos self with
    | Some p =>
        SleepScheduler.Ok {| frame_top_left := sub globalPos p;
                             drag_pos := drag_pos self |}
    | None => SleepScheduler.Raise "AttributeError"
    end
  else SleepScheduler.Ok self.

(** A run of move events, stopping at the first exception. *)
Fixpoint moves (self : t) (events : list (Z * QPoint)) : SleepScheduler.result t :=
  match events with
  | [] => SleepScheduler.Ok self
  | (buttons, globalPos) :: rest =>
      match mouseMoveEvent self buttons globalPos with
      | SleepScheduler.Ok self' => moves self' rest
      | SleepScheduler.Raise e => SleepScheduler.Raise e
      end
  end.

(** The cursor of the last move made with the left button alone, [g0] when
    there is none. *)
Fixpoint last_left (g0 : QPoint) (events : list (Z * QPoint)) : QPoint :=
  match events with
  | [] => g0
  | (buttons, globalPos) :: rest =>
      last_left (if buttons =? LeftButton then globalPos else g0) rest
  end.

End Drag.

(* ===================================================================== *)
(** * Properties *)
(* ===================================================================== *)

Import SleepScheduler.

(** ** The builtins and the handlers on examples *)

Example int_plain : Py.int "120" = Some 120. Proof. reflexivity. Qed.
Example int_spaces : Py.int "  +1_000 " = Some 1000. Proof. reflexivity. Qed.
Example int_negative : Py.int "-5" = Some (-5). Proof. reflexivity. Qed.
Example int_empty : Py.int "" = None. Proof. reflexivity. Qed.
Example int_float_text : Py.int "2.5" = None. Proof. reflexivity. Qed.
Example int_word : Py.int "ten" = None. Proof. reflexivity. Qed.
Example int_trailing_underscore : Py.int "1_" = None. Proof. reflexivity. Qed.
Example int_tab_newline : Py.int (Py.of_bytes [9; 55; 10]%N) = Some 7.
Proof. reflexivity. Qed.
Example int_file_separator : Py.int (Py.of_bytes [28; 55]%N) = None.
Proof. reflexivity. Qed.
Example int_delete : Py.int (Py.of_bytes [55; 127]%N) = None.
Proof. reflexivity. Qed.
(* U+0663, the Arabic-Indic digit three *)
Example int_arabic_indic : Py.int (Py.of_bytes [217; 163]%N) = Some 3.
Proof. reflexivity. Qed.
(* U+FF17, the fullwidth digit seven *)
Example int_fullwidth : Py.int (Py.of_bytes [239; 188; 151]%N) = Some 7.
Proof. reflexivity. Qed.
(* U+00A0, the no-break space, then 7 *)
Example int_no_break_space : Py.int (Py.of_bytes [194; 160; 55]%N) = Some 7.
Proof. reflexivity. Qed.
(* a minus sign, then U+0661 U+0662 U+0663 *)
Example int_arabic_indic_negative :
  Py.int (Py.of_bytes [45; 217; 161; 217; 162; 217; 163]%N) = Some (-123).
Proof. reflexivity. Qed.
(* a file separator is kept as it is among other scripts too *)
Example int_mixed_separator : Py.int (Py.of_bytes [28; 217; 163]%N) = None.
Proof. reflexivity. Qed.
(* U+00B2, the superscript two, is no decimal digit *)
Example int_superscript : Py.int (Py.of_bytes [194; 178]%N) = None.
Proof. reflexivity. Qed.
(* U+1D7CE, the mathematical bold digit zero *)
Example int_mathematical : Py.int (Py.of_bytes [240; 157; 159; 142]%N) = Some 0.
Proof. reflexivity. Qed.
(* bytes that are not UTF-8 *)
Example int_stray_byte : Py.int (Py.of_bytes [255; 55]%N) = None.
Proof. reflexivity. Qed.
Example str_neg : Py.str (-5) = "-5". Proof. reflexivity. Qed.
Example str_zero : Py.str 0 = "0". Proof. reflexivity. Qed.
Example format_small : Py.format_zero 2 7 = "07". Proof. reflexivity. Qed.
Example format_wide : Py.format_zero 2 123 = "123". Proof. reflexivity. Qed.
Example format_minus : Py.format_zero 3 (-5) = "-05". Proof. reflexivity. Qed.
Example truediv_example :
  Py.truediv 7 10 = S754_finite false 6305039478318694 (-53).
Proof. vm_compute. reflexivity. Qed.
Example truediv_huge : Py.truediv_overflows (2 ^ 1100) 1 = true.
Proof. vm_compute. reflexivity. Qed.
Example float_of_int_example :
  Py.float_of_int 360 = S754_finite false 6333186975989760 (-44).
Proof. vm_compute. reflexivity. Qed.
Example int_of_float_example :
  Py.int_of_float (Py.float_neg (Py.truediv 7 2)) = Some (-3).
Proof. vm_compute. reflexivity. Qed.

Example countdown_of_three :
  let w := run (fresh "Windows") [TypeText "3"; ClickSchedule] in
  map (fun n => countdown_state (ticks n w)) [0; 1; 2; 3; 4; 5]%nat
  = [(3, 3, false); (3, 2, false); (3, 1, false); (3, 0, false);
     (3, -1, false); (3, -1, false)].
Proof. vm_compute. reflexivity. Qed.

Example worker_on_linux :
  log (run (fresh "Linux")
           [TypeText "3"; ChooseHibernate; ClickSchedule;
            ThreadStep 0; ThreadStep 0; ThreadStep 0; ThreadStep 0; RunPosted])
  = [SetStatus "Scheduled Hibernate in 3 seconds..."; Slept 3;
     SingleShot 0 show_msg].
Proof. vm_compute. reflexivity. Qed.

(* the entry holds U+0663, the Arabic-Indic digit three *)
Example start_in_another_script :
  countdown_state (run (fresh "Windows")
                       [TypeText (Py.of_bytes [217; 163]%N); ClickSchedule])
  = (3, 3, false).
Proof. vm_compute. reflexivity. Qed.

(* a file separator before the digit: [str.isspace] holds of it, [int]
   refuses it *)
Example start_refuses_separator :
  log (run (fresh "Windows")
           [TypeText (Py.of_bytes [28; 55]%N); ClickSchedule])
  = [Spec.invalid_duration].
Proof. vm_compute. reflexivity. Qed.

Example worker_sleep_overflow :
  let w := run (fresh "Windows")
               [TypeText "9223372037"; ClickSchedule; ThreadStep 0] in
  log w = [SetStatus "Scheduled Sleep in 9223372037 seconds...";
           Uncaught "OverflowError"]
  /\ alive w = 0%nat.
Proof. vm_compute. split; reflexivity. Qed.

Example cancel_after_two_ticks :
  let w := run (fresh "Windows")
               [TypeText "5"; ClickSchedule; Timeout; Timeout; ClickCancel;
                ThreadStep 0; ThreadStep 0; ThreadStep 0; ThreadStep 0] in
  log w = [SetStatus "Scheduled Sleep in 5 seconds...";
           SetStatus "Action cancelled."; Slept 5]
  /\ countdown_state w = (0, 0, true) /\ alive w = 0%nat.
Proof. vm_compute. repeat split. Qed.

(** ** The event loop *)

Lemma run_app w es1 es2 : run w (es1 ++ es2) = run (run w es1) es2.
Proof. unfold run. apply fold_left_app. Qed.

Lemma ticks_S n w : ticks (S n) w = step (ticks n w) Timeout.
Proof.
  unfold ticks. replace (S n) with (n + 1)%nat by lia.
  rewrite repeat_app, run_app. reflexivity.
Qed.

Lemma reachable_run w es : reachable w -> reachable (run w es).
Proof.
  revert w. induction es as [|e es IH]; intros w Hw; simpl; [exact Hw|].
  apply IH. now apply reachable_step.
Qed.

Lemma reachable_fresh sys : reachable (fresh sys).
Proof. apply (reachable_boot Json.Absent None sys). reflexivity. Qed.

(** ** The countdown invariant *)

Section Invariant.

Lemma self_save_settings w d a : self (save_settings w d a) = self w.
Proof. unfold save_settings. destruct (write_error w) as [[e|e cut]|]; reflexivity. Qed.

Lemma threads_save_settings w d a : threads (save_settings w d a) = threads w.
Proof. unfold save_settings. destruct (write_error w) as [[e|e cut]|]; reflexivity. Qed.

(** What an accepted request leaves in the window. *)
Lemma schedule_action_accepts w d :
  Py.int (entry_text (self w)) = Some d -> 0 < d ->
  let s := self w in
  let a := if sleep_radio_checked s then "Sleep" else "Hibernate" in
  self (schedule_action w)
  = {| entry_text := entry_text s;
       entry_enabled := false;
       sleep_radio_checked := sleep_radio_checked s;
       sleep_radio_enabled := false;
       hibernate_radio_checked := hibernate_radio_checked s;
       hibernate_radio_enabled := false;
       schedule_btn_visible := false;
       cancel_btn_visible := true;
       circular_timer := CircularTimerWidget.set_timer (circular_timer s) d d;
       status_label := "Scheduled " ++ a ++ " in " ++ Py.str d ++ " seconds...";
       timer := {| active := true; interval := 1000 |};
       total_seconds := d;
       remaining_seconds := d;
       is_cancelled := false |}
  /\ threads (schedule_action w) = (threads w ++ [delayed_action d a])%list.
Proof.
  intros Hint Hd. unfold schedule_action. rewrite Hint.
  destruct (Z.leb_spec d 0) as [?|_]; [lia|].
  simpl. rewrite !self_save_settings, threads_save_settings. split; reflexivity.
Qed.

(** What a refused request leaves: the world as it was, and the message. *)
Lemma schedule_action_refuses w :
  Spec.not_positive_integer (entry_text (self w)) ->
  schedule_action w = emit w Spec.invalid_duration.
Proof.
  intros Hbad. unfold schedule_action.
  destruct (Py.int (entry_text (self w))) as [d|] eqn:Hint; [|reflexivity].
  specialize (Hbad d Hint).
  destruct (Z.leb_spec d 0); [reflexivity|lia].
Qed.

Lemma int_positive_or_not text :
  (exists d, Py.int text = Some d /\ 0 < d) \/ Spec.not_positive_integer text.
Proof.
  destruct (Py.int text) as [d|] eqn:Hint.
  - destruct (Z.lt_ge_cases 0 d) as [Hd|Hd].
    + left. eauto.
    + right. intros n Hn. rewrite Hint in Hn. injection Hn as <-. lia.
  - right. intros n Hn. rewrite Hint in Hn. discriminate.
Qed.

Lemma inv_boot file werr sys w : boot file werr sys = Ok w -> inv w.
Proof.
  unfold boot, load_settings. simpl.
  destruct file as [|e|e|x|v]; try (intros [= <-]; exists Fresh; simpl;
    unfold controls_idle, ring_is; simpl; tauto).
  destruct v; try discriminate. intros [= <-].
  exists Fresh.
  destruct (Json.isinstance_int _), (Json.eq_str _ _); simpl;
    unfold controls_idle, ring_is, countdown_state; simpl; tauto.
Qed.

Lemma inv_schedule_action w :
  inv w -> schedule_btn_visible (self w) = true -> inv (schedule_action w).
Proof.
  intros [p [Hp Hc]] Hvis.
  destruct (int_positive_or_not (entry_text (self w))) as [[d [Hint Hd]]|Hbad].
  - exists Counting.
    destruct (schedule_action_accepts w d Hint Hd) as [Hs _].
    unfold in_phase, controls_busy, ring_is. rewrite Hs. simpl.
    repeat split; lia.
  - rewrite (schedule_action_refuses w Hbad). exists p. split; [|exact Hc].
    destruct p; exact Hp.
Qed.

Lemma inv_cancel_action w : inv (cancel_action w).
Proof.
  exists Cancelled. unfold in_phase, controls_idle, ring_is, countdown_state.
  simpl. tauto.
Qed.

Lemma inv_update_timer w :
  inv w -> active (timer (self w)) = true -> inv (update_timer w).
Proof.
  intros [p [Hp Hc]] Hact.
  destruct p; simpl in Hp; try (destruct Hp as [Hp _]; congruence).
  destruct Hp as (_ & Hcan & Hrem & Htot & Hring1 & Hring2).
  unfold update_timer. rewrite Hcan.
  destruct (Z.ltb_spec (remaining_seconds (self w) - 1) 0) as [Hlt|Hge].
  - exists Expired. unfold in_phase, controls_idle, ring_is. simpl.
    destruct (Z.geb_spec (remaining_seconds (self w) - 1) 0) as [?|_]; [lia|].
    rewrite Hring1, Hring2. repeat split; try lia; try assumption.
  - exists Counting. unfold in_phase, controls_busy, ring_is. simpl.
    destruct (Z.geb_spec (remaining_seconds (self w) - 1) 0) as [_|?]; [|lia].
    simpl. destruct Hc as (? & ? & ? & ? & ?).
    repeat split; try lia; try assumption.
Qed.

Lemma inv_thread_step w i : inv w -> inv (thread_step w i).
Proof.
  intros [p [Hp Hc]]. unfold thread_step.
  destruct (threads w !! i) as [th|] eqn:Hth; [|exists p; tauto].
  assert (Hne : threads w <> []).
  { intros Hnil. rewrite Hnil in Hth. discriminate. }
  destruct th as [secs ?| | | | | |]; try destruct (sleep_error secs);
    try (exists p; tauto);
    exists p; (split; [|exact Hc]);
    destruct p; simpl in *; unfold ring_is, countdown_state in *; simpl;
    tauto.
Qed.

Lemma inv_step w e : inv w -> inv (step w e).
Proof.
  intros Hinv. destruct e; simpl.
  - (* TypeText *)
    destruct (entry_enabled (self w)); [|exact Hinv].
    destruct Hinv as [p [Hp Hc]]. exists p. split; [destruct p|]; exact Hp || exact Hc.
  - (* ChooseSleep *)
    destruct (sleep_radio_enabled (self w)); [|exact Hinv].
    destruct Hinv as [p [Hp Hc]]. exists p. split; [destruct p|]; exact Hp || exact Hc.
  - (* ChooseHibernate *)
    destruct (hibernate_radio_enabled (self w)); [|exact Hinv].
    destruct Hinv as [p [Hp Hc]]. exists p. split; [destruct p|]; exact Hp || exact Hc.
  - (* ClickSchedule *)
    destruct (schedule_btn_visible (self w)) eqn:Hvis; [|exact Hinv].
    now apply inv_schedule_action.
  - (* ClickCancel *)
    destruct (cancel_btn_visible (self w)); [|exact Hinv].
    apply inv_cancel_action.
  - (* Timeout *)
    destruct (active (timer (self w))) eqn:Hact; [|exact Hinv].
    now apply inv_update_timer.
  - (* RunPosted *)
    destruct (posted w) as [|cb rest]; [exact Hinv|].
    destruct cb. destruct Hinv as [p [Hp Hc]]. exists p.
    split; [destruct p|]; exact Hp || exact Hc.
  - (* ThreadStep *)
    now apply inv_thread_step.
Qed.

Lemma reachable_inv w : reachable w -> inv w.
Proof.
  induction 1 as [file werr sys w Hboot|w e _ IH].
  - exact (inv_boot _ _ _ _ Hboot).
  - exact (inv_step _ _ IH).
Qed.

End Invariant.

(** ** The worker *)


(** ** The countdown *)

Section Countdown.

Lemma tick_counts w r :
  counts w r -> 0 < r ->
  counts (step w Timeout) (r - 1) /\ log (step w Timeout) = log w.
Proof.
  intros (Hact & Hcan & Hrem) Hr. simpl. rewrite Hact.
  unfold update_timer, counts. rewrite Hrem.
  destruct (Z.ltb_spec (r - 1) 0) as [?|_]; [lia|]. simpl. tauto.
Qed.

Lemma tick_expires w :
  counts w 0 ->
  let w' := step w Timeout in
  active (timer (self w')) = false /\ remaining_seconds (self w') = -1
  /\ is_cancelled (self w') = false
  /\ status_label (self w') = "Action executed."
  /\ controls_idle (self w')
  /\ log w' = (log w ++ [SetStatus "Action executed."])%list.
Proof.
  intros (Hact & Hcan & Hrem). simpl. rewrite Hact.
  unfold update_timer, controls_idle. rewrite Hrem, Hcan. simpl. tauto.
Qed.

Lemma tick_stopped w :
  active (timer (self w)) = false -> step w Timeout = w.
Proof. intros Hact. simpl. rewrite Hact. reflexivity. Qed.

Lemma ticks_counts w r : counts w r -> forall k : nat,
  Z.of_nat k <= r ->
  counts (ticks k w) (r - Z.of_nat k) /\ log (ticks k w) = log w.
Proof.
  intros Hc. induction k as [|k IH]; intros Hk.
  - replace (r - Z.of_nat 0) with r by lia. split; [exact Hc|reflexivity].
  - destruct IH as [IHc IHl]; [lia|].
    rewrite ticks_S.
    destruct (tick_counts _ _ IHc) as [Hc' Hl']; [lia|].
    replace (r - Z.of_nat (S k)) with (r - Z.of_nat k - 1) by lia.
    split; [exact Hc'|congruence].
Qed.

Lemma ticks_stopped w : active (timer (self w)) = false ->
  forall k, ticks k w = w.
Proof.
  intros Hact. induction k as [|k IH]; [reflexivity|].
  rewrite ticks_S, IH. now apply tick_stopped.
Qed.

Lemma ticks_add a b w : ticks (a + b) w = ticks b (ticks a w).
Proof. unfold ticks. rewrite repeat_app. apply run_app. Qed.

Lemma status_count_app text l1 l2 :
  status_count text (l1 ++ l2)
  = (status_count text l1 + status_count text l2)%nat.
Proof. unfold status_count. rewrite filter_app, length_app. reflexivity. Qed.

End Countdown.

(** C2: a start with [d > 0] followed by [d + 1] ticks expires exactly once.
    After [k <= d] ticks the timer still runs, [d - k] seconds remain and no
    status was set; the tick after that leaves -1, stops the timer and sets
    the status "Action executed." once; later timeouts change nothing, so
    the remaining time is never below -1 and the status is never set a
    second time.  In no reachable world at all is the remaining time below
    -1. *)
Theorem C2_countdown_expires_once (w : world) (d : Z) :
  Py.int (entry_text (self w)) = Some d -> 0 < d ->
  let w0 := schedule_action w in
  let n := Z.to_nat d in
  (forall k, (k <= n)%nat ->
     active (timer (self (ticks k w0))) = true
     /\ remaining_seconds (self (ticks k w0)) = d - Z.of_nat k
     /\ log (ticks k w0) = log w0)
  /\ (active (timer (self (ticks (S n) w0))) = false
      /\ remaining_seconds (self (ticks (S n) w0)) = -1
      /\ status_label (self (ticks (S n) w0)) = "Action executed."
      /\ log (ticks (S n) w0) = (log w0 ++ [SetStatus "Action executed."])%list)
  /\ (forall m, (S n <= m)%nat -> ticks m w0 = ticks (S n) w0)
  /\ (forall m, -1 <= remaining_seconds (self (ticks m w0)))
  /\ (forall m, status_count "Action executed." (log (ticks m w0))
        = (status_count "Action executed." (log w0)
           + if (S n <=? m)%nat then 1 else 0)%nat)
  /\ (forall w', reachable w' -> -1 <= remaining_seconds (self w')).
Proof.
  intros Hint Hd w0 n.
  destruct (schedule_action_accepts w d Hint Hd) as [Hs _].
  assert (Hc0 : counts w0 d).
  { unfold counts. subst w0. rewrite Hs. simpl. tauto. }
  assert (Hbefore : forall k, (k <= n)%nat ->
            counts (ticks k w0) (d - Z.of_nat k) /\ log (ticks k w0) = log w0).
  { intros k Hk. apply ticks_counts; [exact Hc0|lia]. }
  assert (Hlast : counts (ticks n w0) 0).
  { destruct (Hbefore n (Nat.le_refl _)) as [Hc _].
    replace (d - Z.of_nat n) with 0 in Hc by lia. exact Hc. }
  pose proof (tick_expires _ Hlast) as (Hact & Hrem & _ & Hstat & _ & Hlog).
  rewrite <- ticks_S in Hact, Hrem, Hstat, Hlog.
  assert (Hafter : forall m, (S n <= m)%nat -> ticks m w0 = ticks (S n) w0).
  { intros m Hm. replace m with (S n + (m - S n))%nat by lia.
    rewrite ticks_add. now apply ticks_stopped. }
  assert (Hlogn : log (ticks n w0) = log w0) by (apply Hbefore; lia).
  repeat split.
  - apply (Hbefore k H).
  - apply (Hbefore k H).
  - apply (Hbefore k H).
  - exact Hact.
  - exact Hrem.
  - exact Hstat.
  - rewrite Hlog, Hlogn. reflexivity.
  - exact Hafter.
  - intros m. destruct (Nat.le_gt_cases m n) as [Hm|Hm].
    + destruct (Hbefore m Hm) as [(_ & _ & ->) _]. lia.
    + rewrite (Hafter m) by lia. rewrite Hrem. lia.
  - intros m. destruct (Nat.leb_spec (S n) m) as [Hm|Hm].
    + rewrite (Hafter m Hm), Hlog, Hlogn, status_count_app. reflexivity.
    + destruct (Hbefore m) as [_ ->]; [lia|]. lia.
  - intros w' Hreach. destruct (reachable_inv w' Hreach) as [p [Hp _]].
    destruct p; simpl in Hp; unfold countdown_state in Hp.
    + destruct Hp as (_ & [= _ -> _] & _). lia.
    + destruct Hp as (_ & _ & ? & _). lia.
    + destruct Hp as (_ & _ & -> & _). lia.
    + destruct Hp as (_ & [= _ -> _] & _). lia.
Qed.

Lemma C2_countdown_expires_once_witness :
  let w0 := schedule_action (run (fresh "Windows") [TypeText "3"]) in
  remaining_seconds (self (ticks 4 w0)) = -1
  /\ forall m, (4 <= m)%nat -> ticks m w0 = ticks 4 w0.
Proof.
  intros w0.
  pose proof (C2_countdown_expires_once
                (run (fresh "Windows") [TypeText "3"]) 3 eq_refl eq_refl)
    as (_ & (_ & Hrem & _) & Hafter & _).
  split; [exact Hrem|exact Hafter].
Defined.

(** ** Starts and workers *)

Lemma length_threads_thread_step w i :
  length (threads (thread_step w i)) = length (threads w).
Proof.
  unfold thread_step.
  destruct (threads w !! i) as [[secs ?| | | | | |]|];
    try destruct (sleep_error secs); simpl; rewrite ?length_insert; reflexivity.
Qed.

Lemma in_phase_active w p :
  in_phase w p -> (active (timer (self w)) = true <-> p = Counting).
Proof.
  destruct p; simpl; intros [Hact _]; rewrite Hact; split; congruence.
Qed.

(** C3 does not hold as stated: a start, a cancel and a second start
    leave two workers inside [time.sleep] at once, and the worker of the
    cancelled schedule, which reads the flag the second start has reset,
    then makes its platform call. *)
Lemma C3_two_workers_counterexample :
  let w := run (fresh "Windows")
               [TypeText "100"; ClickSchedule; ClickCancel; ClickSchedule] in
  reachable w
  /\ sleeping w = 2%nat /\ alive w = 2%nat
  /\ ~ (alive w <= 1)%nat
  /\ log (run w (repeat (ThreadStep 0) 4))
     = [SetStatus "Scheduled Sleep in 100 seconds...";
        SetStatus "Action cancelled.";
        SetStatus "Scheduled Sleep in 100 seconds...";
        Slept 100;
        SubprocessCall ["rundll32.exe"; "powrprof.dll,SetSuspendState"; "0,1,0"]].
Proof.
  intros w. split; [apply reachable_run, reachable_fresh|].
  split; [vm_compute; reflexivity|].
  split; [vm_compute; reflexivity|].
  split; [vm_compute; lia|].
  vm_compute. reflexivity.
Qed.

(** C3, amended: a new start is only reachable while no countdown runs.  In
    every reachable world the countdown is in one of four phases (fresh,
    counting, expired, cancelled); the Schedule button is visible exactly in
    the three that are not counting; while the timer runs a click on
    Schedule changes nothing; and the only event that adds a worker is a
    click on Schedule in a phase that is not counting.  The number of live
    workers is not bounded by this. *)
Theorem C3_start_only_between_countdowns (w : world) :
  reachable w ->
  exists p, in_phase w p
    /\ (schedule_btn_visible (self w) = true <-> p <> Counting)
    /\ (active (timer (self w)) = true <-> p = Counting)
    /\ (p = Counting -> step w ClickSchedule = w)
    /\ (forall e, length (threads (step w e)) <> length (threads w) ->
          e = ClickSchedule /\ p <> Counting
          /\ threads (step w e)
             = (threads w ++ [delayed_action (total_seconds (self (step w e)))
                                (snd (shown_settings (self w)))])%list).
Proof.
  intros Hreach. destruct (reachable_inv w Hreach) as [p [Hp Hc]].
  exists p. split; [exact Hp|].
  assert (Hvis : schedule_btn_visible (self w) = true <-> p <> Counting).
  { destruct p; unfold controls_idle, controls_busy in Hc;
      destruct Hc as (-> & _); split; congruence. }
  split; [exact Hvis|]. split; [exact (in_phase_active w p Hp)|]. split.
  - intros ->. simpl. destruct Hc as (-> & _). reflexivity.
  - intros e Hlen. destruct e; simpl in Hlen.
    + destruct (entry_enabled (self w)); now elim Hlen.
    + destruct (sleep_radio_enabled (self w)); now elim Hlen.
    + destruct (hibernate_radio_enabled (self w)); now elim Hlen.
    + split; [reflexivity|]. simpl.
      destruct (schedule_btn_visible (self w)) eqn:Hv; [|now elim Hlen].
      split; [now apply Hvis|].
      destruct (int_positive_or_not (entry_text (self w)))
        as [[d [Hint Hd]]|Hbad].
      * destruct (schedule_action_accepts w d Hint Hd) as [Hs Ht].
        rewrite Ht, Hs. reflexivity.
      * rewrite (schedule_action_refuses w Hbad) in Hlen. now elim Hlen.
    + destruct (cancel_btn_visible (self w)); now elim Hlen.
    + destruct (active (timer (self w))); [|now elim Hlen].
      unfold update_timer in Hlen.
      destruct (_ <? 0), (is_cancelled (self w)); now elim Hlen.
    + destruct (posted w) as [|[] rest]; now elim Hlen.
    + rewrite length_threads_thread_step in Hlen. now elim Hlen.
Qed.

Lemma C3_start_only_between_countdowns_witness :
  exists p, in_phase (run (fresh "Windows") [TypeText "9"; ClickSchedule]) p
            /\ p = Counting.
Proof.
  destruct (C3_start_only_between_countdowns
              (run (fresh "Windows") [TypeText "9"; ClickSchedule])
              (reachable_run _ _ (reachable_fresh "Windows")))
    as [p (Hp & _ & Hact & _)].
  exists p. split; [exact Hp|]. apply Hact. reflexivity.
Defined.

(** ** Cancel *)

(** C4 does not hold as stated: on the idle engine of a fresh window
    cancel is not a no-op, it sets the flag and the status. *)
Lemma C4_cancel_idle_counterexample :
  let w := fresh "Windows" in
  active (timer (self w)) = false
  /\ countdown_state w = (0, 0, false)
  /\ countdown_state (cancel_action w) = (0, 0, true)
  /\ status_label (self w) = ""
  /\ status_label (self (cancel_action w)) = "Action cancelled."
  /\ self (cancel_action w) <> self w.
Proof. vm_compute. repeat split; discriminate. Qed.

(** C4, amended: from every state, so also from every one with
    [0 <= remaining <= total], cancel yields total 0, remaining 0 and the
    flag set, stops the timer so that a timeout no longer changes anything,
    sets the status "Action cancelled." and leaves the workers alone.  It is
    idempotent on the window, and on a reachable engine whose flag is
    already set it leaves the window as it is.  On an idle engine whose flag
    is not set it is not a no-op. *)
Theorem C4_cancel (w : world) :
  let w' := cancel_action w in
  countdown_state w' = (0, 0, true)
  /\ active (timer (self w')) = false
  /\ step w' Timeout = w'
  /\ status_label (self w') = "Action cancelled."
  /\ log w' = (log w ++ [SetStatus "Action cancelled."])%list
  /\ ring_is w' 0 0
  /\ controls_idle (self w')
  /\ threads w' = threads w
  /\ self (cancel_action w') = self w'
  /\ (reachable w -> is_cancelled (self w) = true ->
      self (cancel_action w) = self w).
Proof.
  unfold controls_idle, ring_is, countdown_state. simpl.
  repeat split.
  intros Hreach Hflag.
  destruct (reachable_inv w Hreach) as [p [Hp Hc]].
  destruct p; simpl in Hp;
    try (destruct Hp as (_ & Hcan & _);
         (congruence || (injection Hcan as _ _ Hcan; congruence))).
  destruct Hp as (Hact & Hcs & Hstat & Hr1 & Hr2).
  destruct Hc as (Hc1 & Hc2 & Hc3 & Hc4 & Hc5).
  unfold countdown_state in Hcs. injection Hcs as Htot Hrem _.
  destruct w as [s ? ? ? ? ? ?]. simpl in *.
  destruct s as [? ? ? ? ? ? ? ? ring ? tm ? ? ?]. simpl in *.
  destruct ring, tm. unfold CircularTimerWidget.set_timer. simpl in *.
  subst. reflexivity.
Qed.

Lemma C4_cancel_witness :
  let w := run (fresh "Windows") [TypeText "9"; ClickSchedule; ClickCancel] in
  self (cancel_action w) = self w.
Proof.
  intros w.
  refine (proj2 (proj2 (proj2 (proj2 (proj2 (proj2 (proj2 (proj2 (proj2
    (C4_cancel w))))))))) _ _).
  - apply reachable_run, reachable_fresh.
  - reflexivity.
Defined.

(** ** Reading back what [str] prints *)

Lemma int_digits_uint u : forall acc,
  Py.int_digits acc false (NilEmpty.string_of_uint u) = Some (Py.uint_value acc u).
Proof. induction u; intros acc; simpl; try reflexivity; apply IHu. Qed.

Lemma count_digits_uint u :
  Py.count_digits (NilEmpty.string_of_uint u)
  = String.length (NilEmpty.string_of_uint u).
Proof. induction u; simpl; congruence. Qed.

Lemma nospace_uint u : Py.nospace (NilEmpty.string_of_uint u) = true.
Proof. induction u; simpl; try reflexivity; exact IHu. Qed.

Lemma is_ascii_uint u : Py.is_ascii (NilEmpty.string_of_uint u) = true.
Proof. induction u; simpl; try reflexivity; exact IHu. Qed.

Lemma int_of_ascii s : Py.is_ascii s = true -> Py.int s = Py.int_ascii s.
Proof. intros H. unfold Py.int. rewrite H. reflexivity. Qed.

Lemma pos_of_uint_acc_value u : forall acc,
  Z.pos (Pos.of_uint_acc u acc) = Py.uint_value (Z.pos acc) u.
Proof.
  induction u; intros acc; simpl; try reflexivity; rewrite IHu; f_equal; lia.
Qed.

Lemma n_of_uint_value u : Z.of_N (Pos.of_uint u) = Py.uint_value 0 u.
Proof.
  induction u; simpl; try reflexivity; try exact IHu;
    rewrite pos_of_uint_acc_value; reflexivity.
Qed.

Lemma rev_string_rev_string s : forall a b,
  Py.rev_string a (Py.rev_string b s) = Py.rev_string (s ++ a) b.
Proof.
  induction s as [|c s IH]; intros a b; simpl; [reflexivity|].
  rewrite IH. reflexivity.
Qed.

Lemma nospace_rev_string s : forall acc,
  Py.nospace s = true -> Py.nospace acc = true -> Py.nospace (Py.rev_string acc s) = true.
Proof.
  induction s as [|c s IH]; intros acc Hs Hacc; simpl in *; [exact Hacc|].
  apply andb_prop in Hs as [Hc Hs]. apply IH; [exact Hs|].
  simpl. rewrite Hc, Hacc. reflexivity.
Qed.

Lemma lstrip_nospace s : Py.nospace s = true -> Py.lstrip s = s.
Proof.
  destruct s as [|c s]; simpl; [reflexivity|]. intros H.
  apply andb_prop in H as [Hc _]. apply negb_true_iff in Hc. rewrite Hc.
  reflexivity.
Qed.

Lemma append_empty s : (s ++ "")%string = s.
Proof. induction s; simpl; congruence. Qed.

Lemma strip_nospace s : Py.nospace s = true -> Py.strip s = s.
Proof.
  intros H. unfold Py.strip. rewrite (lstrip_nospace s H).
  rewrite lstrip_nospace by (apply nospace_rev_string; [exact H|reflexivity]).
  rewrite rev_string_rev_string. simpl. apply append_empty.
Qed.

(** [int] reads back what [str] prints for a positive number within the
    digit limit. *)
Lemma int_str (d : Z) :
  0 < d -> (String.length (Py.str d) <= Py.max_str_digits)%nat ->
  Py.int (Py.str d) = Some d.
Proof.
  intros Hd. destruct d as [|p|p]; try lia.
  unfold Py.str. simpl Z.to_int. unfold NilZero.string_of_int, NilZero.string_of_uint.
  pose proof (Unsigned.of_to p) as Hof.
  pose proof (Unsigned.to_uint_nonnil p) as Hnil.
  apply (f_equal Z.of_N) in Hof. rewrite n_of_uint_value in Hof. simpl in Hof.
  set (u := Pos.to_uint p) in *.
  assert (Hs : (match u with Decimal.Nil => "0" | _ => NilEmpty.string_of_uint u end)
               = NilEmpty.string_of_uint u) by (destruct u; congruence).
  rewrite Hs. intros Hlen.
  rewrite int_of_ascii by apply is_ascii_uint.
  unfold Py.int_ascii. rewrite strip_nospace by apply nospace_uint.
  rewrite <- count_digits_uint in Hlen.
  apply Nat.leb_le in Hlen.
  destruct u; try congruence; simpl in *;
    unfold Py.int_unsigned; simpl;
    rewrite Hlen, int_digits_uint, <- Hof; reflexivity.
Qed.

(** ** Start *)

Example not_positive_examples :
  Spec.not_positive_integer "" /\ Spec.not_positive_integer "0"
  /\ Spec.not_positive_integer "-3" /\ Spec.not_positive_integer "2.5"
  /\ Spec.not_positive_integer "ten".
Proof.
  repeat split; intros n Hn; vm_compute in Hn; try discriminate;
    injection Hn as <-; lia.
Qed.



(** ** The countdown state at rest *)

(** C6 does not hold as stated: after a cancel the state at rest is
    [(0, 0, true)], and after an expiry it is [(d, -1, false)]. *)
Lemma C6_idle_state_counterexample :
  let cancelled :=
    run (fresh "Windows") [TypeText "2"; ClickSchedule; ClickCancel] in
  let expired :=
    run (fresh "Windows") [TypeText "2"; ClickSchedule; Timeout; Timeout; Timeout] in
  (reachable cancelled /\ active (timer (self cancelled)) = false
   /\ countdown_state cancelled = (0, 0, true)
   /\ countdown_state cancelled <> (0, 0, false))
  /\ (reachable expired /\ active (timer (self expired)) = false
      /\ countdown_state expired = (2, -1, false)
      /\ countdown_state expired <> (0, 0, false)).
Proof.
  intros cancelled expired.
  split; (split; [apply reachable_run, reachable_fresh|]);
    vm_compute; repeat split; discriminate.
Qed.

(** C6, amended: a window just constructed holds [(0, 0, false)].  Whenever
    the timer does not run, the state is [(0, 0, false)] with no countdown
    started yet, or [(0, 0, true)] after a cancel, or [(d, -1, false)] with
    [d > 0] after the expiry of a countdown of [d] seconds. *)
Theorem C6_state_at_rest :
  (forall file werr sys w,
     boot file werr sys = Ok w ->
     countdown_state w = (0, 0, false) /\ active (timer (self w)) = false)
  /\ (forall w, reachable w -> active (timer (self w)) = false ->
        (countdown_state w = (0, 0, false)
         /\ status_label (self w) = "" /\ threads w = [])
        \/ (countdown_state w = (0, 0, true)
            /\ status_label (self w) = "Action cancelled.")
        \/ (exists d, 0 < d /\ countdown_state w = (d, -1, false)
                      /\ status_label (self w) = "Action executed.")).
Proof.
  split.
  - intros file werr sys w. unfold boot, load_settings. simpl.
    destruct file as [|e|e|x|v]; try (intros [= <-]; split; reflexivity).
    destruct v; try discriminate. intros [= <-].
    destruct (Json.isinstance_int _), (Json.eq_str _ _); split; reflexivity.
  - intros w Hreach Hact.
    destruct (reachable_inv w Hreach) as [p [Hp _]].
    destruct p; simpl in Hp.
    + left. tauto.
    + destruct Hp as [Hp _]. congruence.
    + right. right. exists (total_seconds (self w)).
      destruct Hp as (_ & Hcan & Hrem & Htot & Hstat & _).
      unfold countdown_state. rewrite Hcan, Hrem. tauto.
    + right. left. tauto.
Qed.

Lemma C6_state_at_rest_witness :
  countdown_state (fresh "Windows") = (0, 0, false).
Proof.
  exact (proj1 (proj1 C6_state_at_rest Json.Absent None "Windows"
                      (fresh "Windows") eq_refl)).
Defined.

(** ** The settings file *)

(** C7 does not hold as stated: a stored duration that is an integer
    but not positive is not replaced by the default, it is prefilled. *)
Lemma C7_negative_duration_counterexample :
  let file :=
    Json.Document (Json.Object [("last_duration", Json.Int (-5));
                                ("last_action", Json.Str "Sleep")]) in
  exists w, boot file None "Windows" = Ok w
            /\ shown_settings (self w) = ("-5", "Sleep")
            /\ shown_settings (self w) <> shown_settings init_window.
Proof.
  intros file. eexists. split; [reflexivity|].
  split; [reflexivity|discriminate].
Qed.

(** C7, amended: what [save] writes for a duration and one of the two
    actions, [load] shows again, so [save(90, Hibernate)] then [load] gives
    90 and Hibernate.  A file that is missing, that cannot be opened, or
    that [json.load] refuses with [JSONDecodeError], leaves the defaults (no
    duration, Sleep).  From a JSON object [load] prefills the duration
    whenever the stored value is an integer in Python's sense: a JSON
    integer, whatever its sign, in decimal, and [true] or [false] as the
    text [True] or [False]; any other stored value, or none, prefills
    nothing.  Independently it selects Hibernate exactly when the stored
    action is the string "Hibernate", and Sleep otherwise. *)
Theorem C7_settings_round_trip (werr : option write_failure) (sys : string) :
  (forall w d a, write_error w = None ->
     exists w', boot (settings_json (save_settings w d (Spec.name a))) werr sys
                = Ok w'
                /\ shown_settings (self w') = (Py.str d, Spec.name a))
  /\ (forall w, write_error w = None ->
        exists w', boot (settings_json (save_settings w 90 "Hibernate")) werr sys
                   = Ok w'
                   /\ shown_settings (self w') = ("90", "Hibernate"))
  /\ (forall file,
        (file = Json.Absent \/ (exists e, file = Json.Unreadable e)
         \/ (exists e, file = Json.NotJson e)) ->
        exists w', boot file werr sys = Ok w' /\ self w' = init_window
                   /\ shown_settings (self w') = ("", "Sleep"))
  /\ (forall members, exists w',
        boot (Json.Document (Json.Object members)) werr sys = Ok w'
        /\ (forall n, Json.get "last_duration" members = Json.Int n ->
              fst (shown_settings (self w')) = Py.str n)
        /\ (forall b, Json.get "last_duration" members = Json.Bool b ->
              fst (shown_settings (self w')) = Py.str_bool b)
        /\ ((forall n, Json.get "last_duration" members <> Json.Int n) ->
            (forall b, Json.get "last_duration" members <> Json.Bool b) ->
              fst (shown_settings (self w')) = "")
        /\ (Json.get "last_action" members = Json.Str "Hibernate" ->
              snd (shown_settings (self w')) = "Hibernate")
        /\ (Json.get "last_action" members <> Json.Str "Hibernate" ->
              snd (shown_settings (self w')) = "Sleep")).
Proof.
  assert (Hround : forall w d a, write_error w = None ->
     exists w', boot (settings_json (save_settings w d (Spec.name a))) werr sys
                = Ok w'
                /\ shown_settings (self w') = (Py.str d, Spec.name a)).
  { intros w d a Hw. unfold save_settings. rewrite Hw. simpl.
    destruct a; eexists; (split; [reflexivity|reflexivity]). }
  split; [exact Hround|]. split.
  { intros w Hw. exact (Hround w 90 Spec.Hibernate Hw). }
  split.
  - intros file [->|[[e ->]|[e ->]]]; eexists; repeat split; reflexivity.
  - intros members. eexists. split; [reflexivity|].
    unfold shown_settings. simpl.
    split; [|split; [|split; [|split]]].
    + intros n ->. destruct (Json.eq_str _ _); reflexivity.
    + intros b ->. destruct (Json.eq_str _ _); reflexivity.
    + intros Hint Hbool.
      destruct (Json.get "last_duration" members) as [|b|n| | | |];
        try (destruct (Json.eq_str _ _); reflexivity).
      * now elim (Hbool b).
      * now elim (Hint n).
    + intros ->. reflexivity.
    + intros Hne.
      assert (Heq : Json.eq_str (Json.get "last_action" members) "Hibernate" = false).
      { destruct (Json.get "last_action" members) as [| | | |a| |]; try reflexivity.
        simpl. apply String.eqb_neq. congruence. }
      rewrite Heq. destruct (Json.isinstance_int _); reflexivity.
Qed.

Lemma C7_settings_round_trip_witness :
  exists w', boot (settings_json (save_settings (fresh "Windows") 90 "Hibernate"))
                  None "Windows" = Ok w'
             /\ shown_settings (self w') = ("90", "Hibernate").
Proof.
  exact (proj1 (proj2 (C7_settings_round_trip None "Windows"))
               (fresh "Windows") eq_refl).
Defined.

(** A settings file that holds JSON other than an object is not covered by
    the handler of [load_settings]: the call of [get] raises.  Nor is an
    exception of [json.load] other than [JSONDecodeError]: it leaves the
    constructor of the window. *)
Lemma load_settings_not_an_object sys :
  boot (Json.Document (Json.Array [])) None sys = Raise "AttributeError".
Proof. reflexivity. Qed.

Lemma load_settings_uncaught exn werr sys :
  boot (Json.Raises exn) werr sys = Raise exn.
Proof. reflexivity. Qed.

(** ** The ring display *)

Section Ring.

Import CircularTimerWidget.

(** *** Rounding to a float, below a bound *)

Lemma digits2_size p : digits2_pos p = Pos.size p.
Proof. induction p; simpl; congruence. Qed.

Lemma Zdigits2_bounds m : 0 < m ->
  2 ^ (Zdigits2 m - 1) <= m < 2 ^ Zdigits2 m.
Proof.
  destruct m as [|p|p]; try lia. intros _. cbn [Zdigits2]. rewrite digits2_size.
  pose proof (Pos.size_gt p) as Hgt. pose proof (Pos.size_le p) as Hle.
  split.
  - assert (H : 2 ^ Z.pos (Pos.size p) <= Z.pos p~0).
    { change 2 with (Z.pos 2). rewrite <- Pos2Z.inj_pow.
      apply Pos2Z.pos_le_pos. exact Hle. }
    replace (Z.pos (Pos.size p)) with (Z.succ (Z.pos (Pos.size p) - 1)) in H by lia.
    rewrite Z.pow_succ_r in H by lia. lia.
  - change 2 with (Z.pos 2). rewrite <- Pos2Z.inj_pow.
    apply Pos2Z.pos_lt_pos. exact Hgt.
Qed.

Lemma iter_pos_nat {A} (f : A -> A) p : forall x,
  SpecFloat.iter_pos f p x = Nat.iter (Pos.to_nat p) f x.
Proof.
  induction p as [p IH|p IH|]; intros x; cbn [SpecFloat.iter_pos].
  - rewrite !IH, Pos2Nat.inj_xI.
    replace (S (2 * Pos.to_nat p)) with (Pos.to_nat p + (Pos.to_nat p + 1))%nat by lia.
    rewrite !Nat.iter_add. reflexivity.
  - rewrite !IH, Pos2Nat.inj_xO.
    replace (2 * Pos.to_nat p)%nat with (Pos.to_nat p + Pos.to_nat p)%nat by lia.
    rewrite Nat.iter_add. reflexivity.
  - reflexivity.
Qed.

Lemma shr_1_m mrs : 0 <= shr_m mrs -> shr_m (shr_1 mrs) = shr_m mrs / 2.
Proof.
  destruct mrs as [m r s]. cbn [shr_m]. intros Hm.
  destruct m as [|[p|p|]|p]; cbn [shr_1 shr_m]; try lia.
  - reflexivity.
  - apply Z.div_unique with (r := 1); lia.
  - apply Z.div_unique with (r := 0); lia.
  - reflexivity.
Qed.

Lemma shr_1_exact m : shr_1 (Build_shr_record (2 * m) false false)
  = Build_shr_record m false false.
Proof. destruct m; reflexivity. Qed.

Lemma iter_shr_m n : forall mrs, 0 <= shr_m mrs ->
  shr_m (Nat.iter n shr_1 mrs) = shr_m mrs / 2 ^ Z.of_nat n
  /\ 0 <= shr_m (Nat.iter n shr_1 mrs).
Proof.
  induction n as [|n IH]; intros mrs Hm.
  - simpl. rewrite Z.div_1_r. lia.
  - rewrite Nat.iter_succ_r. 
    assert (H1 : 0 <= shr_m (shr_1 mrs)).
    { rewrite shr_1_m by exact Hm. apply Z.div_pos; lia. }
    destruct (IH (shr_1 mrs) H1) as [IH1 IH2]. split; [|exact IH2].
    rewrite IH1, shr_1_m by exact Hm.
    rewrite Nat2Z.inj_succ, Z.pow_succ_r by lia.
    rewrite Z.div_div by lia. reflexivity.
Qed.

Lemma iter_shr_exact n : forall m,
  Nat.iter n shr_1 (Build_shr_record (m * 2 ^ Z.of_nat n) false false)
  = Build_shr_record m false false.
Proof.
  induction n as [|n IH]; intros m.
  - simpl. f_equal. lia.
  - rewrite Nat.iter_succ_r, Nat2Z.inj_succ, Z.pow_succ_r by lia.
    replace (m * (2 * 2 ^ Z.of_nat n)) with (2 * (m * 2 ^ Z.of_nat n)) by lia.
    rewrite shr_1_exact. apply IH.
Qed.

Lemma round_nearest_even_le m l : m <= round_nearest_even m l <= m + 1.
Proof.
  destruct l as [|[]]; simpl; try lia. destruct (Z.even m); lia.
Qed.

Lemma shr_m_of_loc m l : shr_m (shr_record_of_loc m l) = m.
Proof. destruct l as [|[]]; reflexivity. Qed.

Lemma fexp_unfold e : fexp Py.prec Py.emax e = Z.max (e - 53) (-1074).
Proof. reflexivity. Qed.

Lemma digits_le m b j :
  0 <= j -> 0 < b < 2 ^ 52 -> 0 <= m <= b * 2 ^ j -> Zdigits2 m <= 52 + j.
Proof.
  intros Hj Hb Hm. destruct (Z.eq_dec m 0) as [->|Hne]; [cbn [Zdigits2]; lia|].
  destruct (Zdigits2_bounds m) as [Hlo _]; [lia|].
  assert (Hlt : 2 ^ (Zdigits2 m - 1) < 2 ^ (52 + j)).
  { rewrite Z.pow_add_r by lia.
    assert (0 < 2 ^ j) by (apply Z.pow_pos_nonneg; lia). nia. }
  apply Z.pow_lt_mono_r_iff in Hlt; lia.
Qed.

(** One alignment of [shr_fexp] below a bound [b * 2 ^ k]. *)
Lemma shr_fexp_step m e l b k :
  0 <= m -> e <= k -> -1074 <= k -> 0 < b < 2 ^ 52 -> m <= b * 2 ^ (k - e) ->
  exists mrs e', shr_fexp Py.prec Py.emax m e l = (mrs, e')
    /\ e <= e' <= k
    /\ 0 <= shr_m mrs <= b * 2 ^ (k - e')
    /\ (m < b * 2 ^ (k - e) -> shr_m mrs < b * 2 ^ (k - e'))
    /\ (m = b * 2 ^ (k - e) -> l = loc_Exact ->
        mrs = Build_shr_record (b * 2 ^ (k - e')) false false).
Proof.
  intros Hm He Hk Hb Hle.
  pose proof (digits_le m b (k - e) ltac:(lia) Hb (conj Hm Hle)) as Hd.
  unfold shr_fexp, shr. rewrite fexp_unfold.
  set (n := Z.max (Zdigits2 m + e - 53) (-1074) - e).
  assert (Hn : n <= k - e) by (subst n; lia).
  destruct n as [|p|p] eqn:Hnp.
  - eexists _, _. split; [reflexivity|]. rewrite shr_m_of_loc.
    split; [lia|]. split; [lia|]. split; [tauto|].
    intros -> ->. reflexivity.
  - eexists _, _. split; [reflexivity|].
    split; [lia|].
    rewrite iter_pos_nat.
    destruct (iter_shr_m (Pos.to_nat p) (shr_record_of_loc m l)) as [Hv Hnn].
    { rewrite shr_m_of_loc. exact Hm. }
    rewrite shr_m_of_loc, positive_nat_Z in Hv.
    assert (Hsplit : b * 2 ^ (k - e) = b * 2 ^ (k - (e + Z.pos p)) * 2 ^ Z.pos p).
    { rewrite <- Z.mul_assoc, <- Z.pow_add_r by lia. do 2 f_equal. lia. }
    assert (Hp2 : 0 < 2 ^ Z.pos p) by (apply Z.pow_pos_nonneg; lia).
    split; [|split].
    + split; [exact Hnn|]. rewrite Hv.
      apply Z.div_le_upper_bound; [exact Hp2|]. rewrite Hsplit in Hle. lia.
    + intros Hlt. rewrite Hv. apply Z.div_lt_upper_bound; [exact Hp2|].
      rewrite Hsplit in Hlt. lia.
    + intros -> ->. cbn [shr_record_of_loc]. rewrite Hsplit.
      rewrite <- (positive_nat_Z p) at 2. apply iter_shr_exact.
  - eexists _, _. split; [reflexivity|]. rewrite shr_m_of_loc.
    split; [lia|]. split; [lia|]. split; [tauto|].
    intros -> ->. reflexivity.
Qed.

(** What [binary_round_aux] returns below a bound [b * 2 ^ k] that is a
    float of its own: a float with the sign asked for, no larger than the
    bound. *)
Lemma round_aux_bound s mx ex lx b k :
  0 <= mx -> ex <= k -> -1074 <= k <= 971 -> 0 < b < 2 ^ 52 ->
  (mx < b * 2 ^ (k - ex) \/ (mx = b * 2 ^ (k - ex) /\ lx = loc_Exact)) ->
  match binary_round_aux Py.prec Py.emax s mx ex lx with
  | S754_zero s' => s' = s
  | S754_finite s' m e => s' = s /\ e <= k /\ Z.pos m <= b * 2 ^ (k - e)
  | _ => False
  end.
Proof.
  intros Hmx Hex Hk Hb Hcase. unfold binary_round_aux.
  assert (Hmle : mx <= b * 2 ^ (k - ex)) by (destruct Hcase as [?|[? _]]; lia).
  destruct (shr_fexp_step mx ex lx b k Hmx Hex ltac:(lia) Hb Hmle)
    as (mrs1 & e1 & -> & He1 & Hm1 & Hlt1 & Hex1).
  set (m1 := round_nearest_even (shr_m mrs1) (loc_of_shr_record mrs1)).
  assert (Hm1' : 0 <= m1 <= b * 2 ^ (k - e1)).
  { subst m1. destruct Hcase as [Hlt|[Heq Hl]].
    - specialize (Hlt1 Hlt).
      pose proof (round_nearest_even_le (shr_m mrs1) (loc_of_shr_record mrs1)). lia.
    - rewrite (Hex1 Heq Hl). cbn. 
      assert (0 < 2 ^ (k - e1)) by (apply Z.pow_pos_nonneg; lia). nia. }
  destruct (shr_fexp_step m1 e1 loc_Exact b k (proj1 Hm1') (proj2 He1)
              ltac:(lia) Hb (proj2 Hm1'))
    as (mrs2 & e2 & -> & He2 & Hm2 & _).
  destruct (shr_m mrs2) as [|m|m] eqn:Hs2.
  - reflexivity.
  - destruct (Z.leb_spec e2 (Py.emax - Py.prec)) as [_|Hbad].
    + split; [reflexivity|]. split; lia.
    + unfold Py.emax, Py.prec in Hbad. lia.
  - lia.
Qed.


Lemma div_eucl_div_mod a b : Z.div_eucl a b = (a / b, a mod b).
Proof. unfold Z.div, Z.modulo. destruct (Z.div_eucl a b). reflexivity. Qed.

Lemma truediv_zero t : 0 < t -> Py.truediv 0 t = S754_zero false.
Proof. destruct t; try lia. reflexivity. Qed.

Lemma truediv_self t : 0 < t -> Py.truediv t t = Py.one.
Proof.
  destruct t as [|p|p]; try lia. intros _.
  unfold Py.truediv, Py.exact, SFdiv, SFdiv_core_binary.
  replace (Zdigits2 (Z.pos p) + 0 - (Zdigits2 (Z.pos p) + 0)) with 0 by lia.
  change (Z.min (fexp Py.prec Py.emax 0) (0 - 0)) with (-53).
  change (0 - 0 - -53) with 53.
  cbv iota beta.
  rewrite div_eucl_div_mod, Z.shiftl_mul_pow2 by lia.
  rewrite (Z.mul_comm (Z.pos p)), Z.div_mul, Z.mod_mul by lia.
  assert (Hloc : new_location (Z.pos p) 0 = loc_Exact).
  { unfold new_location. destruct (Z.even (Z.pos p)); reflexivity. }
  rewrite Hloc. vm_compute. reflexivity.
Qed.

Lemma truediv_below t r : 0 < r < t -> Py.at_most 1 0 false (Py.truediv r t).
Proof.
  intros Hrt. destruct r as [|r|r]; try lia. destruct t as [|t|t]; try lia.
  unfold Py.truediv, Py.exact, SFdiv, SFdiv_core_binary.
  set (d1 := Zdigits2 (Z.pos r)). set (d2 := Zdigits2 (Z.pos t)).
  assert (Hd : d1 <= d2).
  { destruct (Zdigits2_bounds (Z.pos r)) as [Hlo _]; [lia|].
    destruct (Zdigits2_bounds (Z.pos t)) as [_ Hhi]; [lia|].
    fold d1 in Hlo. fold d2 in Hhi.
    assert (Hlt : 2 ^ (d1 - 1) < 2 ^ d2) by lia.
    assert (0 < d2) by (subst d2; cbn [Zdigits2]; lia).
    apply Z.pow_lt_mono_r_iff in Hlt; lia. }
  rewrite fexp_unfold.
  set (e' := Z.min (Z.max (d1 + 0 - (d2 + 0) - 53) (-1074)) (0 - 0)).
  assert (He' : -1074 <= e' <= -53) by (subst e'; lia).
  replace (0 - 0 - e') with (- e') by lia.
  destruct (- e') as [|s|s] eqn:Hs; try lia.
  rewrite div_eucl_div_mod, Z.shiftl_mul_pow2 by lia.
  cbn [xorb].
  apply round_aux_bound; try lia.
  - apply Z.div_pos; [|lia].
    assert (0 < 2 ^ Z.pos s) by (apply Z.pow_pos_nonneg; lia). nia.
  - left. rewrite Z.mul_1_l. replace (0 - e') with (Z.pos s) by lia.
    assert (0 < 2 ^ Z.pos s) by (apply Z.pow_pos_nonneg; lia).
    apply Z.div_lt_upper_bound; [lia|]. nia.
Qed.

Lemma one_at_most : Py.at_most 1 0 false Py.one.
Proof. unfold Py.one. cbn. repeat split; lia. Qed.

Lemma truediv_unit t r : 0 < t -> 0 <= r <= t -> Py.at_most 1 0 false (Py.truediv r t).
Proof.
  intros Ht Hr. destruct (Z.eq_dec r 0) as [->|Hr0].
  - rewrite truediv_zero by exact Ht. reflexivity.
  - destruct (Z.eq_dec r t) as [->|Hrt].
    + rewrite truediv_self by exact Ht. exact one_at_most.
    + apply truediv_below. lia.
Qed.

Lemma float_mul_bound b1 k1 s1 x b2 k2 s2 y :
  Py.at_most b1 k1 s1 x -> Py.at_most b2 k2 s2 y ->
  0 < b1 -> 0 < b2 -> b1 * b2 < 2 ^ 52 -> -1074 <= k1 + k2 <= 971 ->
  Py.at_most (b1 * b2) (k1 + k2) (xorb s1 s2) (Py.float_mul x y).
Proof.
  intros Hx Hy Hb1 Hb2 Hb Hk.
  destruct x as [sx|sx| |sx mx ex]; try contradiction;
    destruct y as [sy|sy| |sy my ey]; try contradiction; cbn in Hx, Hy.
  - subst. reflexivity.
  - destruct Hy as (-> & _). subst. reflexivity.
  - destruct Hx as (-> & _). subst. reflexivity.
  - destruct Hx as (-> & Hex & Hmx). destruct Hy as (-> & Hey & Hmy).
    unfold Py.float_mul, SFmul.
    apply round_aux_bound; try lia.
    assert (Hp : b1 * b2 * 2 ^ (k1 + k2 - (ex + ey))
                 = (b1 * 2 ^ (k1 - ex)) * (b2 * 2 ^ (k2 - ey))).
    { replace (k1 + k2 - (ex + ey)) with ((k1 - ex) + (k2 - ey)) by lia.
      rewrite Z.pow_add_r by lia. ring. }
    rewrite Hp, Pos2Z.inj_mul.
    assert (Hle : Z.pos mx * Z.pos my
                  <= (b1 * 2 ^ (k1 - ex)) * (b2 * 2 ^ (k2 - ey))).
    { apply Z.mul_le_mono_nonneg; lia. }
    destruct (Z.eq_dec (Z.pos mx * Z.pos my)
                ((b1 * 2 ^ (k1 - ex)) * (b2 * 2 ^ (k2 - ey)))) as [Heq|Hne].
    + right. split; [exact Heq|reflexivity].
    + left. lia.
Qed.

Lemma float_neg_bound b k s x : Py.at_most b k s x -> Py.at_most b k (negb s) (Py.float_neg x).
Proof.
  destruct x as [sx|sx| |sx mx ex]; cbn; try tauto.
  - intros ->. reflexivity.
  - intros (-> & H). tauto.
Qed.

Lemma int_of_float_bound b k s x :
  Py.at_most b k s x -> 0 <= k -> 0 < b ->
  exists v, Py.int_of_float x = Some v
    /\ (if s then - (b * 2 ^ k) <= v <= 0 else 0 <= v <= b * 2 ^ k).
Proof.
  intros Hx Hk Hb.
  assert (Hbk : 0 <= b * 2 ^ k).
  { assert (0 < 2 ^ k) by (apply Z.pow_pos_nonneg; lia). nia. }
  destruct x as [sx|sx| |sx mx ex]; cbn in Hx; try contradiction.
  - exists 0. split; [reflexivity|]. destruct s; lia.
  - destruct Hx as (-> & Hex & Hmx). eexists. split; [reflexivity|].
    assert (Hv : 0 <= (if 0 <=? ex then Z.pos mx * 2 ^ ex else Z.pos mx / 2 ^ (- ex))
                 <= b * 2 ^ k).
    { destruct (Z.leb_spec 0 ex) as [He|He].
      - assert (Hsplit : b * 2 ^ k = b * 2 ^ (k - ex) * 2 ^ ex).
        { rewrite <- Z.mul_assoc, <- Z.pow_add_r by lia.
          replace (k - ex + ex) with k by lia. reflexivity. }
        assert (0 < 2 ^ ex) by (apply Z.pow_pos_nonneg; lia).
        rewrite Hsplit. split; [lia|]. apply Z.mul_le_mono_nonneg_r; lia.
      - assert (Hsplit : b * 2 ^ (k - ex) = b * 2 ^ k * 2 ^ (- ex)).
        { rewrite <- Z.mul_assoc, <- Z.pow_add_r by lia.
          replace (k + - ex) with (k - ex) by lia. reflexivity. }
        assert (0 < 2 ^ (- ex)) by (apply Z.pow_pos_nonneg; lia).
        split; [apply Z.div_pos; lia|].
        apply Z.div_le_upper_bound; [lia|]. rewrite Hsplit in Hmx. lia. }
    destruct s; lia.
Qed.

Lemma float_value_unit x : Py.at_most 1 0 false x -> (0 <= Py.float_value x <= 1)%Q.
Proof.
  destruct x as [sx|sx| |sx mx ex]; cbn [Py.at_most]; try contradiction.
  - intros _. cbn. split; discriminate.
  - intros (-> & Hex & Hmx). cbn [Py.float_value].
    rewrite Z.mul_1_l in Hmx. replace (0 - ex) with (- ex) in Hmx by lia.
    destruct (Z.leb_spec 0 ex) as [He|He].
    + assert (ex = 0) by lia. subst ex. cbn in Hmx.
      unfold Qle. cbn. lia.
    + assert (Hp : 0 < 2 ^ (- ex)) by (apply Z.pow_pos_nonneg; lia).
      unfold Qle. cbn [Qnum Qden]. rewrite Z2Pos.id by exact Hp. lia.
Qed.


(** *** The pie *)

Lemma float_gt_zero_signed x :
  match x with
  | S754_zero s | S754_infinity s | S754_finite s _ _ => s = true
  | S754_nan => True
  end ->
  Py.float_gt_zero x = false.
Proof. destruct x as [s|s| |s m e]; try intros ->; reflexivity. Qed.

Lemma round_aux_sign s mx ex lx :
  match binary_round_aux Py.prec Py.emax s mx ex lx with
  | S754_zero s' | S754_infinity s' | S754_finite s' _ _ => s' = s
  | S754_nan => True
  end.
Proof.
  unfold binary_round_aux.
  destruct (shr_fexp _ _ mx ex lx) as [mrs1 e1].
  destruct (shr_fexp _ _ _ e1 loc_Exact) as [mrs2 e2].
  destruct (shr_m mrs2); [reflexivity| |exact I].
  destruct (e2 <=? Py.emax - Py.prec); reflexivity.
Qed.

Lemma float_of_int_360 :
  Py.float_of_int 360 = S754_finite false 6333186975989760 (-44).
Proof. vm_compute. reflexivity. Qed.

Lemma float_of_int_16 :
  Py.float_of_int 16 = S754_finite false 4503599627370496 (-48).
Proof. vm_compute. reflexivity. Qed.

Lemma angle_of_negative r t :
  r < 0 -> 0 < t ->
  Py.float_gt_zero (Py.float_mul (Py.float_of_int 360) (Py.truediv r t)) = false.
Proof.
  intros Hr Ht. destruct r as [|r|r]; try lia. destruct t as [|t|t]; try lia.
  rewrite float_of_int_360. unfold Py.truediv, Py.exact, SFdiv.
  destruct (SFdiv_core_binary _ _ _ _ _ _) as [[mz ez] lz]. cbn [xorb].
  pose proof (round_aux_sign true mz ez lz) as Hs.
  destruct (binary_round_aux _ _ true mz ez lz) as [s|s| |s m e];
    try subst s; try reflexivity.
  unfold Py.float_mul, SFmul. cbn [xorb].
  apply float_gt_zero_signed, round_aux_sign.
Qed.

Lemma progress_pie_none ring :
  total_seconds ring <= 0 \/ remaining_seconds ring <= 0 ->
  progress_pie ring = [].
Proof.
  destruct ring as [d t r]. simpl. intros H.
  unfold progress_pie, angle. cbn [total_seconds remaining_seconds diameter].
  destruct (Z.gtb_spec t 0) as [Ht|Ht]; [|reflexivity].
  destruct (Z.eq_dec r 0) as [->|Hr].
  - rewrite truediv_zero by lia. reflexivity.
  - rewrite angle_of_negative by lia. reflexivity.
Qed.

(** The pie of a ring at its start: a full turn. *)
Lemma progress_pie_full ring :
  0 < total_seconds ring -> remaining_seconds ring = total_seconds ring ->
  progress_pie ring
  = [ setBrush (QColor 0 234 255 255); setPen NoPen;
      drawPie (QRectF 10 10 (diameter ring - 20) (diameter ring - 20)) 1440
              (-5760) ].
Proof.
  destruct ring as [d t r]. simpl. intros Ht ->.
  unfold progress_pie, span_sixteenths, angle.
  cbn [total_seconds remaining_seconds diameter].
  destruct (Z.gtb_spec t 0) as [_|?]; [|lia].
  rewrite truediv_self by exact Ht. reflexivity.
Qed.

(** The argument of [int] for a ring within its total: a float between
    -5760 and 0. *)
Lemma span_sixteenths_bound ring :
  0 < total_seconds ring ->
  0 <= remaining_seconds ring <= total_seconds ring ->
  Py.at_most 45 3 false (angle ring)
  /\ Py.at_most 45 7 true (span_sixteenths ring).
Proof.
  intros Ht Hr.
  assert (Ha : Py.at_most 45 3 false (angle ring)).
  { unfold angle. destruct (Z.gtb_spec (total_seconds ring) 0) as [_|?]; [|lia].
    apply (float_mul_bound 45 3 false _ 1 0 false);
      [rewrite float_of_int_360; cbn; lia
      |apply truediv_unit; assumption|lia|lia|reflexivity|lia]. }
  split; [exact Ha|]. unfold span_sixteenths.
  apply (float_mul_bound 45 3 true _ 1 4 false);
    [exact (float_neg_bound 45 3 false _ Ha)
    |rewrite float_of_int_16; cbn; lia|lia|lia|reflexivity|lia].
Qed.

Lemma progress_pie_span ring :
  0 < total_seconds ring ->
  0 <= remaining_seconds ring <= total_seconds ring ->
  progress_pie ring = []
  \/ exists span, -5760 <= span <= 0
       /\ progress_pie ring
          = [ setBrush (QColor 0 234 255 255); setPen NoPen;
              drawPie (QRectF 10 10 (diameter ring - 20) (diameter ring - 20))
                      1440 span ].
Proof.
  intros Ht Hr. destruct (span_sixteenths_bound ring Ht Hr) as [_ Hs].
  destruct (int_of_float_bound 45 7 true _ Hs) as (v & Hv & Hb); [lia|lia|].
  unfold progress_pie. rewrite Hv.
  destruct (Py.float_gt_zero (angle ring)); [|left; reflexivity].
  right. exists v. split; [exact Hb|reflexivity].
Qed.

Lemma raises_within ring :
  0 <= remaining_seconds ring <= total_seconds ring -> raises ring = false.
Proof.
  intros Hr. unfold raises, Py.truediv_overflows.
  destruct (Z.gtb_spec (total_seconds ring) 0) as [Ht|Ht]; [|reflexivity].
  destruct (span_sixteenths_bound ring Ht Hr) as [_ Hs].
  destruct (int_of_float_bound 45 7 true _ Hs) as (v & -> & _); [lia|lia|].
  pose proof (truediv_unit _ _ Ht Hr) as Hu.
  destruct (Py.truediv _ _); try contradiction;
    destruct (Py.float_gt_zero _); reflexivity.
Qed.

Lemma sweep_fraction_bounds ring :
  0 <= remaining_seconds ring <= total_seconds ring ->
  (0 <= Py.float_value (sweep_fraction ring) <= 1)%Q.
Proof.
  intros Hr. unfold sweep_fraction.
  destruct (Z.gtb_spec (total_seconds ring) 0) as [Ht|Ht].
  - apply float_value_unit, truediv_unit; assumption.
  - split; discriminate.
Qed.

Lemma drawn_text_time_str ring : drawn_text ring = Some (time_str ring).
Proof.
  unfold drawn_text, paintEvent, progress_pie.
  destruct (Py.float_gt_zero _); [destruct (Py.int_of_float _)|]; reflexivity.
Qed.

Lemma format_zero_nonneg w n : 0 <= n -> Py.format_zero w n = Spec.zero_pad w n.
Proof.
  intros Hn. unfold Py.format_zero, Spec.zero_pad.
  destruct (Z.ltb_spec n 0) as [?|_]; [lia|].
  rewrite Z.abs_eq by exact Hn. simpl. rewrite Nat.sub_0_r. reflexivity.
Qed.

Lemma format_zero_two_digits n :
  0 <= n < 100 -> Py.format_zero 2 n = Spec.two_digits n.
Proof.
  intros Hn.
  assert (Hall : forallb (fun k => String.eqb (Py.format_zero 2 (Z.of_nat k))
                                     (Spec.two_digits (Z.of_nat k)))
                         (seq 0 100) = true) by (vm_compute; reflexivity).
  rewrite forallb_forall in Hall.
  specialize (Hall (Z.to_nat n)). rewrite Z2Nat.id in Hall by lia.
  apply String.eqb_eq, Hall, in_seq. lia.
Qed.

End Ring.

(** C8 does not hold as stated: the widget takes any pair, and for a
    remaining time above the total the fraction is above 1, for a negative
    one it is below 0.  Nor is the arc 360 degrees times the fraction
    exactly: with 7 of 10 seconds left it spans 4031 sixteenths of a
    degree, where 360 times 0.7 is 4032 of them. *)
Lemma C8_fraction_counterexample :
  let above := CircularTimerWidget.set_timer (CircularTimerWidget.init 200) 1 2 in
  let below := CircularTimerWidget.set_timer (CircularTimerWidget.init 200) 1 (-1) in
  let seven := CircularTimerWidget.set_timer (CircularTimerWidget.init 200) 10 7 in
  0 <= CircularTimerWidget.total_seconds above
  /\ (Py.float_value (CircularTimerWidget.sweep_fraction above) == 2)%Q
  /\ ~ (Py.float_value (CircularTimerWidget.sweep_fraction above) <= 1)%Q
  /\ 0 <= CircularTimerWidget.total_seconds below
  /\ ~ (0 <= Py.float_value (CircularTimerWidget.sweep_fraction below))%Q
  /\ CircularTimerWidget.raises above = false
  /\ CircularTimerWidget.raises below = false
  /\ CircularTimerWidget.drawn_span seven = Some (-4031)
  /\ -4031 <> - (360 * 16 * 7 / 10).
Proof.
  intros above below seven.
  split; [discriminate|]. split; [reflexivity|].
  split; [intros H; apply H; reflexivity|]. split; [discriminate|].
  split; [intros H; apply H; reflexivity|].
  split; [vm_compute; reflexivity|]. split; [vm_compute; reflexivity|].
  split; [vm_compute; reflexivity|]. discriminate.
Qed.

(** C8, amended: for every pair with [total >= 0] the sweep fraction is the
    quotient [remaining / total] as Python's floats give it, 0 when the
    total is 0, and the angle is 360 times the fraction, in floats again.
    A pie is drawn only when the angle is positive, and its span is what
    [int] makes of minus the angle times 16, the angle in sixteenths of a
    degree cut toward zero.  The fraction is 1.0 at [remaining = total > 0]
    (a full turn, -5760) and 0.0 at [remaining = 0] (no pie); no pie is
    drawn either for a negative remaining time.  For
    [0 <= remaining <= total] the fraction lies between 0 and 1, the
    painting raises nothing and the pie, if any, is at most a full turn;
    that is the ring of every reachable window.  The general clauses are
    those of a painting that does not raise. *)
Theorem C8_ring_fraction :
  (forall ring,
     let t := CircularTimerWidget.total_seconds ring in
     let r := CircularTimerWidget.remaining_seconds ring in
     let fraction := CircularTimerWidget.sweep_fraction ring in
     0 <= t -> CircularTimerWidget.raises ring = false ->
     (0 < t ->
        fraction = Py.truediv r t
        /\ CircularTimerWidget.angle ring
           = Py.float_mul (Py.float_of_int 360) fraction)
     /\ (t = 0 -> fraction = Py.zero /\ CircularTimerWidget.angle ring = Py.zero)
     /\ CircularTimerWidget.drawn_span ring
        = (if Py.float_gt_zero (CircularTimerWidget.angle ring)
           then Py.int_of_float
                  (Py.float_mul (Py.float_neg (CircularTimerWidget.angle ring))
                                (Py.float_of_int 16))
           else None)
     /\ (t = 0 \/ r <= 0 -> CircularTimerWidget.drawn_span ring = None))
  /\ (forall ring,
        let t := CircularTimerWidget.total_seconds ring in
        let r := CircularTimerWidget.remaining_seconds ring in
        let fraction := CircularTimerWidget.sweep_fraction ring in
        0 <= t ->
        (0 < t -> r = t ->
           fraction = Py.one /\ (Py.float_value fraction == 1)%Q
           /\ CircularTimerWidget.drawn_span ring = Some (-5760))
        /\ (r = 0 ->
              fraction = Py.zero /\ (Py.float_value fraction == 0)%Q
              /\ CircularTimerWidget.drawn_span ring = None)
        /\ (0 <= r <= t ->
              (0 <= Py.float_value fraction <= 1)%Q
              /\ CircularTimerWidget.raises ring = false
              /\ forall span, CircularTimerWidget.drawn_span ring = Some span ->
                    -5760 <= span <= 0))
  /\ (forall w, reachable w ->
        let ring := circular_timer (self w) in
        0 <= CircularTimerWidget.remaining_seconds ring
          <= CircularTimerWidget.total_seconds ring
        /\ (0 <= Py.float_value (CircularTimerWidget.sweep_fraction ring) <= 1)%Q
        /\ CircularTimerWidget.raises ring = false).
Proof.
  assert (Hspan : forall ring,
            CircularTimerWidget.drawn_span ring
            = (if Py.float_gt_zero (CircularTimerWidget.angle ring)
               then Py.int_of_float (CircularTimerWidget.span_sixteenths ring)
               else None)).
  { intros ring. unfold CircularTimerWidget.drawn_span,
      CircularTimerWidget.paintEvent, CircularTimerWidget.progress_pie.
    destruct (Py.float_gt_zero _); [|reflexivity].
    destruct (Py.int_of_float _); reflexivity. }
  assert (Hnone : forall ring,
            CircularTimerWidget.total_seconds ring <= 0
            \/ CircularTimerWidget.remaining_seconds ring <= 0 ->
            CircularTimerWidget.drawn_span ring = None).
  { intros ring H. unfold CircularTimerWidget.drawn_span,
      CircularTimerWidget.paintEvent.
    rewrite (progress_pie_none ring H). reflexivity. }
  split; [|split].
  - intros ring t r fraction Ht _. subst fraction.
    unfold CircularTimerWidget.angle, CircularTimerWidget.sweep_fraction.
    fold t r. split; [|split; [|split]].
    + intros Ht'. destruct (Z.gtb_spec t 0) as [_|?]; [|lia]. split; reflexivity.
    + intros ->. split; reflexivity.
    + exact (Hspan ring).
    + intros H. apply Hnone. fold t r. lia.
  - intros ring t r fraction Ht. subst fraction.
    split; [|split].
    + intros Ht' Hrt. unfold CircularTimerWidget.sweep_fraction. fold t r.
      destruct (Z.gtb_spec t 0) as [_|?]; [|lia].
      rewrite Hrt, truediv_self by exact Ht'.
      split; [reflexivity|]. split; [reflexivity|].
      unfold CircularTimerWidget.drawn_span, CircularTimerWidget.paintEvent.
      rewrite (progress_pie_full ring Ht' Hrt). reflexivity.
    + intros Hr0.
      assert (Hz : CircularTimerWidget.sweep_fraction ring = Py.zero).
      { unfold CircularTimerWidget.sweep_fraction. fold t r.
        destruct (Z.gtb_spec t 0) as [Ht'|_]; [|reflexivity].
        rewrite Hr0. apply truediv_zero. lia. }
      rewrite Hz. split; [reflexivity|]. split; [reflexivity|].
      apply Hnone. fold r. lia.
    + intros Hr. split; [exact (sweep_fraction_bounds ring Hr)|].
      split; [exact (raises_within ring Hr)|].
      intros span Hs.
      destruct (Z.eq_dec t 0) as [Ht0|Ht0].
      { rewrite Hnone in Hs by (fold t; lia). discriminate. }
      destruct (progress_pie_span ring) as [Hp|(v & Hv & Hp)];
        [fold t; lia|exact Hr| |];
        unfold CircularTimerWidget.drawn_span, CircularTimerWidget.paintEvent in Hs;
        rewrite Hp in Hs; simpl in Hs; [discriminate|].
      injection Hs as <-. exact Hv.
  - intros w Hreach ring.
    assert (Hr : 0 <= CircularTimerWidget.remaining_seconds ring
                   <= CircularTimerWidget.total_seconds ring).
    { destruct (reachable_inv w Hreach) as [p [Hp _]]. subst ring.
      destruct p; simpl in Hp; unfold ring_is in Hp.
      - destruct Hp as (_ & _ & _ & _ & -> & ->). lia.
      - destruct Hp as (_ & _ & ? & ? & -> & ->). lia.
      - destruct Hp as (_ & _ & _ & ? & _ & -> & ->). lia.
      - destruct Hp as (_ & _ & _ & -> & ->). lia. }
    split; [exact Hr|].
    split; [exact (sweep_fraction_bounds ring Hr)|exact (raises_within ring Hr)].
Qed.

Lemma C8_ring_fraction_witness :
  let ring := CircularTimerWidget.set_timer (CircularTimerWidget.init 200) 7 1 in
  CircularTimerWidget.drawn_span ring = Some (-822)
  /\ -5760 <= -822 <= 0.
Proof.
  intros ring.
  assert (Hs : CircularTimerWidget.drawn_span ring = Some (-822))
    by (vm_compute; reflexivity).
  split; [exact Hs|].
  refine (proj2 (proj2 (proj2 (proj2
    (proj1 (proj2 C8_ring_fraction) ring _)) _)) (-822) Hs); simpl; lia.
Defined.

(** C9: for every remaining time [r >= 0] the label drawn is the minutes
    [r div 60] and the seconds [r mod 60], each zero-padded to two digits,
    with a colon between them; under 100 minutes that is two digits, a
    colon, two digits.  125 gives "02:05", 0 gives "00:00" and 3599 gives
    "59:59". *)
Theorem C9_time_label (ring : CircularTimerWidget.t) :
  let r := CircularTimerWidget.remaining_seconds ring in
  0 <= r ->
  CircularTimerWidget.drawn_text ring
  = Some (Spec.zero_pad 2 (r / 60) ++ ":" ++ Spec.zero_pad 2 (r mod 60))%string
  /\ (0 <= r mod 60 < 60 /\ r = 60 * (r / 60) + r mod 60)
  /\ (r < 6000 ->
        CircularTimerWidget.drawn_text ring
        = Some (Spec.two_digits (r / 60) ++ ":" ++ Spec.two_digits (r mod 60))%string)
  /\ (r = 125 -> CircularTimerWidget.drawn_text ring = Some "02:05")
  /\ (r = 0 -> CircularTimerWidget.drawn_text ring = Some "00:00")
  /\ (r = 3599 -> CircularTimerWidget.drawn_text ring = Some "59:59").
Proof.
  intros r Hr. rewrite drawn_text_time_str.
  unfold CircularTimerWidget.time_str, Py.divmod. fold r.
  assert (Hm : 0 <= r / 60) by (apply Z.div_pos; lia).
  assert (Hs : 0 <= r mod 60 < 60) by (apply Z.mod_pos_bound; lia).
  repeat split; try lia.
  - rewrite !format_zero_nonneg by lia. reflexivity.
  - apply Z.div_mod. lia.
  - intros Hlt. rewrite !format_zero_two_digits; [reflexivity|lia|].
    split; [lia|]. apply Z.div_lt_upper_bound; lia.
  - intros ->. reflexivity.
  - intros ->. reflexivity.
  - intros ->. reflexivity.
Qed.

Lemma C9_time_label_witness :
  CircularTimerWidget.drawn_text
    (CircularTimerWidget.set_timer (CircularTimerWidget.init 200) 200 125)
  = Some "02:05".
Proof.
  refine (proj1 (proj2 (proj2 (proj2
    (C9_time_label
       (CircularTimerWidget.set_timer (CircularTimerWidget.init 200) 200 125) _))))
    _).
  - simpl. lia.
  - reflexivity.
Defined.

(** C10: a ring widget just constructed holds total 1 and remaining 1, so it
    draws a full turn (-5760 sixteenths of a degree, fraction 1) and the
    label "00:01"; the window the process constructs holds such a ring until
    the first [set_timer]. *)
Theorem C10_fresh_ring (diameter : Z) :
  let ring := CircularTimerWidget.init diameter in
  CircularTimerWidget.total_seconds ring = 1
  /\ CircularTimerWidget.remaining_seconds ring = 1
  /\ CircularTimerWidget.sweep_fraction ring = Py.one
  /\ (Py.float_value (CircularTimerWidget.sweep_fraction ring) == 1)%Q
  /\ CircularTimerWidget.drawn_span ring = Some (-5760)
  /\ CircularTimerWidget.drawn_text ring = Some "00:01"
  /\ (forall file werr sys w,
        boot file werr sys = Ok w ->
        circular_timer (self w) = CircularTimerWidget.init 200).
Proof.
  repeat split.
  intros file werr sys w. unfold boot, load_settings. simpl.
  destruct file as [|e|e|x|v]; try (intros [= <-]; reflexivity).
  destruct v; try discriminate. intros [= <-].
  destruct (Json.isinstance_int _), (Json.eq_str _ _); reflexivity.
Qed.

Lemma C10_fresh_ring_witness :
  circular_timer (self (fresh "Windows")) = CircularTimerWidget.init 200.
Proof.
  exact (proj2 (proj2 (proj2 (proj2 (proj2 (proj2 (C10_fresh_ring 200))))))
               Json.Absent None "Windows" (fresh "Windows") eq_refl).
Defined.

(** ** Workers in every interleaving *)

Section Workers.

Import Stages.

Lemma count_out_app f l1 l2 :
  count_out f (l1 ++ l2) = (count_out f l1 + count_out f l2)%nat.
Proof. unfold count_out. rewrite filter_app, length_app. reflexivity. Qed.

Lemma count_out_quiet f l delta :
  Forall (fun o => f o = false) delta -> count_out f (l ++ delta) = count_out f l.
Proof.
  intros H. rewrite count_out_app.
  assert (Hz : count_out f delta = 0%nat).
  { unfold count_out. induction H as [|o delta Ho _ IH]; [reflexivity|].
    rewrite filter_cons_False by congruence. exact IH. }
  lia.
Qed.

Lemma count_out_snoc f l o :
  count_out f (l ++ [o]) = (count_out f l + (if f o then 1 else 0))%nat.
Proof.
  rewrite count_out_app. f_equal. unfold count_out. rewrite filter_cons.
  destruct (f o); case_decide; simpl; congruence.
Qed.

Lemma delayed_action_stages d a : delayed_action d a = time_sleep d (after_sleep a).
Proof. reflexivity. Qed.

Lemma alive_insert (l : list thread) i th th' :
  l !! i = Some th ->
  (length (filter (fun t => is_alive t = true) (<[i:=th']> l))
   + (if is_alive th then 1 else 0)
   = length (filter (fun t => is_alive t = true) l)
     + (if is_alive th' then 1 else 0))%nat.
Proof.
  revert i. induction l as [|x l IH]; intros i Hi; [discriminate|].
  destruct i as [|i]; simpl in Hi.
  - injection Hi as ->. simpl.
    rewrite !filter_cons. destruct (is_alive th), (is_alive th');
      repeat case_decide; simpl; try congruence; lia.
  - simpl. rewrite !filter_cons. specialize (IH i Hi).
    case_decide; simpl; lia.
Qed.

Lemma alive_snoc (l : list thread) (th : thread) :
  length (filter (fun t => is_alive t = true) (l ++ [th])%list)
  = (length (filter (fun t => is_alive t = true) l)
     + (if is_alive th then 1 else 0))%nat.
Proof.
  rewrite filter_app, length_app. f_equal. rewrite filter_cons.
  destruct (is_alive th); case_decide; simpl; congruence.
Qed.

(** The whole of what an accepted request does. *)
Lemma schedule_action_accepts_world w d :
  Py.int (entry_text (self w)) = Some d -> 0 < d ->
  let a := snd (shown_settings (self w)) in
  log (schedule_action w)
  = (log w
     ++ match write_error w with
        | Some (OpenFails e) | Some (WriteFails e _) =>
            [Print ("Could not save settings: " ++ e)]
        | None => []
        end
     ++ [SetStatus (scheduled_text a d)])%list
  /\ settings_json (schedule_action w)
     = match write_error w with
       | Some (OpenFails _) => settings_json w
       | Some (WriteFails _ (Some msg)) => Json.NotJson msg
       | Some (WriteFails _ None) | None => settings_document d a
       end
  /\ threads (schedule_action w) = (threads w ++ [delayed_action d a])%list
  /\ system (schedule_action w) = system w
  /\ posted (schedule_action w) = posted w
  /\ write_error (schedule_action w) = write_error w
  /\ status_label (self (schedule_action w)) = scheduled_text a d
  /\ shown_settings (self (schedule_action w)) = shown_settings (self w).
Proof.
  intros Hint Hd a. unfold schedule_action. rewrite Hint.
  destruct (Z.leb_spec d 0) as [?|_]; [lia|].
  unfold save_settings, shown_settings, scheduled_text, settings_document in *.
  subst a. destruct (write_error w) as [[e|e [msg|]]|] eqn:Hwe; simpl;
    rewrite <- ?app_assoc; repeat split; try reflexivity; exact Hwe.
Qed.

(** An event of the window, other than the delivery of a posted callback,
    leaves the platform and the posted callbacks alone, adds no platform
    call and no notice to the log, and starts at most one worker. *)
Lemma ui_step_effect w e :
  (forall i, e <> ThreadStep i) -> e <> RunPosted ->
  system (step w e) = system w /\ posted (step w e) = posted w
  /\ write_error (step w e) = write_error w
  /\ (exists delta, log (step w e) = (log w ++ delta)%list /\ Forall quiet delta)
  /\ (threads (step w e) = threads w
      \/ exists d a, (a = "Sleep" \/ a = "Hibernate")
           /\ threads (step w e) = (threads w ++ [delayed_action d a])%list).
Proof.
  intros Hth Hrun.
  assert (Hsame : system w = system w /\ posted w = posted w
    /\ write_error w = write_error w
    /\ (exists delta, log w = (log w ++ delta)%list /\ Forall quiet delta)
    /\ (threads w = threads w
        \/ exists d a, (a = "Sleep" \/ a = "Hibernate")
             /\ threads w = (threads w ++ [delayed_action d a])%list)).
  { repeat split. exists []. rewrite app_nil_r. split; [reflexivity|constructor].
    left. reflexivity. }
  destruct e; simpl; try congruence.
  - destruct (entry_enabled (self w)); exact Hsame.
  - destruct (sleep_radio_enabled (self w)); exact Hsame.
  - destruct (hibernate_radio_enabled (self w)); exact Hsame.
  - destruct (schedule_btn_visible (self w)); [|exact Hsame].
    destruct (int_positive_or_not (entry_text (self w))) as [[d [Hint Hd]]|Hbad].
    + destruct (schedule_action_accepts_world w d Hint Hd)
        as (Hlog & _ & Hthr & Hsys & Hpost & Hwerr & _).
      repeat split; try assumption.
      * eexists. split; [exact Hlog|].
        destruct (write_error w) as [[e|e cut]|]; repeat constructor.
      * right. exists d, (snd (shown_settings (self w))). split; [|exact Hthr].
        unfold shown_settings. simpl. destruct (sleep_radio_checked (self w)); tauto.
    + rewrite (schedule_action_refuses w Hbad). simpl.
      repeat split. exists [Spec.invalid_duration].
      split; [reflexivity|repeat constructor]. left. reflexivity.
  - destruct (cancel_btn_visible (self w)); [|exact Hsame].
    simpl. repeat split. eexists. split; [reflexivity|repeat constructor].
    left. reflexivity.
  - destruct (active (timer (self w))); [|exact Hsame].
    unfold update_timer.
    destruct (_ <? 0); [destruct (is_cancelled (self w))|]; simpl;
      try exact Hsame.
    repeat split. eexists. split; [reflexivity|repeat constructor].
    left. reflexivity.
Qed.

(** A step of a worker that is on its way: it moves to a later stage; it
    adds at most one output, a platform call only as its last act and only
    on Windows, the call of [QTimer.singleShot] only as its last act and
    only elsewhere; and it queues nothing on the event loop. *)
Lemma thread_step_effect w i th :
  threads w !! i = Some th -> is_stage (system w) th ->
  let w' := thread_step w i in
  system w' = system w /\ self w' = self w
  /\ settings_json w' = settings_json w /\ write_error w' = write_error w
  /\ exists th', threads w' = <[i:=th']> (threads w)
       /\ is_stage (system w) th'
       /\ ((exists delta, log w' = (log w ++ delta)%list /\ Forall quiet delta
              /\ posted w' = posted w
              /\ (is_alive th' = true -> is_alive th = true)
              /\ (before_check th' -> before_check th)
              /\ (is_cancelled (self w) = true -> before_check th -> before_check th'))
           \/ (exists o, log w' = (log w ++ [o])%list
                 /\ Spec.is_platform_call o = true /\ is_posted o = false
                 /\ is_notice o = false
                 /\ posted w' = posted w /\ system w = "Windows"
                 /\ th' = finished /\ is_alive th = true /\ ~ before_check th)
           \/ (log w' = (log w ++ [SingleShot 0 show_msg])%list
               /\ posted w' = posted w
               /\ system w <> "Windows"
               /\ th' = finished /\ is_alive th = true /\ ~ before_check th)).
Proof.
  intros Hth Hstage w'. subst w'. unfold thread_step. rewrite Hth.
  assert (Hnb : forall a, ~ before_check (after_check a)).
  { intros a [H|[a' [[d H]|H]]]; discriminate. }
  assert (Hbs : forall a, before_check (after_sleep a)).
  { intros a. right. exists a. right. reflexivity. }
  assert (Hbd : forall d a, before_check (delayed_action d a)).
  { intros d a. right. exists a. left. exists d. reflexivity. }
  assert (Hbf : before_check finished) by (left; reflexivity).
  destruct Hstage as [ -> | [a [Ha [[d -> ] | [ -> | [ -> | -> ]]]]]].
  - (* returned *)
    simpl. do 4 (split; [reflexivity|]). exists finished.
    split; [symmetry; apply list_insert_id; exact Hth|].
    split; [left; reflexivity|]. left. exists [].
    split; [symmetry; apply app_nil_r|]. split; [constructor|].
    split; [reflexivity|]. tauto.
  - (* asleep *)
    simpl. destruct (sleep_error d) as [exn|].
    + simpl. do 4 (split; [reflexivity|]). exists finished.
      split; [reflexivity|]. split; [left; reflexivity|].
      left. exists [Uncaught exn]. split; [reflexivity|].
      split; [repeat constructor|]. split; [reflexivity|].
      split; [reflexivity|]. split; intros; auto.
    + simpl. do 4 (split; [reflexivity|]). exists (after_sleep a).
      split; [reflexivity|]. split; [right; exists a; tauto|].
      left. exists [Slept d]. split; [reflexivity|].
      split; [repeat constructor|]. split; [reflexivity|].
      split; [reflexivity|]. split; intros; auto.
  - (* about to read the flag *)
    simpl. do 4 (split; [reflexivity|]).
    exists (if is_cancelled (self w) then finished else after_check a).
    split; [reflexivity|].
    split; [destruct (is_cancelled (self w)); [left; reflexivity|right; exists a; tauto]|].
    left. exists []. split; [symmetry; apply app_nil_r|]. split; [constructor|].
    split; [reflexivity|]. split; [reflexivity|]. split; [auto|].
    intros -> _. exact Hbf.
  - (* about to ask for the platform *)
    simpl. do 4 (split; [reflexivity|]). exists (after_platform a (system w)).
    split; [reflexivity|]. split; [right; exists a; tauto|].
    left. exists []. split; [symmetry; apply app_nil_r|]. split; [constructor|].
    split; [reflexivity|]. split; [reflexivity|]. split.
    + intros H. exfalso. revert H. unfold after_platform.
      destruct (String.eqb (system w) "Windows");
        destruct Ha as [-> | ->]; simpl;
        intros [H|[a' [[d H]|H]]]; discriminate.
    + intros _ H. elim (Hnb a H).
  - (* knows the platform *)
    unfold after_platform.
    destruct (String.eqb_spec (system w) "Windows") as [Hsys|Hsys].
    + destruct Ha as [-> | ->]; simpl; do 4 (split; [reflexivity|]);
        exists finished; (split; [reflexivity|]); (split; [left; reflexivity|]);
        right; left; eexists; (split; [reflexivity|]);
        do 4 (split; [reflexivity|]); (split; [exact Hsys|]);
        do 2 (split; [reflexivity|]);
        intros [H|[a' [[d H]|H]]]; discriminate.
    + simpl. do 4 (split; [reflexivity|]). exists finished.
      split; [reflexivity|]. split; [left; reflexivity|]. right. right.
      do 2 (split; [reflexivity|]). split; [exact Hsys|].
      do 2 (split; [reflexivity|]).
      intros [H|[a' [[d H]|H]]]; discriminate.
Qed.

Lemma quiet_counts delta l :
  Forall quiet delta ->
  platform_calls (l ++ delta) = platform_calls l
  /\ count_out is_posted (l ++ delta) = count_out is_posted l
  /\ count_out is_notice (l ++ delta) = count_out is_notice l.
Proof.
  intros H. unfold platform_calls.
  repeat split; apply count_out_quiet; eapply Forall_impl; eauto;
    intros o (? & ? & ?); assumption.
Qed.

Lemma worker_inv_boot file werr sys w : boot file werr sys = Ok w -> worker_inv w.
Proof.
  unfold boot, load_settings. simpl.
  assert (Hok : forall s l, (l = [] \/ exists e, l = [Print e]) ->
            worker_inv (mkWorld s file werr sys [] [] l)).
  { intros s l Hl. unfold worker_inv, alive. simpl.
    split; [constructor|].
    destruct Hl as [->|[e ->]]; repeat split; reflexivity || (intros; reflexivity). }
  destruct file as [|e|e|x|v]; try (intros [= <-]; apply Hok; eauto).
  destruct v; try discriminate. intros [= <-]. apply Hok. eauto.
Qed.

Lemma worker_inv_step w e : worker_inv w -> worker_inv (step w e).
Proof.
  intros (Hst & Hcalls & Hoff & Hpe & Hnot & Hwin).
  assert (Hcases : (exists i, e = ThreadStep i) \/ e = RunPosted
                   \/ ((forall i, e <> ThreadStep i) /\ e <> RunPosted)).
  { destruct e; eauto; right; right; split; congruence. }
  destruct Hcases as [[i ->]|[->|[Hnt Hnr]]].
  - (* a worker *)
    simpl. destruct (threads w !! i) as [th|] eqn:Hth.
    2: { unfold thread_step. rewrite Hth. repeat split; assumption. }
    assert (Hs : is_stage (system w) th).
    { eapply Forall_lookup_1; eauto. }
    destruct (thread_step_effect w i th Hth Hs)
      as (Hsys & _ & _ & _ & th' & Hthr & Hs' & Hcase).
    pose proof (alive_insert (threads w) i th th' Hth) as Hal.
    unfold worker_inv, alive in *. rewrite Hsys, Hthr, length_insert.
    split; [apply Forall_insert; assumption|].
    destruct Hcase as [(delta & Hlog & Hq & Hpost & Himp & _)
                      |[(o & Hlog & Hcall & Hnp & Hnn & Hpost & Hsysw & -> & Hal' & _)
                       |(Hlog & Hpost & Hsysw & -> & Hal' & _)]];
      rewrite Hlog, Hpost.
    + destruct (quiet_counts delta (log w) Hq) as (-> & -> & ->).
      repeat split; try assumption.
      destruct (is_alive th'), (is_alive th); try lia;
        specialize (Himp eq_refl); discriminate.
    + unfold platform_calls in *. rewrite !count_out_snoc, Hcall, Hnp, Hnn.
      rewrite Hal' in Hal. simpl in Hal.
      repeat split; try lia; try (intros; congruence).
      intros H. apply Hwin in H. lia.
    + unfold platform_calls in *. rewrite !count_out_snoc.
      rewrite Hal' in Hal. simpl in *.
      repeat split; try lia; try (intros; congruence).
      intros H. apply Hoff in H. lia.
  - (* the queue of the event loop, which is empty *)
    simpl. rewrite Hpe. repeat split; assumption.
  - (* the window *)
    destruct (ui_step_effect w e Hnt Hnr)
      as (Hsys & Hpost & _ & (delta & Hlog & Hq) & Hthr).
    unfold worker_inv, alive in *. rewrite Hsys, Hpost, Hlog.
    destruct (quiet_counts delta (log w) Hq) as (-> & -> & ->).
    destruct Hthr as [->|(d & a & Ha & ->)]; [repeat split; assumption|].
    rewrite alive_snoc, length_app. simpl.
    repeat split; try assumption; try lia.
    apply Forall_app. split; [assumption|]. constructor; [|constructor].
    right. exists a. split; [assumption|]. left. exists d. reflexivity.
Qed.

Lemma reachable_worker_inv w : reachable w -> worker_inv w.
Proof.
  induction 1 as [file werr sys w Hboot|w e _ IH].
  - exact (worker_inv_boot _ _ _ _ Hboot).
  - exact (worker_inv_step _ _ IH).
Qed.

End Workers.

Section WorkerProperties.

Import Stages.

Lemma count_out_zero f l :
  count_out f l = 0%nat -> forall o, In o l -> f o = false.
Proof.
  unfold count_out. induction l as [|x l IH]; intros Hz o Ho; [elim Ho|].
  rewrite filter_cons in Hz. destruct (f x) eqn:Hx; case_decide; try congruence;
    simpl in Hz; try discriminate.
  destruct Ho as [<-|Ho]; [exact Hx|]. apply IH; assumption.
Qed.

End WorkerProperties.

(** C1, a defect of the code: on a platform other than Windows the worker
    does not report to the window.  [delayed_action] calls
    [QTimer.singleShot] on its own thread, which runs no Qt event loop, so
    [show_msg] is never run, although the comment above the call reads
    "Show message on main thread".  Whatever the user and the workers do,
    the queue of the event loop of the window stays empty, a delivery from
    it changes nothing, and no "Unsupported OS" notice is ever shown.  The
    schedule of 5 seconds and Hibernate on Linux, never cancelled, ends with
    the call of [QTimer.singleShot] and nothing after it; what the claim
    expects there is what [show_msg] does when it is run.  A second defect
    is in the wait: from 9223372037 seconds on [time.sleep] raises
    [OverflowError], and the worker ends without a check of the flag and
    without a platform call. *)
Theorem C1_unsupported_platform_not_reported :
  (forall w, reachable w ->
     posted w = [] /\ step w RunPosted = w
     /\ Stages.count_out Stages.is_notice (log w) = 0%nat
     /\ forall title text, ~ In (MessageBox Information title text) (log w))
  /\ (let w := run (fresh "Linux")
                   [TypeText "5"; ChooseHibernate; ClickSchedule;
                    ThreadStep 0; ThreadStep 0; ThreadStep 0; ThreadStep 0;
                    RunPosted] in
      log w = [SetStatus "Scheduled Hibernate in 5 seconds..."; Slept 5;
               SingleShot 0 show_msg]
      /\ alive w = 0%nat /\ posted w = [] /\ is_cancelled (self w) = false)
  /\ (forall w, log (run_callback w show_msg)
        = (log w ++ [MessageBox Information "Unsupported OS"
                       "This script currently supports only Windows."])%list)
  /\ (let w := run (fresh "Windows")
                   [TypeText "9223372037"; ClickSchedule; ThreadStep 0] in
      log w = [SetStatus "Scheduled Sleep in 9223372037 seconds...";
               Uncaught "OverflowError"]
      /\ alive w = 0%nat /\ is_cancelled (self w) = false).
Proof.
  split; [|split; [|split]].
  - intros w Hreach.
    destruct (reachable_worker_inv w Hreach) as (_ & _ & _ & Hpe & Hnot & _).
    split; [exact Hpe|]. split; [simpl; rewrite Hpe; reflexivity|].
    split; [exact Hnot|]. intros title text Hin.
    pose proof (count_out_zero _ _ Hnot _ Hin) as H. discriminate.
  - vm_compute. repeat split.
  - reflexivity.
  - vm_compute. repeat split.
Qed.

Lemma C1_unsupported_platform_not_reported_witness :
  let w := run (fresh "Linux")
               [TypeText "5"; ChooseHibernate; ClickSchedule;
                ThreadStep 0; ThreadStep 0; ThreadStep 0; ThreadStep 0] in
  posted w = [] /\ step w RunPosted = w.
Proof.
  intros w.
  destruct (proj1 C1_unsupported_platform_not_reported w
              (reachable_run _ _ (reachable_fresh "Linux")))
    as (Hp & Hs & _).
  split; [exact Hp|exact Hs].
Defined.

(** X1: on a platform other than Windows no reachable world has made a
    platform call: whatever the user and the workers do, the log holds no
    [subprocess.call] and no [os.system]. *)
Theorem X1_no_platform_call_off_windows (w : world) :
  reachable w -> system w <> "Windows" ->
  Stages.platform_calls (log w) = 0%nat
  /\ forall o, In o (log w) -> Spec.is_platform_call o = false.
Proof.
  intros Hreach Hsys.
  destruct (reachable_worker_inv w Hreach) as (_ & _ & Hoff & _).
  split; [exact (Hoff Hsys)|].
  apply count_out_zero. exact (Hoff Hsys).
Qed.

Lemma X1_no_platform_call_off_windows_witness :
  Stages.platform_calls
    (log (run (fresh "Linux")
              [TypeText "1"; ClickSchedule; ThreadStep 0; ThreadStep 0;
               ThreadStep 0; ThreadStep 0])) = 0%nat.
Proof.
  refine (proj1 (X1_no_platform_call_off_windows _ _ _)).
  - apply reachable_run, reachable_fresh.
  - discriminate.
Defined.

(** X2: every worker makes at most one platform call: in every reachable
    world the platform calls made so far and the workers still alive
    together are no more than the workers started, and every worker is at
    a stage of [delayed_action] for "Sleep" or "Hibernate". *)
Theorem X2_one_call_per_worker (w : world) :
  reachable w ->
  (Stages.platform_calls (log w) + alive w <= length (threads w))%nat
  /\ Forall (Stages.is_stage (system w)) (threads w).
Proof.
  intros Hreach.
  destruct (reachable_worker_inv w Hreach) as (Hst & Hcalls & _).
  split; [lia|assumption].
Qed.

Lemma X2_one_call_per_worker_witness :
  let w := run (fresh "Windows")
               [TypeText "1"; ClickSchedule; ThreadStep 0; ThreadStep 0;
                ThreadStep 0; ThreadStep 0; ThreadStep 0] in
  (Stages.platform_calls (log w) + alive w <= length (threads w))%nat.
Proof.
  intros w. refine (proj1 (X2_one_call_per_worker w _)).
  apply reachable_run, reachable_fresh.
Defined.

(** X3: a worker ends with at most one call, to the platform or to
    [QTimer.singleShot]: in every reachable world the platform calls and
    the calls of [QTimer.singleShot] made so far and the workers still
    alive together are no more than the workers started.  On Windows no
    worker calls [QTimer.singleShot]. *)
Theorem X3_one_last_call_per_worker (w : world) :
  reachable w ->
  (Stages.platform_calls (log w) + Stages.count_out Stages.is_posted (log w)
   + alive w <= length (threads w))%nat
  /\ (system w = "Windows" ->
      Stages.count_out Stages.is_posted (log w) = 0%nat
      /\ forall o, In o (log w) -> Stages.is_posted o = false).
Proof.
  intros Hreach.
  destruct (reachable_worker_inv w Hreach) as (_ & Hcalls & _ & _ & _ & Hwin).
  split; [exact Hcalls|]. intros Hsys. specialize (Hwin Hsys).
  split; [exact Hwin|]. apply count_out_zero. exact Hwin.
Qed.

Lemma X3_one_last_call_per_worker_witness :
  let w := run (fresh "Linux")
               [TypeText "1"; ClickSchedule; ThreadStep 0; ThreadStep 0;
                ThreadStep 0; ThreadStep 0; RunPosted] in
  (Stages.platform_calls (log w) + Stages.count_out Stages.is_posted (log w)
   + alive w <= length (threads w))%nat.
Proof.
  intros w. refine (proj1 (X3_one_last_call_per_worker w _)).
  apply reachable_run, reachable_fresh.
Defined.

Section Suppression.

Import Stages.

Lemma step_keeps_flag w e :
  e <> ClickSchedule -> (forall i, e <> ThreadStep i) ->
  threads (step w e) = threads w
  /\ (is_cancelled (self w) = true -> is_cancelled (self (step w e)) = true).
Proof.
  intros Hs Ht. destruct e; simpl; try congruence.
  - destruct (entry_enabled (self w)); tauto.
  - destruct (sleep_radio_enabled (self w)); tauto.
  - destruct (hibernate_radio_enabled (self w)); tauto.
  - destruct (cancel_btn_visible (self w)); simpl; tauto.
  - destruct (active (timer (self w))); [|tauto].
    unfold update_timer.
    destruct (_ <? 0); [destruct (is_cancelled (self w))|]; simpl; tauto.
  - destruct (posted w) as [|[] rest]; simpl; tauto.
Qed.

Lemma suppressed_step w e :
  reachable w -> is_cancelled (self w) = true ->
  Forall before_check (threads w) -> e <> ClickSchedule ->
  is_cancelled (self (step w e)) = true
  /\ Forall before_check (threads (step w e))
  /\ platform_calls (log (step w e)) = platform_calls (log w).
Proof.
  intros Hreach Hflag Hbc Hne.
  destruct (reachable_worker_inv w Hreach) as (Hst & _).
  assert (Hcases : (exists i, e = ThreadStep i) \/ e = RunPosted
                   \/ ((forall i, e <> ThreadStep i) /\ e <> RunPosted)).
  { destruct e; eauto; right; right; split; congruence. }
  destruct Hcases as [[i ->]|[->|[Hnt Hnr]]].
  - simpl. destruct (threads w !! i) as [th|] eqn:Hth.
    2: { unfold thread_step. rewrite Hth. tauto. }
    assert (Hs : is_stage (system w) th) by (eapply Forall_lookup_1; eauto).
    assert (Hb : before_check th) by (eapply Forall_lookup_1; eauto).
    destruct (thread_step_effect w i th Hth Hs)
      as (_ & Hself & _ & _ & th' & Hthr & _ & Hcase).
    rewrite Hself, Hthr.
    destruct Hcase as [(delta & Hlog & Hq & _ & _ & _ & Hkeep)
                      |[(o & _ & _ & _ & _ & _ & _ & _ & _ & Hn)
                       |(_ & _ & _ & _ & _ & Hn)]];
      try (elim (Hn Hb)).
    rewrite Hlog. destruct (quiet_counts delta (log w) Hq) as (-> & _).
    repeat split; [assumption|]. apply Forall_insert; auto.
  - simpl. destruct (posted w) as [|[] rest]; [tauto|].
    unfold run_callback, platform_calls. simpl. rewrite count_out_snoc. simpl.
    repeat split; try assumption. lia.
  - destruct (step_keeps_flag w e Hne Hnt) as [Hthr Hkeep].
    destruct (ui_step_effect w e Hnt Hnr) as (_ & _ & _ & (delta & Hlog & Hq) & _).
    rewrite Hthr, Hlog. destruct (quiet_counts delta (log w) Hq) as (-> & _).
    repeat split; auto.
Qed.

End Suppression.

(** X4: a cancel that comes before the worker's check suppresses the
    action.  From a reachable world whose flag is set and whose workers
    have not read the flag yet (or have returned), no sequence of events
    without a click on Schedule adds a platform call: the flag stays set and
    every worker returns at its check. *)
Theorem X4_cancel_before_check_suppresses (w : world) (es : list event) :
  reachable w -> is_cancelled (self w) = true ->
  Forall Stages.before_check (threads w) -> ~ In ClickSchedule es ->
  Stages.platform_calls (log (run w es)) = Stages.platform_calls (log w)
  /\ is_cancelled (self (run w es)) = true
  /\ Forall Stages.before_check (threads (run w es)).
Proof.
  revert w. induction es as [|e es IH]; intros w Hreach Hflag Hbc Hno.
  - simpl. tauto.
  - assert (Hne : e <> ClickSchedule) by (intros ->; apply Hno; left; reflexivity).
    destruct (suppressed_step w e Hreach Hflag Hbc Hne) as (Hflag' & Hbc' & Hcalls).
    change (run w (e :: es)) with (run (step w e) es).
    destruct (IH (step w e)) as (IH1 & IH2 & IH3);
      [now apply reachable_step|assumption|assumption
      |intros Hin; apply Hno; right; exact Hin|].
    rewrite IH1, Hcalls. tauto.
Qed.

Lemma X4_cancel_before_check_suppresses_witness :
  let w := run (fresh "Windows")
               [TypeText "5"; ClickSchedule; Timeout; Timeout; ClickCancel] in
  Stages.platform_calls
    (log (run w [ThreadStep 0; Timeout; ThreadStep 0; ThreadStep 0; ThreadStep 0]))
  = Stages.platform_calls (log w).
Proof.
  intros w.
  refine (proj1 (X4_cancel_before_check_suppresses w
            [ThreadStep 0; Timeout; ThreadStep 0; ThreadStep 0; ThreadStep 0]
            _ _ _ _)).
  - apply reachable_run, reachable_fresh.
  - reflexivity.
  - change (Forall Stages.before_check [delayed_action 5 "Sleep"]).
    constructor; [|constructor].
    right. exists "Sleep". left. exists 5. reflexivity.
  - simpl. intuition discriminate.
Defined.

Section Resolution.

Import Stages.

Lemma status_count_snoc text l o :
  status_count text (l ++ [o])
  = (status_count text l + (if is_status text o then 1 else 0))%nat.
Proof. exact (count_out_snoc (is_status text) l o). Qed.

(** A step of a worker touches neither the window nor the settings file,
    starts no worker and sets no status. *)
Lemma thread_step_frame w i :
  self (thread_step w i) = self w
  /\ settings_json (thread_step w i) = settings_json w
  /\ write_error (thread_step w i) = write_error w
  /\ length (threads (thread_step w i)) = length (threads w)
  /\ forall text, status_count text (log (thread_step w i))
                  = status_count text (log w).
Proof.
  unfold thread_step.
  destruct (threads w !! i) as [[secs ?| | | | | |]|];
    try destruct (sleep_error secs); simpl; rewrite ?length_insert;
    repeat split; intros; rewrite ?status_count_snoc; simpl; lia.
Qed.

Lemma phase_of_visible_schedule w p :
  in_phase w p ->
  match p with Counting => controls_busy (self w) | _ => controls_idle (self w) end ->
  schedule_btn_visible (self w) = true -> active (timer (self w)) = false.
Proof.
  intros Hp Hc Hv. destruct p; simpl in Hp; try tauto.
  destruct Hc as (Hc & _). congruence.
Qed.

Lemma phase_of_visible_cancel w p :
  in_phase w p ->
  match p with Counting => controls_busy (self w) | _ => controls_idle (self w) end ->
  cancel_btn_visible (self w) = true -> p = Counting.
Proof.
  intros Hp Hc Hv. destruct p; try reflexivity;
    destruct Hc as (_ & Hc & _); congruence.
Qed.

Lemma resolved_step w e : reachable w -> resolved w -> resolved (step w e).
Proof.
  intros Hreach Hres. destruct (reachable_inv w Hreach) as [p [Hp Hc]].
  unfold resolved in *. destruct e; simpl.
  - destruct (entry_enabled (self w)); exact Hres.
  - destruct (sleep_radio_enabled (self w)); exact Hres.
  - destruct (hibernate_radio_enabled (self w)); exact Hres.
  - destruct (schedule_btn_visible (self w)) eqn:Hv; [|exact Hres].
    pose proof (phase_of_visible_schedule w p Hp Hc Hv) as Hact.
    rewrite Hact in Hres.
    destruct (int_positive_or_not (entry_text (self w))) as [[d [Hint Hd]]|Hbad].
    + destruct (schedule_action_accepts w d Hint Hd) as [Hs _].
      destruct (schedule_action_accepts_world w d Hint Hd)
        as (Hlog & _ & Hthr & _).
      rewrite Hs, Hlog, Hthr, length_app. simpl.
      destruct (write_error w) as [[e|e cut]|];
        rewrite ?app_assoc, !status_count_snoc;
        simpl; rewrite ?app_nil_r; lia.
    + rewrite (schedule_action_refuses w Hbad). simpl.
      rewrite !status_count_snoc, Hact. simpl. lia.
  - destruct (cancel_btn_visible (self w)) eqn:Hv; [|exact Hres].
    pose proof (phase_of_visible_cancel w p Hp Hc Hv) as ->.
    simpl in Hp. destruct Hp as (Hact & _). rewrite Hact in Hres.
    simpl. rewrite !status_count_snoc. simpl. lia.
  - destruct (active (timer (self w))) eqn:Hact; [|rewrite Hact; exact Hres].
    apply (in_phase_active w p Hp) in Hact as Hcount. subst p.
    simpl in Hp. destruct Hp as (_ & Hcan & _).
    unfold update_timer. rewrite Hcan.
    destruct (_ <? 0); simpl; rewrite ?status_count_snoc, ?Hact; simpl; lia.
  - destruct (posted w) as [|[] rest]; [exact Hres|].
    simpl. rewrite !status_count_snoc. simpl. lia.
  - destruct (thread_step_frame w i) as (-> & _ & _ & -> & Hst).
    rewrite !Hst. exact Hres.
Qed.

Lemma reachable_resolved w : reachable w -> resolved w.
Proof.
  induction 1 as [file werr sys w Hboot|w e Hreach IH].
  - revert Hboot. unfold boot, load_settings, resolved. simpl.
    destruct file as [|e|e|x|v]; try (intros [= <-]; reflexivity).
    destruct v; try discriminate. intros [= <-].
    destruct (Json.isinstance_int _), (Json.eq_str _ _); reflexivity.
  - exact (resolved_step w e Hreach IH).
Qed.

End Resolution.

(** X5: every accepted schedule ends exactly once.  In every reachable
    world the number of workers started is the number of times the status
    "Action executed." was set, plus the number of times "Action cancelled."
    was set, plus one while the timer runs. *)
Theorem X5_every_schedule_resolves_once (w : world) :
  reachable w ->
  (status_count "Action executed." (log w)
   + status_count "Action cancelled." (log w)
   + (if active (timer (self w)) then 1 else 0)
   = length (threads w))%nat.
Proof. exact (reachable_resolved w). Qed.

Lemma X5_every_schedule_resolves_once_witness :
  let w := run (fresh "Windows")
               [TypeText "1"; ClickSchedule; Timeout; Timeout; ClickSchedule;
                ClickCancel; ClickSchedule] in
  (status_count "Action executed." (log w)
   + status_count "Action cancelled." (log w)
   + (if active (timer (self w)) then 1 else 0)
   = length (threads w))%nat.
Proof.
  intros w. refine (X5_every_schedule_resolves_once w _).
  apply reachable_run, reachable_fresh.
Defined.

(** X6: the controls follow the timer.  In every reachable world Cancel is
    visible exactly while the timer runs, and Schedule, the entry and the
    two radio buttons are available exactly while it does not.  While it
    runs, typing, choosing an action and clicking Schedule change nothing;
    while it does not, a click on Cancel and a timeout change nothing. *)
Theorem X6_controls_follow_timer (w : world) :
  reachable w ->
  let s := self w in
  cancel_btn_visible s = active (timer s)
  /\ schedule_btn_visible s = negb (active (timer s))
  /\ entry_enabled s = negb (active (timer s))
  /\ sleep_radio_enabled s = negb (active (timer s))
  /\ hibernate_radio_enabled s = negb (active (timer s))
  /\ (active (timer s) = true ->
        (forall text, step w (TypeText text) = w)
        /\ step w ChooseSleep = w /\ step w ChooseHibernate = w
        /\ step w ClickSchedule = w)
  /\ (active (timer s) = false ->
        step w ClickCancel = w /\ step w Timeout = w).
Proof.
  intros Hreach s. subst s. destruct (reachable_inv w Hreach) as [p [Hp Hc]].
  assert (Hact : active (timer (self w))
                 = match p with Counting => true | _ => false end).
  { destruct p; simpl in Hp; tauto. }
  assert (Hctl : cancel_btn_visible (self w) = active (timer (self w))
    /\ schedule_btn_visible (self w) = negb (active (timer (self w)))
    /\ entry_enabled (self w) = negb (active (timer (self w)))
    /\ sleep_radio_enabled (self w) = negb (active (timer (self w)))
    /\ hibernate_radio_enabled (self w) = negb (active (timer (self w)))).
  { rewrite Hact.
    destruct p; unfold controls_idle, controls_busy in Hc; simpl; tauto. }
  destruct Hctl as (H1 & H2 & H3 & H4 & H5).
  do 5 (split; [assumption|]).
  split; intros Ha; simpl; rewrite ?H1, ?H2, ?H3, ?H4, ?H5, Ha; simpl; tauto.
Qed.

Lemma X6_controls_follow_timer_witness :
  let w := run (fresh "Windows") [TypeText "30"; ClickSchedule; Timeout] in
  step w (TypeText "1") = w.
Proof.
  intros w.
  refine (proj1 (proj1 (proj2 (proj2 (proj2 (proj2 (proj2
    (X6_controls_follow_timer w _)))))) _) "1").
  - apply reachable_run, reachable_fresh.
  - reflexivity.
Defined.

(** X7: once a schedule has been accepted the ring shows the time of the
    scheduler: its total is the scheduler's total and its remaining time is
    the scheduler's, with 0 in place of the -1 of an expired countdown.  So
    the label is that time, and when the timer does not run the ring shows
    "00:00" and no arc. *)
Theorem X7_ring_shows_countdown (w : world) :
  reachable w -> threads w <> [] ->
  let ring := circular_timer (self w) in
  CircularTimerWidget.total_seconds ring = total_seconds (self w)
  /\ CircularTimerWidget.remaining_seconds ring
     = Z.max 0 (remaining_seconds (self w))
  /\ (active (timer (self w)) = false ->
      CircularTimerWidget.drawn_text ring = Some "00:00"
      /\ CircularTimerWidget.drawn_span ring = None).
Proof.
  intros Hreach Hthr ring. subst ring.
  destruct (reachable_inv w Hreach) as [p [Hp _]].
  destruct (circular_timer (self w)) as [dm rt rr] eqn:Hring.
  destruct p; simpl in Hp; unfold ring_is, countdown_state in Hp;
    rewrite Hring in Hp; simpl in *.
  - destruct Hp as (_ & _ & _ & Hnil & _). congruence.
  - destruct Hp as (Hact & _ & Hrem & _ & -> & ->).
    repeat split; try lia; intros; congruence.
  - destruct Hp as (_ & _ & -> & Htot & _ & -> & ->).
    do 2 (split; [reflexivity|]). intros _. split.
    + rewrite drawn_text_time_str. reflexivity.
    + unfold CircularTimerWidget.drawn_span, CircularTimerWidget.paintEvent.
      rewrite progress_pie_none by (simpl; lia). reflexivity.
  - destruct Hp as (_ & [= -> -> _] & _ & -> & ->).
    do 2 (split; [reflexivity|]). intros _. split.
    + rewrite drawn_text_time_str. reflexivity.
    + unfold CircularTimerWidget.drawn_span, CircularTimerWidget.paintEvent.
      rewrite progress_pie_none by (simpl; lia). reflexivity.
Qed.

Lemma X7_ring_shows_countdown_witness :
  let w := run (fresh "Windows") [TypeText "1"; ClickSchedule; Timeout; Timeout] in
  CircularTimerWidget.drawn_text (circular_timer (self w)) = Some "00:00".
Proof.
  intros w.
  refine (proj1 (proj2 (proj2 (X7_ring_shows_countdown w _ _)) _)).
  - apply reachable_run, reachable_fresh.
  - discriminate.
  - reflexivity.
Defined.

Section Running.

Import Stages.

Lemma running_step w e : reachable w -> running w -> running (step w e).
Proof.
  intros Hreach Hrun. destruct (reachable_inv w Hreach) as [p [Hp Hc]].
  assert (Hidle : p <> Counting -> active (timer (self w)) = false).
  { destruct p; simpl in Hp; tauto. }
  assert (Hbusy : p = Counting -> controls_busy (self w)).
  { intros ->. exact Hc. }
  unfold running in *.
  destruct e; cbn [step].
  - destruct (entry_enabled (self w)) eqn:He; [|exact Hrun].
    simpl. intros Ha. destruct p; try (rewrite Hidle in Ha; congruence).
    destruct Hc as (_ & _ & Hc & _). congruence.
  - destruct (sleep_radio_enabled (self w)) eqn:He; [|exact Hrun].
    simpl. intros Ha. destruct p; try (rewrite Hidle in Ha; congruence).
    destruct Hc as (_ & _ & _ & Hc & _). congruence.
  - destruct (hibernate_radio_enabled (self w)) eqn:He; [|exact Hrun].
    simpl. intros Ha. destruct p; try (rewrite Hidle in Ha; congruence).
    destruct Hc as (_ & _ & _ & _ & Hc). congruence.
  - destruct (schedule_btn_visible (self w)) eqn:Hv; [|exact Hrun].
    destruct (int_positive_or_not (entry_text (self w))) as [[d [Hint Hd]]|Hbad].
    + destruct (schedule_action_accepts w d Hint Hd) as [Hs _].
      destruct (schedule_action_accepts_world w d Hint Hd)
        as (_ & Hfile & _ & _ & _ & Hwerr & Hstat & Hshown).
      intros _. cbv zeta. rewrite Hshown, Hstat, Hwerr, Hfile.
      assert (Htot : total_seconds (self (schedule_action w)) = d)
        by (rewrite Hs; reflexivity).
      rewrite Htot. split; [reflexivity|]. intros ->. reflexivity.
    + rewrite (schedule_action_refuses w Hbad). exact Hrun.
  - destruct (cancel_btn_visible (self w)); [|exact Hrun].
    simpl. discriminate.
  - destruct (active (timer (self w))) eqn:Hact; [|intros Ha; congruence].
    specialize (Hrun eq_refl). unfold update_timer.
    destruct (_ <? 0); [destruct (is_cancelled (self w))|]; simpl;
      try discriminate.
    intros _. exact Hrun.
  - destruct (posted w) as [|[] rest]; exact Hrun.
  - destruct (thread_step_frame w i) as (-> & -> & -> & _). exact Hrun.
Qed.

Lemma reachable_running w : reachable w -> running w.
Proof.
  induction 1 as [file werr sys w Hboot|w e Hreach IH].
  - destruct (inv_boot _ _ _ _ Hboot) as [p [Hp Hc]]. intros Hact.
    exfalso. revert Hboot Hact. unfold boot, load_settings. simpl.
    destruct file as [|e|e|x|v]; try (intros [= <-]; discriminate).
    destruct v; try discriminate. intros [= <-].
    destruct (Json.isinstance_int _), (Json.eq_str _ _); discriminate.
  - exact (running_step w e Hreach IH).
Qed.

End Running.

(** X8: what is shown and what is stored is the schedule that runs.  In
    every reachable world whose timer runs, the status text is "Scheduled",
    the selected action, "in", the scheduler's total and "seconds...", and
    when the settings file can be written it holds that total and that
    action. *)
Theorem X8_running_schedule_is_shown_and_stored (w : world) :
  reachable w -> active (timer (self w)) = true ->
  let a := snd (shown_settings (self w)) in
  status_label (self w) = Stages.scheduled_text a (total_seconds (self w))
  /\ (write_error w = None ->
      settings_json w = Stages.settings_document (total_seconds (self w)) a).
Proof. intros Hreach. exact (reachable_running w Hreach). Qed.

Lemma X8_running_schedule_is_shown_and_stored_witness :
  let w := run (fresh "Windows")
               [TypeText "7"; ChooseHibernate; ClickSchedule; Timeout;
                ChooseSleep; TypeText "9"] in
  status_label (self w) = "Scheduled Hibernate in 7 seconds..."
  /\ settings_json w = Stages.settings_document 7 "Hibernate".
Proof.
  intros w.
  destruct (X8_running_schedule_is_shown_and_stored w
              (reachable_run _ _ (reachable_fresh "Windows")) eq_refl)
    as [Hs Hf].
  split; [exact Hs|exact (Hf eq_refl)].
Defined.

(** ** Starting up, and the file the program leaves *)

Section Startup.

Import Stages.

Lemma int_unsigned_pos p :
  (String.length (NilEmpty.string_of_uint (Pos.to_uint p)) <= Py.max_str_digits)%nat ->
  Py.int_unsigned (NilEmpty.string_of_uint (Pos.to_uint p)) = Some (Z.pos p).
Proof.
  intros Hlen.
  pose proof (Unsigned.of_to p) as Hof.
  pose proof (Unsigned.to_uint_nonnil p) as Hnil.
  apply (f_equal Z.of_N) in Hof. rewrite n_of_uint_value in Hof. simpl in Hof.
  rewrite <- count_digits_uint in Hlen. apply Nat.leb_le in Hlen.
  destruct (Pos.to_uint p) as [|u|u|u|u|u|u|u|u|u|u]; try congruence;
    unfold Py.int_unsigned; simpl in *;
    rewrite Hlen, int_digits_uint, <- Hof; reflexivity.
Qed.

(** [int] reads back what [str] prints, for every integer within the digit
    limit. *)
Lemma int_str_any (n : Z) :
  (String.length (Py.str n) <= Py.max_str_digits)%nat ->
  Py.int (Py.str n) = Some n.
Proof.
  destruct n as [|p|p].
  - intros _. reflexivity.
  - intros Hlen. apply int_str; [lia|exact Hlen].
  - unfold Py.str. simpl Z.to_int.
    unfold NilZero.string_of_int, NilZero.string_of_uint.
    pose proof (Unsigned.to_uint_nonnil p) as Hnil.
    assert (Hs : (match Pos.to_uint p with
                  | Decimal.Nil => "0"
                  | _ => NilEmpty.string_of_uint (Pos.to_uint p)
                  end) = NilEmpty.string_of_uint (Pos.to_uint p))
      by (destruct (Pos.to_uint p); congruence).
    rewrite Hs. intros Hlen.
    rewrite int_of_ascii by (simpl; apply is_ascii_uint).
    unfold Py.int_ascii.
    rewrite strip_nospace by (simpl; apply nospace_uint).
    rewrite int_unsigned_pos by (simpl in Hlen; lia). reflexivity.
Qed.

Lemma boot_ok_any file werr sys w werr' sys' :
  boot file werr sys = Ok w -> exists w', boot file werr' sys' = Ok w'.
Proof.
  unfold boot, load_settings. simpl.
  destruct file as [|e|e|x|v]; try discriminate;
    try (intros _; eexists; reflexivity).
  destruct v; try discriminate. intros _. eexists. reflexivity.
Qed.

Lemma boot_settings_document d a werr sys :
  a = "Sleep" \/ a = "Hibernate" ->
  exists w, boot (settings_document d a) werr sys = Ok w
            /\ shown_settings (self w) = (Py.str d, a)
            /\ entry_enabled (self w) = true
            /\ schedule_btn_visible (self w) = true
            /\ threads w = [] /\ log w = [].
Proof.
  intros [-> | ->]; eexists; repeat split; reflexivity.
Qed.

(** The settings file after a step: as before, or what an accepted request
    has written, or what a write that failed has left of it. *)
Lemma settings_step w e :
  settings_json (step w e) = settings_json w
  \/ (exists d a, 0 < d /\ (a = "Sleep" \/ a = "Hibernate")
        /\ settings_json (step w e) = settings_document d a)
  \/ (exists err msg, write_error w = Some (WriteFails err (Some msg))
        /\ settings_json (step w e) = Json.NotJson msg).
Proof.
  destruct e; simpl.
  - destruct (entry_enabled (self w)); tauto.
  - destruct (sleep_radio_enabled (self w)); tauto.
  - destruct (hibernate_radio_enabled (self w)); tauto.
  - destruct (schedule_btn_visible (self w)); [|tauto].
    destruct (int_positive_or_not (entry_text (self w))) as [[d [Hint Hd]]|Hbad].
    + destruct (schedule_action_accepts_world w d Hint Hd) as (_ & Hfile & _).
      rewrite Hfile.
      assert (Ha : snd (shown_settings (self w)) = "Sleep"
                   \/ snd (shown_settings (self w)) = "Hibernate").
      { unfold shown_settings. simpl. destruct (sleep_radio_checked (self w)); tauto. }
      destruct (write_error w) as [[err|err [msg|]]|]; [tauto| | |].
      * right. right. exists err, msg. tauto.
      * right. left. exists d, (snd (shown_settings (self w))). tauto.
      * right. left. exists d, (snd (shown_settings (self w))). tauto.
    + rewrite (schedule_action_refuses w Hbad). tauto.
  - destruct (cancel_btn_visible (self w)); tauto.
  - destruct (active (timer (self w))); [|tauto].
    unfold update_timer.
    destruct (_ <? 0); [destruct (is_cancelled (self w))|]; tauto.
  - destruct (posted w) as [|[] rest]; tauto.
  - destruct (thread_step_frame w i) as (_ & -> & _). tauto.
Qed.

Lemma write_error_step w e : write_error (step w e) = write_error w.
Proof.
  destruct e; simpl.
  - destruct (entry_enabled (self w)); reflexivity.
  - destruct (sleep_radio_enabled (self w)); reflexivity.
  - destruct (hibernate_radio_enabled (self w)); reflexivity.
  - destruct (schedule_btn_visible (self w)); [|reflexivity].
    destruct (int_positive_or_not (entry_text (self w))) as [[d [Hint Hd]]|Hbad].
    + destruct (schedule_action_accepts_world w d Hint Hd)
        as (_ & _ & _ & _ & _ & Hwerr & _). exact Hwerr.
    + rewrite (schedule_action_refuses w Hbad). reflexivity.
  - destruct (cancel_btn_visible (self w)); reflexivity.
  - destruct (active (timer (self w))); [|reflexivity].
    unfold update_timer.
    destruct (_ <? 0); [destruct (is_cancelled (self w))|]; reflexivity.
  - destruct (posted w) as [|[] rest]; reflexivity.
  - destruct (thread_step_frame w i) as (_ & _ & -> & _). reflexivity.
Qed.

Lemma write_error_run w es : write_error (run w es) = write_error w.
Proof.
  revert w. induction es as [|e es IH]; intros w; [reflexivity|].
  change (run w (e :: es)) with (run (step w e) es).
  rewrite IH. apply write_error_step.
Qed.

Lemma settings_run w es :
  settings_json (run w es) = settings_json w
  \/ (exists d a, 0 < d /\ (a = "Sleep" \/ a = "Hibernate")
        /\ settings_json (run w es) = settings_document d a)
  \/ (exists err msg, write_error w = Some (WriteFails err (Some msg))
        /\ settings_json (run w es) = Json.NotJson msg).
Proof.
  revert w. induction es as [|e es IH]; intros w; [left; reflexivity|].
  change (run w (e :: es)) with (run (step w e) es).
  destruct (IH (step w e)) as [Heq|[Hdoc|(err & msg & Hwe & Hcut)]].
  - rewrite Heq. apply settings_step.
  - right. left. exact Hdoc.
  - right. right. exists err, msg. rewrite write_error_step in Hwe. tauto.
Qed.

Lemma boot_write_error file werr sys w :
  boot file werr sys = Ok w -> write_error w = werr.
Proof.
  unfold boot, load_settings. simpl.
  destruct file as [|e|e|x|v]; try (intros [= <-]; reflexivity).
  destruct v; try discriminate. intros [= <-]. reflexivity.
Qed.

Lemma boot_settings file werr sys w :
  boot file werr sys = Ok w -> settings_json w = file.
Proof.
  unfold boot, load_settings. simpl.
  destruct file as [|e|e|x|v]; try (intros [= <-]; reflexivity).
  destruct v; try discriminate. intros [= <-]. reflexivity.
Qed.

End Startup.

(** X9: how the construction of the window ends.  It raises in two cases
    and in no other: [AttributeError] when the settings file holds JSON that
    is not an object, and the exception of [json.load] when that is not a
    [JSONDecodeError] (a [UnicodeDecodeError], a [RecursionError] or a plain
    [ValueError]).  Otherwise it leaves the file as it is, an idle window
    with no worker and no status, and an empty log, except for one printed
    line when the file could not be read or is not JSON. *)
Theorem X9_startup_outcome
  (file : Json.file) (werr : option write_failure) (sys : string) :
  (forall w, boot file werr sys = Ok w ->
     settings_json w = file /\ threads w = [] /\ posted w = []
     /\ active (timer (self w)) = false /\ controls_idle (self w)
     /\ status_label (self w) = ""
     /\ ((log w = []
          /\ forall e, file <> Json.Unreadable e /\ file <> Json.NotJson e)
         \/ exists e, (file = Json.Unreadable e \/ file = Json.NotJson e)
                      /\ log w = [Print ("Could not load settings: " ++ e)]))
  /\ (forall x, boot file werr sys = Raise x ->
        (x = "AttributeError"
         /\ exists v, file = Json.Document v /\ forall m, v <> Json.Object m)
        \/ file = Json.Raises x)
  /\ (forall v, file = Json.Document v -> (forall m, v <> Json.Object m) ->
        boot file werr sys = Raise "AttributeError")
  /\ (forall x, file = Json.Raises x -> boot file werr sys = Raise x)
  /\ ((forall v, file = Json.Document v -> exists m, v = Json.Object m) ->
      (forall x, file <> Json.Raises x) ->
      exists w, boot file werr sys = Ok w).
Proof.
  unfold boot, load_settings, controls_idle. simpl.
  destruct file as [|e|e|x|v].
  - split; [|split; [|split; [|split]]].
    + intros w [= <-]. simpl. repeat split. left. split; [reflexivity|].
      intros e. split; discriminate.
    + discriminate.
    + discriminate.
    + discriminate.
    + intros _ _. eexists. reflexivity.
  - split; [|split; [|split; [|split]]].
    + intros w [= <-]. simpl. repeat split. right. exists e. tauto.
    + discriminate.
    + discriminate.
    + discriminate.
    + intros _ _. eexists. reflexivity.
  - split; [|split; [|split; [|split]]].
    + intros w [= <-]. simpl. repeat split. right. exists e. tauto.
    + discriminate.
    + discriminate.
    + discriminate.
    + intros _ _. eexists. reflexivity.
  - split; [|split; [|split; [|split]]].
    + discriminate.
    + intros y [= <-]. right. reflexivity.
    + discriminate.
    + intros y [= <-]. reflexivity.
    + intros _ H. now elim (H x).
  - split; [|split; [|split; [|split]]].
    + destruct v; try discriminate. intros w [= <-].
      destruct (Json.isinstance_int _), (Json.eq_str _ _); simpl;
        repeat split; left; (split; [reflexivity|]); intros e; split; discriminate.
    + destruct v; try discriminate; intros x [= <-]; left;
        (split; [reflexivity|]); eexists; (split; [reflexivity|]);
        intros m; discriminate.
    + intros v' [= <-] Hno. destruct v; try reflexivity. now elim (Hno members).
    + discriminate.
    + intros H _. destruct (H v eq_refl) as [m ->]. eexists. reflexivity.
Qed.

Lemma X9_startup_outcome_witness :
  boot (Json.Document (Json.Str "x")) None "Windows" = Raise "AttributeError"
  /\ boot (Json.Raises "UnicodeDecodeError") None "Windows"
     = Raise "UnicodeDecodeError".
Proof.
  split.
  - refine (proj1 (proj2 (proj2 (X9_startup_outcome
              (Json.Document (Json.Str "x")) None "Windows"))) _ eq_refl _).
    intros m. discriminate.
  - exact (proj1 (proj2 (proj2 (proj2 (X9_startup_outcome
             (Json.Raises "UnicodeDecodeError") None "Windows"))))
             "UnicodeDecodeError" eq_refl).
Defined.

(** X10: a stored duration is checked when it is used, not when it is
    loaded.  For every integer [n] stored as [last_duration] (within the
    digit limit of [int]) the entry is prefilled with a text that [int]
    reads as [n]; a click on Schedule then starts a countdown of [n] seconds
    when [n > 0], and otherwise only shows "Invalid Input". *)
Theorem X10_stored_duration_checked_at_schedule
  (members : list (string * Json.value)) (n : Z)
  (werr : option write_failure) (sys : string) :
  Json.get "last_duration" members = Json.Int n ->
  (String.length (Py.str n) <= Py.max_str_digits)%nat ->
  exists w, boot (Json.Document (Json.Object members)) werr sys = Ok w
    /\ entry_text (self w) = Py.str n
    /\ Py.int (entry_text (self w)) = Some n
    /\ (0 < n -> countdown_state (step w ClickSchedule) = (n, n, false)
                 /\ active (timer (self (step w ClickSchedule))) = true)
    /\ (n <= 0 -> step w ClickSchedule = emit w Spec.invalid_duration).
Proof.
  intros Hget Hlen. unfold boot, load_settings. simpl. rewrite Hget. simpl.
  eexists. split; [reflexivity|].
  set (w := with_self _ _).
  assert (Htext : entry_text (self w) = Py.str n).
  { subst w. simpl. destruct (Json.eq_str _ _); reflexivity. }
  assert (Hvis : schedule_btn_visible (self w) = true).
  { subst w. simpl. destruct (Json.eq_str _ _); reflexivity. }
  assert (Hint : Py.int (entry_text (self w)) = Some n).
  { rewrite Htext. apply int_str_any, Hlen. }
  split; [exact Htext|]. split; [exact Hint|].
  cbn [step]. rewrite Hvis. split.
  - intros Hn. destruct (schedule_action_accepts w n Hint Hn) as [Hs _].
    unfold countdown_state. rewrite Hs. split; reflexivity.
  - intros Hn. apply schedule_action_refuses.
    intros m Hm. rewrite Hint in Hm. injection Hm as <-. exact Hn.
Qed.

Lemma X10_stored_duration_checked_at_schedule_witness :
  exists w, boot (Json.Document (Json.Object [("last_duration", Json.Int (-5))]))
                 None "Windows" = Ok w
            /\ step w ClickSchedule = emit w Spec.invalid_duration.
Proof.
  destruct (X10_stored_duration_checked_at_schedule
              [("last_duration", Json.Int (-5))] (-5) None "Windows"
              eq_refl) as [w (Hboot & _ & _ & _ & Hbad)].
  - vm_compute. lia.
  - exists w. split; [exact Hboot|]. apply Hbad. lia.
Defined.

(** X11: the program never leaves a settings file it cannot start from.  If
    the window was constructed from a file, then after any sequence of
    events the file is that file, or a document with a duration above zero
    and one of the two actions, or, on a machine where the write fails once
    [open] has emptied the file, a text cut short that [json.load] refuses
    with [JSONDecodeError].  In each case a new process constructs its
    window from it without an exception: from a document the program wrote
    the new window shows that duration and that action, and from a text cut
    short it shows the defaults and prints one line. *)
Theorem X11_settings_file_stays_loadable
  (file : Json.file) (werr werr' : option write_failure) (sys sys' : string)
  (w0 : world) (es : list event) :
  boot file werr sys = Ok w0 ->
  exists w', boot (settings_json (run w0 es)) werr' sys' = Ok w'
    /\ (settings_json (run w0 es) = file
        \/ (exists d a, 0 < d
              /\ settings_json (run w0 es)
                 = Stages.settings_document d (Spec.name a)
              /\ shown_settings (self w') = (Py.str d, Spec.name a))
        \/ (exists err msg, werr = Some (WriteFails err (Some msg))
              /\ settings_json (run w0 es) = Json.NotJson msg
              /\ self w' = init_window
              /\ log w' = [Print ("Could not load settings: " ++ msg)])).
Proof.
  intros Hboot.
  destruct (settings_run w0 es)
    as [Heq|[(d & a & Hd & Ha & Hdoc)|(err & msg & Hwe & Hcut)]].
  - rewrite Heq, (boot_settings _ _ _ _ Hboot).
    destruct (boot_ok_any file werr sys w0 werr' sys' Hboot) as [w' Hw'].
    exists w'. split; [exact Hw'|]. left. reflexivity.
  - rewrite Hdoc.
    destruct (boot_settings_document d a werr' sys' Ha) as (w' & Hw' & Hshown & _).
    exists w'. split; [exact Hw'|]. right. left.
    destruct Ha as [-> | ->].
    + exists d, Spec.Sleep. tauto.
    + exists d, Spec.Hibernate. tauto.
  - rewrite Hcut. rewrite (boot_write_error _ _ _ _ Hboot) in Hwe.
    eexists. split; [reflexivity|]. right. right. exists err, msg.
    repeat split. exact Hwe.
Qed.

Lemma X11_settings_file_stays_loadable_witness :
  (exists w', boot (settings_json (run (fresh "Windows")
                                       [TypeText "8"; ClickSchedule; ClickCancel]))
                   None "Linux" = Ok w')
  /\ (exists w0 w',
        boot Json.Absent (Some (WriteFails "No space left on device"
                                           (Some "Expecting value")))
             "Windows" = Ok w0
        /\ boot (settings_json (run w0 [TypeText "8"; ClickSchedule]))
                None "Windows" = Ok w'
        /\ settings_json (run w0 [TypeText "8"; ClickSchedule])
           = Json.NotJson "Expecting value").
Proof.
  split.
  - destruct (X11_settings_file_stays_loadable Json.Absent None None
                "Windows" "Linux" (fresh "Windows")
                [TypeText "8"; ClickSchedule; ClickCancel] eq_refl)
      as [w' [Hw' _]].
    exists w'. exact Hw'.
  - eexists. 
    destruct (X11_settings_file_stays_loadable Json.Absent
                (Some (WriteFails "No space left on device" (Some "Expecting value")))
                None "Windows" "Windows" _
                [TypeText "8"; ClickSchedule] eq_refl)
      as [w' [Hw' _]].
    exists w'. split; [reflexivity|]. split; [exact Hw'|reflexivity].
Defined.

(** X12: a settings file that cannot be written does not stop a schedule.
    When [open] raises, an accepted request prints one line, leaves the
    file as it was, and starts the countdown and the worker as it would
    otherwise. *)
Theorem X12_save_failure_does_not_block (w : world) (d : Z) (e : string) :
  Py.int (entry_text (self w)) = Some d -> 0 < d ->
  write_error w = Some (OpenFails e) ->
  let w' := schedule_action w in
  let a := snd (shown_settings (self w)) in
  settings_json w' = settings_json w
  /\ log w' = (log w ++ [Print ("Could not save settings: " ++ e);
                         SetStatus (Stages.scheduled_text a d)])%list
  /\ countdown_state w' = (d, d, false)
  /\ active (timer (self w')) = true
  /\ threads w' = (threads w ++ [delayed_action d a])%list.
Proof.
  intros Hint Hd Hwerr w' a. subst w' a.
  destruct (schedule_action_accepts w d Hint Hd) as [Hs _].
  destruct (schedule_action_accepts_world w d Hint Hd)
    as (Hlog & Hfile & Hthr & _).
  rewrite Hwerr in Hlog, Hfile. unfold countdown_state. rewrite Hs.
  repeat split; assumption.
Qed.

Lemma X12_save_failure_does_not_block_witness :
  let w := mkWorld (entry_setText init_window "4") Json.Absent
                   (Some (OpenFails "Permission denied")) "Windows" [] [] [] in
  settings_json (schedule_action w) = Json.Absent
  /\ countdown_state (schedule_action w) = (4, 4, false).
Proof.
  intros w.
  destruct (X12_save_failure_does_not_block w 4 "Permission denied"
              eq_refl eq_refl eq_refl) as (Hf & _ & Hc & _).
  split; [exact Hf|exact Hc].
Defined.

(** X13: a schedule survives a restart.  After a request for [d] seconds
    was accepted and saved, a new process constructed from the file shows
    [d] and the action, and a click on Schedule there starts the same
    countdown with one worker for the same action. *)
Theorem X13_schedule_survives_restart
  (w : world) (d : Z) (werr' : option write_failure) (sys' : string) :
  Py.int (entry_text (self w)) = Some d -> 0 < d ->
  write_error w = None ->
  (String.length (Py.str d) <= Py.max_str_digits)%nat ->
  let a := snd (shown_settings (self w)) in
  exists w', boot (settings_json (schedule_action w)) werr' sys' = Ok w'
    /\ shown_settings (self w') = (Py.str d, a)
    /\ countdown_state (step w' ClickSchedule) = (d, d, false)
    /\ threads (step w' ClickSchedule) = [delayed_action d a].
Proof.
  intros Hint Hd Hwerr Hlen a.
  destruct (schedule_action_accepts_world w d Hint Hd) as (_ & Hfile & _).
  rewrite Hwerr in Hfile. rewrite Hfile.
  assert (Ha : a = "Sleep" \/ a = "Hibernate").
  { subst a. unfold shown_settings. simpl.
    destruct (sleep_radio_checked (self w)); tauto. }
  destruct (boot_settings_document d a werr' sys' Ha)
    as (w' & Hw' & Hshown & _ & Hvis & Hthr & _).
  exists w'. split; [exact Hw'|]. split; [exact Hshown|].
  assert (Hint' : Py.int (entry_text (self w')) = Some d).
  { change (entry_text (self w')) with (fst (shown_settings (self w'))).
    rewrite Hshown. apply int_str; assumption. }
  cbn [step]. rewrite Hvis.
  destruct (schedule_action_accepts w' d Hint' Hd) as [Hs Ht].
  unfold countdown_state. rewrite Hs, Ht, Hthr.
  assert (Hact : (if sleep_radio_checked (self w') then "Sleep" else "Hibernate") = a).
  { change (snd (shown_settings (self w')) = a). rewrite Hshown. reflexivity. }
  rewrite Hact. split; reflexivity.
Qed.

Lemma X13_schedule_survives_restart_witness :
  let w := run (fresh "Windows") [TypeText " 12 "; ChooseHibernate] in
  exists w', boot (settings_json (schedule_action w)) None "Windows" = Ok w'
    /\ shown_settings (self w') = ("12", "Hibernate")
    /\ countdown_state (step w' ClickSchedule) = (12, 12, false)
    /\ threads (step w' ClickSchedule) = [delayed_action 12 "Hibernate"].
Proof.
  intros w.
  refine (X13_schedule_survives_restart w 12 None "Windows" _ _ _ _).
  - reflexivity.
  - lia.
  - reflexivity.
  - vm_compute. lia.
Defined.

(** ** The arc and the label *)

Section ArcAndLabel.

Import CircularTimerWidget Readback.

Lemma arc_within ring :
  0 <= remaining_seconds ring <= total_seconds ring ->
  0 <= arc_sixteenths ring <= 5760
  /\ forall span, drawn_span ring = Some span -> -5760 <= span <= 0.
Proof.
  intros Hr. unfold arc_sixteenths, drawn_span, paintEvent.
  destruct (Z.eq_dec (total_seconds ring) 0) as [Ht|Ht].
  - rewrite (progress_pie_none ring) by lia. simpl.
    split; [lia|discriminate].
  - destruct (progress_pie_span ring) as [Hp|(v & Hv & Hp)];
      [lia|exact Hr| |]; rewrite Hp; simpl.
    + split; [lia|discriminate].
    + split; [lia|]. intros span [= <-]. exact Hv.
Qed.

Lemma arc_none ring :
  total_seconds ring <= 0 \/ remaining_seconds ring <= 0 ->
  arc_sixteenths ring = 0.
Proof.
  intros H. unfold arc_sixteenths, drawn_span, paintEvent.
  rewrite (progress_pie_none ring H). reflexivity.
Qed.

Lemma arc_full ring :
  0 < total_seconds ring -> remaining_seconds ring = total_seconds ring ->
  arc_sixteenths ring = 5760.
Proof.
  intros Ht Hr. unfold arc_sixteenths, drawn_span, paintEvent.
  rewrite (progress_pie_full ring Ht Hr). reflexivity.
Qed.

Lemma zeros_lead k u :
  (Py.zeros k ++ NilEmpty.string_of_uint u)%string
  = NilEmpty.string_of_uint (lead_zeros k u).
Proof. induction k as [|k IH]; simpl; congruence. Qed.

Lemma of_uint_lead_zeros k u : Pos.of_uint (lead_zeros k u) = Pos.of_uint u.
Proof. induction k as [|k IH]; simpl; assumption || reflexivity. Qed.

Lemma str_numeral n :
  0 <= n ->
  exists u, Py.str n = NilEmpty.string_of_uint u /\ Z.of_N (Pos.of_uint u) = n.
Proof.
  intros Hn. destruct n as [|p|p]; try lia.
  - exists (Decimal.D0 Decimal.Nil). split; reflexivity.
  - exists (Pos.to_uint p). split.
    + unfold Py.str. simpl Z.to_int.
      unfold NilZero.string_of_int, NilZero.string_of_uint.
      pose proof (Unsigned.to_uint_nonnil p).
      destruct (Pos.to_uint p); congruence.
    + rewrite Unsigned.of_to. reflexivity.
Qed.

Lemma decode_zero_pad w n :
  0 <= n -> decode_number (Spec.zero_pad w n) = Some n.
Proof.
  intros Hn. destruct (str_numeral n Hn) as (u & Hs & Hv).
  unfold Spec.zero_pad, decode_number. rewrite Hs, zeros_lead, NilEmpty.usu.
  simpl. rewrite of_uint_lead_zeros, Hv. reflexivity.
Qed.

Lemma no_colon_numeral u : no_colon (NilEmpty.string_of_uint u) = true.
Proof. induction u; simpl; assumption || reflexivity. Qed.

Lemma no_colon_zero_pad w n : 0 <= n -> no_colon (Spec.zero_pad w n) = true.
Proof.
  intros Hn. destruct (str_numeral n Hn) as (u & Hs & _).
  unfold Spec.zero_pad. rewrite Hs, zeros_lead. apply no_colon_numeral.
Qed.

Lemma split_colon_app a b :
  no_colon a = true -> split_colon (a ++ ":" ++ b)%string = Some (a, b).
Proof.
  change (":" ++ b)%string with (String ":"%char b).
  induction a as [|c a IH]; simpl; intros H; [reflexivity|].
  apply andb_prop in H as [Hc Ha]. apply negb_true_iff in Hc.
  rewrite Hc, (IH Ha). reflexivity.
Qed.

Lemma decode_time_str ring :
  0 <= remaining_seconds ring ->
  decode_label (time_str ring) = Some (remaining_seconds ring).
Proof.
  intros Hr. unfold time_str, Py.divmod, decode_label. cbv beta iota zeta.
  assert (Hm : 0 <= remaining_seconds ring / 60) by (apply Z.div_pos; lia).
  assert (Hs : 0 <= remaining_seconds ring mod 60 < 60)
    by (apply Z.mod_pos_bound; lia).
  rewrite !format_zero_nonneg by lia.
  rewrite split_colon_app by (apply no_colon_zero_pad; lia).
  rewrite !decode_zero_pad by lia.
  f_equal. symmetry. apply Z.div_mod. lia.
Qed.

End ArcAndLabel.

(** X14: the arc is clockwise and within a turn, full at the start and
    gone at the end.  For a ring with [0 <= remaining <= total] the pie
    [paintEvent] draws has a span between -5760 and 0 sixteenths of a
    degree; so it is in every reachable world, before and after a timeout.
    An accepted request shows a full turn, and once a countdown has expired
    or was cancelled no arc is left. *)
Theorem X14_arc_within_a_turn :
  (forall ring,
     0 <= CircularTimerWidget.remaining_seconds ring
       <= CircularTimerWidget.total_seconds ring ->
     0 <= Readback.arc_sixteenths ring <= 5760
     /\ forall span, CircularTimerWidget.drawn_span ring = Some span ->
           -5760 <= span <= 0)
  /\ (forall w, reachable w ->
        0 <= Readback.arc_sixteenths (circular_timer (self w)) <= 5760
        /\ 0 <= Readback.arc_sixteenths (circular_timer (self (step w Timeout)))
           <= 5760)
  /\ (forall w d, Py.int (entry_text (self w)) = Some d -> 0 < d ->
        Readback.arc_sixteenths (circular_timer (self (schedule_action w)))
        = 5760)
  /\ (forall w, reachable w -> active (timer (self w)) = false ->
        threads w <> [] ->
        Readback.arc_sixteenths (circular_timer (self w)) = 0).
Proof.
  assert (Hring : forall w, reachable w ->
            0 <= CircularTimerWidget.remaining_seconds (circular_timer (self w))
              <= CircularTimerWidget.total_seconds (circular_timer (self w))).
  { intros w Hreach. destruct (reachable_inv w Hreach) as [p [Hp _]].
    destruct p; simpl in Hp; unfold ring_is in Hp.
    - destruct Hp as (_ & _ & _ & _ & -> & ->). lia.
    - destruct Hp as (_ & _ & ? & ? & -> & ->). lia.
    - destruct Hp as (_ & _ & _ & ? & _ & -> & ->). lia.
    - destruct Hp as (_ & _ & _ & -> & ->). lia. }
  split; [exact arc_within|]. split; [|split].
  - intros w Hreach. split.
    + apply arc_within, Hring, Hreach.
    + apply arc_within, Hring. now apply reachable_step.
  - intros w d Hint Hd.
    destruct (schedule_action_accepts w d Hint Hd) as [Hs _].
    rewrite Hs. apply arc_full; simpl; [exact Hd|reflexivity].
  - intros w Hreach Hact Hthr.
    destruct (reachable_inv w Hreach) as [p [Hp _]].
    destruct p; simpl in Hp; unfold ring_is in Hp.
    + destruct Hp as (_ & _ & _ & Hnil & _). congruence.
    + destruct Hp as (Ha & _). congruence.
    + destruct Hp as (_ & _ & _ & _ & _ & _ & H0). apply arc_none. lia.
    + destruct Hp as (_ & _ & _ & H0 & _). apply arc_none. lia.
Qed.

Lemma X14_arc_within_a_turn_witness :
  let w := run (fresh "Windows") [TypeText "7"; ClickSchedule; Timeout] in
  0 <= Readback.arc_sixteenths (circular_timer (self w)) <= 5760.
Proof.
  intros w.
  refine (proj1 (proj1 (proj2 X14_arc_within_a_turn) w _)).
  apply reachable_run, reachable_fresh.
Defined.

(** X15: the label determines the remaining time.  For every remaining time
    [r >= 0] the text drawn, cut at its colon and read as minutes and
    seconds, gives [r] back; so two rings with different remaining times
    never show the same label. *)
Theorem X15_label_reads_back (ring : CircularTimerWidget.t) :
  0 <= CircularTimerWidget.remaining_seconds ring ->
  (exists text, CircularTimerWidget.drawn_text ring = Some text
     /\ Readback.decode_label text
        = Some (CircularTimerWidget.remaining_seconds ring))
  /\ (forall ring',
        0 <= CircularTimerWidget.remaining_seconds ring' ->
        CircularTimerWidget.drawn_text ring' = CircularTimerWidget.drawn_text ring ->
        CircularTimerWidget.remaining_seconds ring'
        = CircularTimerWidget.remaining_seconds ring).
Proof.
  intros Hr. split.
  - exists (CircularTimerWidget.time_str ring).
    split; [apply drawn_text_time_str|apply decode_time_str, Hr].
  - intros ring' Hr' Heq. rewrite !drawn_text_time_str in Heq.
    injection Heq as Heq.
    pose proof (decode_time_str ring' Hr') as H1.
    pose proof (decode_time_str ring Hr) as H2.
    rewrite Heq in H1. congruence.
Qed.

Lemma X15_label_reads_back_witness :
  exists text,
    CircularTimerWidget.drawn_text
      (CircularTimerWidget.set_timer (CircularTimerWidget.init 200) 9000 7384)
    = Some text
    /\ Readback.decode_label text = Some 7384.
Proof.
  refine (proj1 (X15_label_reads_back
    (CircularTimerWidget.set_timer (CircularTimerWidget.init 200) 9000 7384) _)).
  simpl. lia.
Defined.

(** ** Dragging the window *)

Section Dragging.

Import Drag.

Lemma add_sub (a b : QPoint) : add (sub a b) b = a.
Proof. destruct a, b. unfold add, sub. simpl. f_equal; lia. Qed.

Lemma add_sub_l (a b : QPoint) : add b (sub a b) = a.
Proof. destruct a, b. unfold add, sub. simpl. f_equal; lia. Qed.

Lemma sub_add (a b : QPoint) : sub (add a b) b = a.
Proof. destruct a, b. unfold add, sub. simpl. f_equal; lia. Qed.

(** Once [_drag_pos] exists no move raises, and the frame is where the last
    move with the left button alone has put it. *)
Lemma moves_anchored events : forall self p,
  drag_pos self = Some p ->
  moves self events
  = Ok {| frame_top_left :=
            sub (last_left (add (frame_top_left self) p) events) p;
          drag_pos := Some p |}.
Proof.
  induction events as [|[buttons g] rest IH]; intros self p Hp.
  - simpl. rewrite sub_add. destruct self. simpl in *. congruence.
  - simpl. unfold mouseMoveEvent. rewrite Hp.
    destruct (buttons =? LeftButton).
    + rewrite (IH {| frame_top_left := sub g p; drag_pos := Some p |} p eq_refl).
      simpl. rewrite add_sub. reflexivity.
    + apply IH, Hp.
Qed.

End Dragging.

(** X16: a drag moves the window with the cursor.  After a press of the
    left button at [g0], any run of move events ends without an exception
    with the frame displaced by exactly what the cursor has moved between
    the press and the last move made with the left button alone; the
    offset of the cursor in the window is the one of the press. *)
Theorem X16_drag_follows_cursor
  (self : Drag.t) (g0 : Drag.QPoint) (events : list (Z * Drag.QPoint)) :
  let g := Drag.last_left g0 events in
  exists self',
    Drag.moves (Drag.mousePressEvent self Drag.LeftButton g0) events = Ok self'
    /\ Drag.frame_top_left self'
       = Drag.add (Drag.frame_top_left self) (Drag.sub g g0)
    /\ Drag.sub g (Drag.frame_top_left self')
       = Drag.sub g0 (Drag.frame_top_left self)
    /\ Drag.drag_pos self' = Some (Drag.sub g0 (Drag.frame_top_left self)).
Proof.
  intros g. subst g. eexists. split.
  - apply moves_anchored. reflexivity.
  - simpl. rewrite add_sub_l.
    destruct (Drag.last_left g0 events) as [gx gy], g0 as [x0 y0],
      (Drag.frame_top_left self) as [tx ty].
    unfold Drag.add, Drag.sub. simpl. repeat split; f_equal; lia.
Qed.

(** X17: the mouse handlers outside a drag.  A press with another button
    than the left one changes nothing; a move with any other combination
    of buttons than the left one alone changes nothing and raises nothing;
    and a move with the left button on a window that has had no left press
    raises [AttributeError], whatever other presses came before. *)
Theorem X17_mouse_handlers_outside_a_drag (self : Drag.t) :
  (forall button g, button <> Drag.LeftButton ->
     Drag.mousePressEvent self button g = self)
  /\ (forall buttons g, buttons <> Drag.LeftButton ->
        Drag.mouseMoveEvent self buttons g = Ok self)
  /\ (Drag.drag_pos self = None ->
      forall button g g', button <> Drag.LeftButton ->
        Drag.mouseMoveEvent (Drag.mousePressEvent self button g)
                            Drag.LeftButton g'
        = Raise "AttributeError")
  /\ (forall p g, Drag.mouseMoveEvent (Drag.init p) Drag.LeftButton g
                  = Raise "AttributeError").
Proof.
  assert (Hpress : forall button g, button <> Drag.LeftButton ->
            Drag.mousePressEvent self button g = self).
  { intros button g Hb. unfold Drag.mousePressEvent.
    destruct (Z.eqb_spec button Drag.LeftButton); [contradiction|reflexivity]. }
  split; [exact Hpress|]. split; [|split].
  - intros buttons g Hb. unfold Drag.mouseMoveEvent.
    destruct (Z.eqb_spec buttons Drag.LeftButton); [contradiction|reflexivity].
  - intros Hnone button g g' Hb. rewrite (Hpress button g Hb).
    unfold Drag.mouseMoveEvent. rewrite Hnone. reflexivity.
  - reflexivity.
Qed.

Lemma X17_mouse_handlers_outside_a_drag_witness :
  Drag.mouseMoveEvent
    (Drag.mousePressEvent (Drag.init (100, 100)) Drag.RightButton (120, 130))
    Drag.LeftButton (125, 135)
  = Raise "AttributeError".
Proof.
  refine (proj1 (proj2 (proj2 (X17_mouse_handlers_outside_a_drag
                                 (Drag.init (100, 100)))))
                eq_refl Drag.RightButton (120, 130) (125, 135) _).
  discriminate.
Defined.

(** ** The worker on its own, and a write that fails late *)



(** X19: a write of the settings that fails after [open] has emptied the
    file does not stop a schedule either, but it costs the stored settings.
    An accepted request then prints one line and starts the countdown and
    the worker; the file holds the text written so far, and when that is
    short of the whole document the next start prints one line and shows
    the defaults. *)
Theorem X19_write_failure_after_open
  (w : world) (d : Z) (e : string) (cut : option string) :
  Py.int (entry_text (self w)) = Some d -> 0 < d ->
  write_error w = Some (WriteFails e cut) ->
  let w' := schedule_action w in
  let a := snd (shown_settings (self w)) in
  settings_json w'
  = match cut with
    | Some msg => Json.NotJson msg
    | None => Stages.settings_document d a
    end
  /\ log w' = (log w ++ [Print ("Could not save settings: " ++ e);
                         SetStatus (Stages.scheduled_text a d)])%list
  /\ countdown_state w' = (d, d, false)
  /\ active (timer (self w')) = true
  /\ threads w' = (threads w ++ [delayed_action d a])%list
  /\ (forall msg werr' sys', cut = Some msg ->
        exists w2, boot (settings_json w') werr' sys' = Ok w2
          /\ shown_settings (self w2) = ("", "Sleep")
          /\ log w2 = [Print ("Could not load settings: " ++ msg)]).
Proof.
  intros Hint Hd Hwerr w' a. subst w' a.
  destruct (schedule_action_accepts w d Hint Hd) as [Hs _].
  destruct (schedule_action_accepts_world w d Hint Hd)
    as (Hlog & Hfile & Hthr & _).
  rewrite Hwerr in Hlog, Hfile. unfold countdown_state. rewrite Hs.
  split; [rewrite Hfile; destruct cut; reflexivity|].
  split; [exact Hlog|]. split; [reflexivity|]. split; [reflexivity|].
  split; [exact Hthr|].
  intros msg werr' sys' ->. rewrite Hfile.
  eexists. repeat split.
Qed.

Lemma X19_write_failure_after_open_witness :
  let w := mkWorld (entry_setText init_window "4")
                   (Stages.settings_document 9 "Hibernate")
                   (Some (WriteFails "No space left on device"
                                     (Some "Expecting value")))
                   "Windows" [] [] [] in
  settings_json (schedule_action w) = Json.NotJson "Expecting value"
  /\ countdown_state (schedule_action w) = (4, 4, false).
Proof.
  intros w.
  destruct (X19_write_failure_after_open w 4 "No space left on device"
              (Some "Expecting value") eq_refl eq_refl eq_refl)
    as (Hf & _ & Hc & _).
  split; [exact Hf|exact Hc].
Defined.
